(** * ooresults: card-reader ingestion, entry orchestration and series points

    A shallow embedding of [ooresults/model/results.py] and
    [ooresults/model/entries.py].  The model functions are state
    transformers over an explicit store; exceptions are values of an
    error type.  The result engine ([PersonRaceResult.compute_result],
    [has_punches], [same_si_punches], [reset]) lives in
    [ooresults/otypes/result_type.py] and is taken as an interface
    ([ResultEngine]). *)

From Stdlib Require Import ZArith List String Bool Lia.
From Stdlib Require Import Sorting.Sorted Sorting.Permutation
  Structures.OrderedTypeEx.
Import ListNotations.
Open Scope string_scope.
Open Scope Z_scope.

(** ** Times and status codes *)

(** A point in time ([datetime.datetime]), as seconds on a common clock. *)
Definition datetime := Z.

Module ResultStatus.
Inductive t :=
  | INACTIVE | ACTIVE | FINISHED | OK | MISSING_PUNCH
  | DID_NOT_START | DID_NOT_FINISH | DISQUALIFIED | OVER_TIME.

Definition eqb (a b : t) : bool :=
  match a, b with
  | INACTIVE, INACTIVE | ACTIVE, ACTIVE | FINISHED, FINISHED | OK, OK
  | MISSING_PUNCH, MISSING_PUNCH | DID_NOT_START, DID_NOT_START
  | DID_NOT_FINISH, DID_NOT_FINISH | DISQUALIFIED, DISQUALIFIED
  | OVER_TIME, OVER_TIME => true
  | _, _ => false
  end.

Definition eq_dec (a b : t) : {a = b} + {a <> b}.
Proof. decide equality. Defined.
End ResultStatus.

Module SpStatus.
Inductive t := OK | MISSING | ADDITIONAL | OK_BUT_UNORDERED.

Definition eqb (a b : t) : bool :=
  match a, b with
  | OK, OK | MISSING, MISSING | ADDITIONAL, ADDITIONAL
  | OK_BUT_UNORDERED, OK_BUT_UNORDERED => true
  | _, _ => false
  end.

Definition eq_dec (a b : t) : {a = b} + {a <> b}.
Proof. decide equality. Defined.
End SpStatus.

(** ** Equality on optional values ([==] between [Optional] operands) *)

Definition opt_eqb {A} (eqb : A -> A -> bool) (a b : option A) : bool :=
  match a, b with
  | Some x, Some y => eqb x y
  | None, None => true
  | _, _ => false
  end.

Definition opt_is_none {A} (a : option A) : bool :=
  match a with None => true | Some _ => false end.

Definition opt_is_some {A} (a : option A) : bool := negb (opt_is_none a).

(** ** Data model *)

(** Modelled from the spec: the dataclasses of [ooresults/otypes] are not
    under src/; the records below follow section 3 (data model) and the
    constructor calls in the tests.  The streaming fields of an event, the
    length and climb of a course and the club name of a competitor play no
    part in the functions below and are left out. *)

Module SplitTime.
Record t := mk {
  control_code : string;
  punch_time : option datetime;
  si_punch_time : option datetime;
  time : option Z;
  status : option SpStatus.t;
  leg_voided : bool
}.

Definition eq_dec (a b : t) : {a = b} + {a <> b}.
Proof.
  decide equality;
    auto using Bool.bool_dec, string_dec, Z.eq_dec, SpStatus.eq_dec;
    try solve [decide equality; auto using Z.eq_dec, SpStatus.eq_dec].
Defined.
End SplitTime.

Module PersonRaceResult.
Record t := mk {
  status : ResultStatus.t;
  start_time : option datetime;
  finish_time : option datetime;
  punched_start_time : option datetime;
  punched_finish_time : option datetime;
  si_punched_start_time : option datetime;
  si_punched_finish_time : option datetime;
  punched_clear_time : option datetime;
  punched_check_time : option datetime;
  time : option Z;
  split_times : list SplitTime.t;
  extensions : list (string * Z)
}.

(** [PersonRaceResult()]: every field at its default. *)
Definition default : t :=
  mk ResultStatus.INACTIVE None None None None None None None None None [] [].

(** [PersonRaceResult(status=s)] *)
Definition of_status (s : ResultStatus.t) : t :=
  mk s None None None None None None None None None [] [].

(** [r.status = s] *)
Definition set_status (s : ResultStatus.t) (r : t) : t :=
  mk s (start_time r) (finish_time r) (punched_start_time r)
     (punched_finish_time r) (si_punched_start_time r)
     (si_punched_finish_time r) (punched_clear_time r)
     (punched_check_time r) (time r) (split_times r) (extensions r).

Definition eq_dec (a b : t) : {a = b} + {a <> b}.
Proof.
  decide equality;
    auto using ResultStatus.eq_dec;
    try solve [decide equality; auto using Z.eq_dec];
    try solve [apply list_eq_dec; try apply SplitTime.eq_dec;
               decide equality; auto using string_dec, Z.eq_dec].
Defined.
End PersonRaceResult.

Module PersonRaceStart.
Record t := mk { start_time : option datetime }.

(** [PersonRaceStart()] *)
Definition default : t := mk None.

(** [s.start_time = t] *)
Definition set_start_time (st : option datetime) (s : t) : t :=
  mk st.

Definition eq_dec (a b : t) : {a = b} + {a <> b}.
Proof. decide equality; decide equality; auto using Z.eq_dec. Defined.
End PersonRaceStart.

Module ClassParams.
Record t := mk {
  otype : string;
  voided_legs : list (string * string);
  penalty_controls : option Z;
  penalty_overtime : option Z;
  time_limit : option Z;
  apply_handicap : bool
}.
End ClassParams.

Module Club.
Record t := mk { id : Z; name : string }.
End Club.

Module Competitor.
Record t := mk {
  id : Z;
  first_name : string;
  last_name : string;
  club_id : option Z;
  gender : string;
  year : option Z;
  chip : string
}.
End Competitor.

Module Event.
Record t := mk {
  id : Z;
  name : string;
  date : Z;
  key : option string;
  publish : bool;
  series : option string;
  fields : list string;
  light : bool
}.
End Event.

Module Course.
Record t := mk {
  id : Z;
  event_id : Z;
  name : string;
  controls : list string
}.
End Course.

Module Class.
Record t := mk {
  id : Z;
  event_id : Z;
  name : string;
  short_name : option string;
  course_id : option Z;
  params : ClassParams.t
}.
End Class.

(** A row of the [entries] table (see the schema in
    [repo/update/update_015.py]). *)
Module EntryRow.
Record t := mk {
  id : Z;
  event_id : Z;
  competitor_id : option Z;
  class_id : option Z;
  club_id : option Z;
  not_competing : bool;
  chip : option string;
  fields : list (Z * string);
  result : PersonRaceResult.t;
  start : PersonRaceStart.t
}.
End EntryRow.

(** [EntryType]: an entry row joined with its competitor, class and club,
    as [get_entries] and [get_entry] return it. *)
Module Entry.
Record t := mk {
  id : Z;
  event_id : Z;
  competitor_id : option Z;
  first_name : option string;
  last_name : option string;
  gender : option string;
  year : option Z;
  class_id : option Z;
  class_name : option string;
  not_competing : bool;
  chip : option string;
  fields : list (Z * string);
  result : PersonRaceResult.t;
  start : PersonRaceStart.t;
  club_id : option Z;
  club_name : option string
}.

Definition eq_dec (a b : t) : {a = b} + {a <> b}.
Proof.
  decide equality;
    auto using Z.eq_dec, Bool.bool_dec, PersonRaceResult.eq_dec,
      PersonRaceStart.eq_dec;
    try solve [decide equality; auto using Z.eq_dec, string_dec];
    try solve [apply list_eq_dec; decide equality;
               auto using Z.eq_dec, string_dec].
Defined.
End Entry.

Module CardReaderMessage.
Record t := mk {
  entry_type : string;
  entry_time : datetime;
  control_card : option string;
  result : option PersonRaceResult.t
}.
End CardReaderMessage.

(** ** Response dictionaries

    The [res] dictionaries of the entry points, with the Python values that
    reach them. *)

Inductive pyval :=
  | VNone
  | VInt (z : Z)
  | VStr (s : string)
  | VTime (t : datetime)
  | VStatus (s : ResultStatus.t)
  | VList (l : list string).

Definition dict := list (string * pyval).

Fixpoint dict_get (k : string) (d : dict) : option pyval :=
  match d with
  | [] => None
  | (k', v) :: d' => if String.eqb k k' then Some v else dict_get k d'
  end.

(** [d[k] = v] *)
Fixpoint dict_set (k : string) (v : pyval) (d : dict) : dict :=
  match d with
  | [] => [(k, v)]
  | (k', v') :: d' =>
      if String.eqb k k' then (k, v) :: d' else (k', v') :: dict_set k v d'
  end.

Definition v_int (o : option Z) : pyval :=
  match o with Some z => VInt z | None => VNone end.

Definition v_str (o : option string) : pyval :=
  match o with Some s => VStr s | None => VNone end.

(** ** Exceptions, effects and the model monad *)

Inductive exn :=
  | EventNotFoundError
  | KeyError
  | IndexError
  | AttributeError
  | ConstraintError (msg : string).

Inductive TransactionMode := DEFERRED | IMMEDIATE | EXCLUSIVE.

(** What an observer of the process can see besides the store: the
    transaction brackets and the calls of [cached_result.clear_cache]. *)
Inductive effect :=
  | TxBegin (mode : TransactionMode)
  | TxCommit
  | TxRollback
  | CacheClear (event_id entry_id : option Z).

Module Store.
Record t := mk {
  events : list Event.t;
  courses : list Course.t;
  classes : list Class.t;
  clubs : list Club.t;
  competitors : list Competitor.t;
  entries : list EntryRow.t
}.

Definition set_entries (es : list EntryRow.t) (db : t) : t :=
  mk (events db) (courses db) (classes db) (clubs db) (competitors db) es.

Definition set_competitors (cs : list Competitor.t) (db : t) : t :=
  mk (events db) (courses db) (classes db) (clubs db) cs (entries db).
End Store.

Record world := mk_world {
  w_db : Store.t;
  w_log : list effect
}.

Inductive outcome (A : Type) :=
  | Ok (a : A)
  | Raise (e : exn).
Arguments Ok {A} a.
Arguments Raise {A} e.

Definition M (A : Type) : Type := world -> outcome A * world.

Definition ret {A} (a : A) : M A := fun w => (Ok a, w).

Definition raise {A} (e : exn) : M A := fun w => (Raise e, w).

Definition bind {A B} (m : M A) (k : A -> M B) : M B :=
  fun w =>
    match m w with
    | (Ok a, w') => k a w'
    | (Raise e, w') => (Raise e, w')
    end.

(** [try: m except: h] where [h] decides per exception what to do. *)
Definition try_except {A} (m : M A) (h : exn -> M A) : M A :=
  fun w =>
    match m w with
    | (Ok a, w') => (Ok a, w')
    | (Raise e, w') => h e w'
    end.

Declare Scope model_scope.
Delimit Scope model_scope with model.
Notation "x <- m ;; k" := (bind m (fun x => k))
  (at level 61, m at next level, right associativity) : model_scope.
Notation "m ;;; k" := (bind m (fun _ => k))
  (at level 61, right associativity) : model_scope.
Open Scope model_scope.

Definition get_db : M Store.t := fun w => (Ok (w_db w), w).

Definition put_db (db : Store.t) : M unit :=
  fun w => (Ok tt, mk_world db (w_log w)).

Definition emit (e : effect) : M unit :=
  fun w => (Ok tt, mk_world (w_db w) (w_log w ++ [e])).

(** The world a transaction body starts in. *)
Definition opened (mode : TransactionMode) (w : world) : world :=
  mk_world (w_db w) (w_log w ++ [TxBegin mode]).

(** The world a transaction leaves behind when its body ended normally in
    [w1]. *)
Definition committed (w1 : world) : world :=
  mk_world (w_db w1) (w_log w1 ++ [TxCommit]).

(** The world a transaction entered in [w] leaves behind when its body
    raised in [w1]: the store of [w], the log of [w1]. *)
Definition rolled_back (w w1 : world) : world :=
  mk_world (w_db w) (w_log w1 ++ [TxRollback]).

(** Modelled from the spec: [model.db.transaction] (the store is not under
    src/).  Section 4.5: scoped acquisition with guaranteed release and
    rollback on error.  Leaving the scope normally commits; leaving it by an
    exception restores the store to its state at entry. *)
Definition transaction {A} (mode : TransactionMode) (body : M A) : M A :=
  fun w =>
    match body (opened mode w) with
    | (Ok a, w1) => (Ok a, committed w1)
    | (Raise e, w1) => (Raise e, rolled_back w w1)
    end.

(** Modelled from the spec: [cached_result.clear_cache] (not under src/),
    section 5: the per-event result cache is invalidated through
    [clear_cache(event_id, entry_id?)].  The call is recorded in the log. *)
Definition clear_cache (event_id entry_id : option Z) : M unit :=
  emit (CacheClear event_id entry_id).

(** ** The store *)

(** Modelled from the spec: [model.db] ([SqliteRepo]) is not under src/.
    Section 4.5 asks for plain CRUD with missing rows reported as errors:
    a read of a missing row raises ([KeyError], for an event
    [EventNotFoundError]); inserts take a key above every key in use
    (the back end, with AUTOINCREMENT, also stays above the keys of
    deleted rows, which shows only in the value of a new key); updates and
    deletes touch the rows with the given key.
    [get_entries] lists the rows of the event in table order, an order
    the back end does not promise.  The referential and uniqueness checks
    of the SQL back end are not part of the model: a write of the model
    never fails, so a theorem that states that a call succeeds takes as
    hypotheses that the rows the call refers to are in the store and that
    the name it gives is not that of another competitor. *)
Definition fresh_id (ids : list Z) : Z := 1 + fold_right Z.max 0 ids.

Definition find_competitor (db : Store.t) (id : Z) : option Competitor.t :=
  find (fun c => Competitor.id c =? id) (Store.competitors db).

Definition find_class (db : Store.t) (id : Z) : option Class.t :=
  find (fun c => Class.id c =? id) (Store.classes db).

Definition find_course (db : Store.t) (id : Z) : option Course.t :=
  find (fun c => Course.id c =? id) (Store.courses db).

Definition find_club (db : Store.t) (id : Z) : option Club.t :=
  find (fun c => Club.id c =? id) (Store.clubs db).

Definition find_row (db : Store.t) (id : Z) : option EntryRow.t :=
  find (fun r => EntryRow.id r =? id) (Store.entries db).

Definition join_entry (db : Store.t) (r : EntryRow.t) : Entry.t :=
  let com := match EntryRow.competitor_id r with
             | Some c => find_competitor db c
             | None => None
             end in
  let cls := match EntryRow.class_id r with
             | Some c => find_class db c
             | None => None
             end in
  let clb := match EntryRow.club_id r with
             | Some c => find_club db c
             | None => None
             end in
  Entry.mk (EntryRow.id r) (EntryRow.event_id r) (EntryRow.competitor_id r)
    (option_map Competitor.first_name com)
    (option_map Competitor.last_name com)
    (option_map Competitor.gender com)
    (match com with Some c => Competitor.year c | None => None end)
    (EntryRow.class_id r)
    (option_map Class.name cls)
    (EntryRow.not_competing r) (EntryRow.chip r) (EntryRow.fields r)
    (EntryRow.result r) (EntryRow.start r)
    (EntryRow.club_id r)
    (option_map Club.name clb).

Definition of_option {A} (e : exn) (o : option A) : M A :=
  match o with Some a => ret a | None => raise e end.

Definition get_events : M (list Event.t) :=
  db <- get_db ;; ret (Store.events db).

Definition get_event (id : Z) : M Event.t :=
  db <- get_db ;;
  of_option EventNotFoundError
    (find (fun e => Event.id e =? id) (Store.events db)).

Definition rows_of (db : Store.t) (event_id : Z) : list EntryRow.t :=
  filter (fun r => EntryRow.event_id r =? event_id) (Store.entries db).

Definition entries_of (db : Store.t) (event_id : Z) : list Entry.t :=
  map (join_entry db) (rows_of db event_id).

Definition get_entries (event_id : Z) : M (list Entry.t) :=
  db <- get_db ;; ret (entries_of db event_id).

Definition get_entry (id : Z) : M Entry.t :=
  db <- get_db ;;
  of_option KeyError (option_map (join_entry db) (find_row db id)).

Definition classes_of (db : Store.t) (event_id : Z) : list Class.t :=
  filter (fun c => Class.event_id c =? event_id) (Store.classes db).

Definition get_classes (event_id : Z) : M (list Class.t) :=
  db <- get_db ;; ret (classes_of db event_id).

Definition get_class (id : option Z) : M Class.t :=
  db <- get_db ;;
  of_option KeyError (match id with Some i => find_class db i | None => None end).

Definition get_course (id : option Z) : M Course.t :=
  db <- get_db ;;
  of_option KeyError (match id with Some i => find_course db i | None => None end).

Definition get_club (id : Z) : M Club.t :=
  db <- get_db ;; of_option KeyError (find_club db id).

Definition get_competitor (id : option Z) : M Competitor.t :=
  db <- get_db ;;
  of_option KeyError
    (match id with Some i => find_competitor db i | None => None end).

Definition get_competitor_by_name (first_name last_name : string)
  : M (option Competitor.t) :=
  db <- get_db ;;
  ret (find (fun c => String.eqb (Competitor.first_name c) first_name
                      && String.eqb (Competitor.last_name c) last_name)
         (Store.competitors db)).

(** The test of [get_competitor_by_name]. *)
Definition named (first_name last_name : string) (c : Competitor.t) : bool :=
  String.eqb (Competitor.first_name c) first_name
  && String.eqb (Competitor.last_name c) last_name.

Definition competitor_by_chip (db : Store.t) (chip : option string)
  : option Competitor.t :=
  match chip with
  | Some ch => find (fun c => String.eqb (Competitor.chip c) ch)
                 (Store.competitors db)
  | None => None
  end.

Definition get_competitor_by_chip (chip : option string)
  : M (option Competitor.t) :=
  db <- get_db ;; ret (competitor_by_chip db chip).

Definition add_competitor (first_name last_name : string) (club_id : option Z)
    (gender : string) (year : option Z) (chip : string) : M Z :=
  db <- get_db ;;
  let id := fresh_id (map Competitor.id (Store.competitors db)) in
  put_db (Store.set_competitors
            (Store.competitors db ++
               [Competitor.mk id first_name last_name club_id gender year chip])
            db) ;;;
  ret id.

(** The store after [UPDATE competitors SET ... WHERE id]. *)
Definition with_competitor (db : Store.t) (id : Z)
    (first_name last_name : string) (club_id : option Z) (gender : string)
    (year : option Z) (chip : string) : Store.t :=
  Store.set_competitors
    (map (fun c => if Competitor.id c =? id
                   then Competitor.mk id first_name last_name club_id
                          gender year chip
                   else c)
       (Store.competitors db))
    db.

Definition update_competitor (id : Z) (first_name last_name : string)
    (club_id : option Z) (gender : string) (year : option Z) (chip : string)
  : M unit :=
  db <- get_db ;;
  put_db (with_competitor db id first_name last_name club_id gender year chip).

Definition add_entry (event_id : Z) (competitor_id class_id club_id : option Z)
    (not_competing : bool) (chip : option string) (fields : list (Z * string))
    (result : PersonRaceResult.t) (start : PersonRaceStart.t) : M Z :=
  db <- get_db ;;
  let id := fresh_id (map EntryRow.id (Store.entries db)) in
  put_db (Store.set_entries
            (Store.entries db ++
               [EntryRow.mk id event_id competitor_id class_id club_id
                  not_competing chip fields result start])
            db) ;;;
  ret id.

(** [add_entry_result]: insert an unassigned entry (no competitor, no class). *)
Definition add_entry_result (event_id : Z) (chip : option string)
    (result : PersonRaceResult.t) (start : PersonRaceStart.t) : M Z :=
  add_entry event_id None None None false chip [] result start.

(** The row after [UPDATE entries SET class_id, ... WHERE id]. *)
Definition set_entry (id : Z) (class_id club_id : option Z)
    (not_competing : bool) (chip : option string) (fields : list (Z * string))
    (result : PersonRaceResult.t) (start : PersonRaceStart.t)
    (r : EntryRow.t) : EntryRow.t :=
  if EntryRow.id r =? id
  then EntryRow.mk id (EntryRow.event_id r) (EntryRow.competitor_id r)
         class_id club_id not_competing chip fields result start
  else r.

Definition with_entry (db : Store.t) (id : Z) (class_id club_id : option Z)
    (not_competing : bool) (chip : option string) (fields : list (Z * string))
    (result : PersonRaceResult.t) (start : PersonRaceStart.t) : Store.t :=
  Store.set_entries
    (map (set_entry id class_id club_id not_competing chip fields result start)
       (Store.entries db))
    db.

Definition update_entry (id : Z) (class_id club_id : option Z)
    (not_competing : bool) (chip : option string) (fields : list (Z * string))
    (result : PersonRaceResult.t) (start : PersonRaceStart.t) : M unit :=
  db <- get_db ;;
  put_db (with_entry db id class_id club_id not_competing chip fields result
            start).

(** The row after [UPDATE entries SET chip, result, start WHERE id]. *)
Definition set_result (id : Z) (chip : option string)
    (result : PersonRaceResult.t) (start : PersonRaceStart.t)
    (r : EntryRow.t) : EntryRow.t :=
  if EntryRow.id r =? id
  then EntryRow.mk id (EntryRow.event_id r) (EntryRow.competitor_id r)
         (EntryRow.class_id r) (EntryRow.club_id r)
         (EntryRow.not_competing r) chip (EntryRow.fields r) result start
  else r.

Definition with_result (db : Store.t) (id : Z) (chip : option string)
    (result : PersonRaceResult.t) (start : PersonRaceStart.t) : Store.t :=
  Store.set_entries (map (set_result id chip result start) (Store.entries db))
    db.

Definition without_entry (db : Store.t) (id : Z) : Store.t :=
  Store.set_entries
    (filter (fun r => negb (EntryRow.id r =? id)) (Store.entries db)) db.

Definition update_entry_result (id : Z) (chip : option string)
    (result : PersonRaceResult.t) (start : PersonRaceStart.t) : M unit :=
  db <- get_db ;; put_db (with_result db id chip result start).

Definition delete_entry (id : Z) : M unit :=
  db <- get_db ;; put_db (without_entry db id).

(** ** The result engine, as an interface

    [result_type.py] is not under src/.  [compute_result] mutates the
    result it is called on; here it returns the new value. *)
Class ResultEngine := {
  (** [ClassParams()] *)
  ClassParams_default : ClassParams.t;
  (** [r.compute_result(controls, class_params, start_time, year, gender)] *)
  compute_result :
    list string -> ClassParams.t -> option datetime -> option Z ->
    option string -> PersonRaceResult.t -> PersonRaceResult.t;
  (** [r.has_punches()] *)
  has_punches : PersonRaceResult.t -> bool;
  (** [r.same_si_punches(other)] *)
  same_si_punches : PersonRaceResult.t -> PersonRaceResult.t -> bool;
  (** [r.reset()] *)
  reset : PersonRaceResult.t -> PersonRaceResult.t
}.

(** ** [ooresults/model/results.py] *)

Fixpoint for_each {A} (l : list A) (body : A -> M unit) : M unit :=
  match l with
  | [] => ret tt
  | x :: l' => body x ;;; for_each l' body
  end.

Fixpoint assoc_get (k : string) (d : list (string * Z)) : option Z :=
  match d with
  | [] => None
  | (k', v) :: d' => if String.eqb k k' then Some v else assoc_get k d'
  end.

(** [r.extensions.get("running_time", r.time)] *)
Definition running_time (r : PersonRaceResult.t) : option Z :=
  match assoc_get "running_time" (PersonRaceResult.extensions r) with
  | Some v => Some v
  | None => PersonRaceResult.time r
  end.

Definition is_missing (sp : SplitTime.t) : bool :=
  opt_eqb SpStatus.eqb (SplitTime.status sp) (Some SpStatus.MISSING).

(** The local helper [missing_controls] of both entry points. *)
Definition missing_controls (result : PersonRaceResult.t) : list string :=
  match PersonRaceResult.finish_time result with
  | None => ["FINISH"]
  | Some _ =>
      match PersonRaceResult.start_time result with
      | None => ["START"]
      | Some _ =>
          map SplitTime.control_code
            (filter is_missing (PersonRaceResult.split_times result))
      end
  end.

(** The [for e in model.db.get_events(): ... break / else: raise] loop. *)
Definition key_matches (event_key : string) (e : Event.t) : bool :=
  negb (String.eqb event_key "")
  && opt_eqb String.eqb (Event.key e) (Some event_key).

Definition find_event (event_key : string) : M Event.t :=
  events <- get_events ;;
  of_option EventNotFoundError (find (key_matches event_key) events).

(** [int(competitor.year) if competitor.year else None] *)
Definition truthy_year (year : option Z) : option Z :=
  match year with
  | Some y => if y =? 0 then None else Some y
  | None => None
  end.

Definition chip_is (chip : option string) (e : Entry.t) : bool :=
  opt_eqb String.eqb (Entry.chip e) chip.

Section Results.
Context {E : ResultEngine}.

(** Step C of the light branch: every class with a course is tried on a
    copy of the result; the classes whose copy comes out [OK] are kept. *)
Fixpoint match_classes (classes : list Class.t) (result : PersonRaceResult.t)
    (competitor : Competitor.t) : M (list (Class.t * PersonRaceResult.t)) :=
  match classes with
  | [] => ret []
  | class_ :: rest =>
      if opt_is_none (Class.course_id class_) then
        match_classes rest result competitor
      else
        controls <-
          try_except
            (c <- get_course (Class.course_id class_) ;;
             ret (Some (Course.controls c)))
            (fun e => match e with KeyError => ret None | _ => raise e end) ;;
        match controls with
        | None => match_classes rest result competitor
        | Some controls =>
            let r := compute_result controls (Class.params class_) None
                       (truthy_year (Competitor.year competitor))
                       (Some (Competitor.gender competitor)) result in
            matching <- match_classes rest result competitor ;;
            if ResultStatus.eqb (PersonRaceResult.status r) ResultStatus.OK
            then ret ((class_, r) :: matching)
            else ret matching
        end
  end.

(** The [cardRead] case of a light event.  A message without a result
    fails on the first [result.status] or [result.compute_result]
    ([AttributeError]); the store is only read before that. *)
Definition light_card_read (event : Event.t) (item : CardReaderMessage.t)
  : M dict :=
  result <- of_option AttributeError (CardReaderMessage.result item) ;;
  entries <- get_entries (Event.id event) ;;
  let entries_with_chip :=
    filter (chip_is (CardReaderMessage.control_card item)) entries in
  (* Step A: second-reading check *)
  match entries_with_chip with
  | _ :: _ =>
      ret [("entryTime", VTime (CardReaderMessage.entry_time item));
           ("eventId", VInt (Event.id event));
           ("controlCard", v_str (CardReaderMessage.control_card item));
           ("firstName", VNone);
           ("lastName", VNone);
           ("club", VNone);
           ("class", VNone);
           ("status", VStatus (PersonRaceResult.status result));
           ("time", VNone);
           ("light_status", VStr "second_reading")]
  | [] =>
      (* Step B: competitor lookup by chip *)
      competitor <- get_competitor_by_chip (CardReaderMessage.control_card item) ;;
      match competitor with
      | None =>
          (* Step E: unassigned (unknown chip) *)
          let result := compute_result [] ClassParams_default None None None
                          result in
          add_entry_result (Event.id event)
            (CardReaderMessage.control_card item) result
            PersonRaceStart.default ;;;
          ret [("entryTime", VTime (CardReaderMessage.entry_time item));
               ("eventId", VInt (Event.id event));
               ("controlCard", v_str (CardReaderMessage.control_card item));
               ("firstName", VNone);
               ("lastName", VNone);
               ("club", VNone);
               ("class", VNone);
               ("status", VStatus (PersonRaceResult.status result));
               ("time", VNone);
               ("error", VStr "Control card unknown");
               ("light_status", VStr "unassigned")]
      | Some competitor =>
          (* Step C: course match *)
          classes <- get_classes (Event.id event) ;;
          matching <- match_classes classes result competitor ;;
          match matching with
          | [(class_, matched_result)] =>
              (* Step D: auto-register *)
              entry_id <- add_entry (Event.id event)
                            (Some (Competitor.id competitor))
                            (Some (Class.id class_))
                            (Competitor.club_id competitor)
                            false
                            (CardReaderMessage.control_card item)
                            []
                            matched_result
                            PersonRaceStart.default ;;
              entry <- get_entry entry_id ;;
              clear_cache (Some (Event.id event)) (Some entry_id) ;;;
              ret [("entryTime", VTime (CardReaderMessage.entry_time item));
                   ("eventId", VInt (Event.id event));
                   ("controlCard", v_str (Entry.chip entry));
                   ("firstName", v_str (Entry.first_name entry));
                   ("lastName", v_str (Entry.last_name entry));
                   ("club", v_str (Entry.club_name entry));
                   ("class", v_str (Entry.class_name entry));
                   ("status", VStatus (PersonRaceResult.status matched_result));
                   ("time", v_int (running_time matched_result));
                   ("error", VNone);
                   ("missingControls", VList (missing_controls matched_result));
                   ("light_status", VStr "ok_registered")]
          | _ =>
              (* Step E: unassigned (zero or multiple matches) *)
              let result := compute_result [] ClassParams_default None None
                              None result in
              add_entry_result (Event.id event)
                (CardReaderMessage.control_card item) result
                PersonRaceStart.default ;;;
              ret [("entryTime", VTime (CardReaderMessage.entry_time item));
                   ("eventId", VInt (Event.id event));
                   ("controlCard", v_str (CardReaderMessage.control_card item));
                   ("firstName", VNone);
                   ("lastName", VNone);
                   ("club", VNone);
                   ("class", VNone);
                   ("status", VStatus (PersonRaceResult.status result));
                   ("time", VNone);
                   ("error", VStr "No unique matching course");
                   ("light_status", VStr "unassigned")]
          end
      end
  end.

Definition same_as (result : PersonRaceResult.t) (e : Entry.t) : bool :=
  same_si_punches (Entry.result e) result.

(** The condition of the merge: one assigned entry, without punches, and no
    unassigned entry or one with the same SI punches.  The [and]/[or] of
    the source evaluate [assigned_entries[0]] and [unassigned_entries[0]]
    only behind their length tests. *)
Definition can_assign (assigned_entries unassigned_entries : list Entry.t)
    (result : PersonRaceResult.t) : bool :=
  (List.length assigned_entries =? 1)%nat
  && negb (match assigned_entries with
           | a :: _ => has_punches (Entry.result a)
           | [] => false
           end)
  && ((List.length unassigned_entries =? 0)%nat
      || (List.length unassigned_entries =? 1)%nat
         && match unassigned_entries with
            | u :: _ => same_as result u
            | [] => false
            end).

(** [try: class/course lookup except KeyError: defaults] *)
Definition class_course (class_id : option Z)
  : M (ClassParams.t * list string) :=
  try_except
    (class_ <- get_class class_id ;;
     course <- get_course (Class.course_id class_) ;;
     ret (Class.params class_, Course.controls course))
    (fun e => match e with
              | KeyError => ret (ClassParams_default, [])
              | _ => raise e
              end).

Definition unassigned_error (assigned_entries : list Entry.t) : string :=
  if (List.length assigned_entries =? 0)%nat then "Control card unknown"
  else if (2 <=? List.length assigned_entries)%nat then
    "There are several entries for this card"
  else "There are other results for this card".

(** The [cardRead] case of a standard event.  A message without a result
    fails on its first use, before any write.  [entry.result] is never
    [None] (the column is NOT NULL), so the [r is not None] test of the
    source is always true. *)
Definition standard_card_read (event : Event.t) (item : CardReaderMessage.t)
  : M dict :=
  result <- of_option AttributeError (CardReaderMessage.result item) ;;
  entries <- get_entries (Event.id event) ;;
  let entries_control_card :=
    filter (chip_is (CardReaderMessage.control_card item)) entries in
  let assigned_entries :=
    filter (fun e => opt_is_some (Entry.class_name e)) entries_control_card in
  let unassigned_entries :=
    filter (fun e => opt_is_none (Entry.class_name e)) entries_control_card in
  match find (same_as result) assigned_entries with
  | Some entry =>
      (* result exists and is assigned to a competitor: nothing to do *)
      let r := Entry.result entry in
      ret [("entryTime", VTime (CardReaderMessage.entry_time item));
           ("eventId", VInt (Event.id event));
           ("controlCard", v_str (Entry.chip entry));
           ("firstName", v_str (Entry.first_name entry));
           ("lastName", v_str (Entry.last_name entry));
           ("club", v_str (Entry.club_name entry));
           ("class", v_str (Entry.class_name entry));
           ("status", VStatus (PersonRaceResult.status r));
           ("time", v_int (running_time r));
           ("error", VNone);
           ("missingControls", VList (missing_controls r))]
  | None =>
      (* check if result is already read out *)
      let unassigned_entry := find (same_as result) unassigned_entries in
      if can_assign assigned_entries unassigned_entries result then
        entry <- of_option IndexError (hd_error assigned_entries) ;;
        pc <- class_course (Entry.class_id entry) ;;
        let result := compute_result (snd pc) (fst pc)
                        (PersonRaceStart.start_time (Entry.start entry))
                        (Entry.year entry) (Entry.gender entry) result in
        update_entry_result (Entry.id entry) (Entry.chip entry) result
          (Entry.start entry) ;;;
        let res :=
          [("entryTime", VTime (CardReaderMessage.entry_time item));
           ("eventId", VInt (Event.id event));
           ("controlCard", v_str (Entry.chip entry));
           ("firstName", v_str (Entry.first_name entry));
           ("lastName", v_str (Entry.last_name entry));
           ("club", v_str (Entry.club_name entry));
           ("class", v_str (Entry.class_name entry));
           ("status", VStatus (PersonRaceResult.status result));
           ("time", v_int (running_time result));
           ("error", VNone);
           ("missingControls", VList (missing_controls result))] in
        clear_cache (Some (Event.id event)) (Some (Entry.id entry)) ;;;
        (* if there is an unassigned entry with the same result, delete it *)
        match unassigned_entry with
        | Some u =>
            if list_eq_dec Entry.eq_dec unassigned_entries [u]
            then delete_entry (Entry.id u) ;;; ret res
            else ret res
        | None => ret res
        end
      else
        (* create a new unassigned entry *)
        let result := compute_result [] ClassParams_default None None None
                        result in
        (if opt_is_none unassigned_entry
         then add_entry_result (Event.id event)
                (CardReaderMessage.control_card item) result
                PersonRaceStart.default ;;; ret tt
         else ret tt) ;;;
        let res :=
          [("entryTime", VTime (CardReaderMessage.entry_time item));
           ("eventId", VInt (Event.id event));
           ("controlCard", v_str (CardReaderMessage.control_card item));
           ("firstName", VNone);
           ("lastName", VNone);
           ("club", VNone);
           ("class", VNone);
           ("status", VStatus (PersonRaceResult.status result));
           ("time", VNone)] in
        ret (dict_set "error" (VStr (unassigned_error assigned_entries)) res)
  end.

Definition store_cardreader_result (event_key : string)
    (item : CardReaderMessage.t) : M (string * Event.t * dict) :=
  er <- transaction IMMEDIATE
          (event <- find_event event_key ;;
           res <-
             (if Event.light event then
                if String.eqb (CardReaderMessage.entry_type item) "cardRead"
                then light_card_read event item
                else if String.eqb (CardReaderMessage.entry_type item)
                          "cardInserted"
                then ret [("eventId", VInt (Event.id event));
                          ("controlCard",
                            v_str (CardReaderMessage.control_card item))]
                else ret [("eventId", VInt (Event.id event))]
              else
                if String.eqb (CardReaderMessage.entry_type item) "cardRead"
                then standard_card_read event item
                else if String.eqb (CardReaderMessage.entry_type item)
                          "cardInserted"
                then ret [("eventId", VInt (Event.id event));
                          ("controlCard",
                            v_str (CardReaderMessage.control_card item))]
                else ret [("eventId", VInt (Event.id event))]) ;;
           ret (event, res)) ;;
  ret (CardReaderMessage.entry_type item, fst er, snd er).

Definition assign_name_to_light_entry (event_key chip first_name last_name : string)
  : M (Event.t * dict) :=
  transaction IMMEDIATE
    ((* 1. Find event *)
     event <- find_event event_key ;;
     (* 2. Recover stored result *)
     entries <- get_entries (Event.id event) ;;
     let entries_with_chip := filter (chip_is (Some chip)) entries in
     first <- of_option IndexError (hd_error entries_with_chip) ;;
     let stored_result := Entry.result first in
     (* 3. Delete existing chip entries *)
     for_each entries_with_chip (fun e => delete_entry (Entry.id e)) ;;;
     (* 4. Find-or-create competitor, update chip *)
     found <- get_competitor_by_name first_name last_name ;;
     competitor <-
       match found with
       | None =>
           competitor_id <- add_competitor first_name last_name None "" None
                              chip ;;
           get_competitor (Some competitor_id)
       | Some competitor =>
           update_competitor (Competitor.id competitor)
             (Competitor.first_name competitor)
             (Competitor.last_name competitor)
             (Competitor.club_id competitor)
             (Competitor.gender competitor)
             (Competitor.year competitor)
             chip ;;;
           get_competitor (Some (Competitor.id competitor))
       end ;;
     (* 5. Re-run course match (steps C to E) *)
     classes <- get_classes (Event.id event) ;;
     matching <- match_classes classes stored_result competitor ;;
     match matching with
     | [(class_, matched_result)] =>
         entry_id <- add_entry (Event.id event)
                       (Some (Competitor.id competitor))
                       (Some (Class.id class_))
                       (Competitor.club_id competitor)
                       false (Some chip) [] matched_result
                       PersonRaceStart.default ;;
         entry <- get_entry entry_id ;;
         clear_cache (Some (Event.id event)) (Some entry_id) ;;;
         ret (event,
              [("eventId", VInt (Event.id event));
               ("controlCard", v_str (Entry.chip entry));
               ("firstName", v_str (Entry.first_name entry));
               ("lastName", v_str (Entry.last_name entry));
               ("club", v_str (Entry.club_name entry));
               ("class", v_str (Entry.class_name entry));
               ("status", VStatus (PersonRaceResult.status matched_result));
               ("time", v_int (running_time matched_result));
               ("error", VNone);
               ("missingControls", VList (missing_controls matched_result));
               ("light_status", VStr "ok_registered")])
     | _ =>
         let result := compute_result [] ClassParams_default None None None
                         stored_result in
         add_entry_result (Event.id event) (Some chip) result
           PersonRaceStart.default ;;;
         ret (event,
              [("eventId", VInt (Event.id event));
               ("controlCard", VStr chip);
               ("firstName", VNone);
               ("lastName", VNone);
               ("club", VNone);
               ("class", VNone);
               ("status", VStatus (PersonRaceResult.status result));
               ("time", VNone);
               ("error", VStr "No unique matching course");
               ("light_status", VStr "unassigned")])
     end).

(** ** [ooresults/model/entries.py] *)

(** The [except (sqlite3.IntegrityError, repo.ConstraintError, KeyError)]
    clause of [add_or_update_entry]: probe which row vanished, then re-raise.
    It reads [id], [competitor_id] and [club_id] as the [try] block left
    them. *)
Definition reprobe {A} (event_id : Z) (id competitor_id : option Z)
    (class_id : Z) (club_id : option Z) (e : exn) : M A :=
  match e with
  | KeyError | ConstraintError _ =>
      (* check if the event still exists *)
      get_event event_id ;;;
      (* check if the entry still exists *)
      match id with
      | Some i =>
          try_except (get_entry i ;;; ret tt)
            (fun e' => match e' with
                       | KeyError => raise (ConstraintError "Entry deleted")
                       | _ => raise e'
                       end)
      | None => ret tt
      end ;;;
      (* check if the competitor still exists *)
      match competitor_id with
      | Some _ =>
          try_except (get_competitor competitor_id ;;; ret tt)
            (fun e' => match e' with
                       | KeyError => raise (ConstraintError "Competitor deleted")
                       | _ => raise e'
                       end)
      | None => ret tt
      end ;;;
      (* check if the class still exists *)
      try_except (get_class (Some class_id) ;;; ret tt)
        (fun e' => match e' with
                   | KeyError => raise (ConstraintError "Class deleted")
                   | _ => raise e'
                   end) ;;;
      (* check if the club still exists *)
      match club_id with
      | Some c =>
          try_except (get_club c ;;; ret tt)
            (fun e' => match e' with
                       | KeyError => raise (ConstraintError "Club deleted")
                       | _ => raise e'
                       end)
      | None => ret tt
      end ;;;
      raise e
  | _ => raise e
  end.

(** The values of the rebound parameters after the first half of the [try]
    block. *)
Record locals := mk_locals {
  l_id : Z;
  l_competitor_id : option Z;
  l_gender : string;
  l_year : option Z;
  l_club_id : option Z;
  l_chip : option string;
  l_result : PersonRaceResult.t
}.

(** [if id is None:] branch: reconcile the competitor and add the entry. *)
Definition add_branch (event_id : Z) (competitor_id : option Z)
    (first_name last_name gender : string) (year : option Z) (class_id : Z)
    (club_id : option Z) (not_competing : bool) (chip : string)
    (fields : list (Z * string)) (status : ResultStatus.t)
    (start_time : option datetime) : M locals :=
  rec <-
    match competitor_id with
    | None =>
        com <- get_competitor_by_name first_name last_name ;;
        match com with
        | Some com =>
            ret (Some (Competitor.id com),
                 (if String.eqb gender "" then Competitor.gender com else gender),
                 (if opt_is_none year then Competitor.year com else year),
                 (if String.eqb chip "" then Competitor.chip com else chip),
                 (if opt_is_none club_id then Competitor.club_id com else club_id))
        | None =>
            new_id <- add_competitor first_name last_name club_id gender year
                        chip ;;
            ret (Some new_id, gender, year, chip, club_id)
        end
    | Some _ => ret (competitor_id, gender, year, chip, club_id)
    end ;;
  let '(competitor_id, gender, year, chip, club_id) := rec in
  try_except
    (competitor <- get_competitor competitor_id ;;
     let c_club_id := if opt_is_none (Competitor.club_id competitor)
                      then club_id else Competitor.club_id competitor in
     let c_chip := if String.eqb (Competitor.chip competitor) ""
                   then chip else Competitor.chip competitor in
     update_competitor (Competitor.id competitor) first_name last_name
       c_club_id gender year c_chip ;;;
     id <- add_entry event_id competitor_id (Some class_id) club_id
             not_competing (Some chip) fields
             (PersonRaceResult.of_status status)
             (PersonRaceStart.mk start_time) ;;
     ret (mk_locals id competitor_id gender year club_id (Some chip)
            PersonRaceResult.default))
    (reprobe event_id None competitor_id class_id club_id).

(** [else:] branch: the entry exists; keep its removed result as a new
    unassigned entry, update competitor and entry. *)
Definition update_branch (id event_id : Z) (competitor_id : option Z)
    (first_name last_name gender : string) (year : option Z) (class_id : Z)
    (club_id : option Z) (not_competing : bool) (chip : string)
    (fields : list (Z * string)) (status : ResultStatus.t)
    (start_time : option datetime) (result_id : option Z) : M locals :=
  try_except
    (entry <- get_entry id ;;
     let result := Entry.result entry in
     match result_id with
     | Some _ =>
         (* store result as new entry *)
         let r := reset result in
         if has_punches r then
           add_entry_result (Entry.event_id entry) (Entry.chip entry)
             (compute_result [] ClassParams_default None None None r)
             PersonRaceStart.default ;;; ret tt
         else ret tt
     | None => ret tt
     end ;;;
     competitor <- get_competitor (Entry.competitor_id entry) ;;
     update_competitor (Competitor.id competitor) first_name last_name
       (Competitor.club_id competitor) gender year (Competitor.chip competitor) ;;;
     let r := PersonRaceResult.set_status status (Entry.result entry) in
     let s := PersonRaceStart.set_start_time start_time (Entry.start entry) in
     update_entry id (Some class_id) club_id not_competing (Some chip) fields
       r s ;;;
     ret (mk_locals id competitor_id gender year club_id (Some chip) result))
    (reprobe event_id (Some id) competitor_id class_id club_id).

(** The second half of the [try] block: settle the result, recompute it and
    store it. *)
Definition settle_result (event_id : Z) (l : locals) (class_id : Z)
    (status : ResultStatus.t) (start_time : option datetime)
    (result_id : option Z) : M unit :=
  try_except
    (let old_status := PersonRaceResult.status (l_result l) in
     (* update result if result_id is defined *)
     cr <-
       match result_id with
       | None => ret (l_chip l, l_result l)
       | Some rid =>
           if rid =? -1 then
             (* result will be removed *)
             ret (l_chip l, PersonRaceResult.default)
           else
             (* result will be replaced *)
             try_except
               (result_entry <- get_entry rid ;;
                delete_entry rid ;;;
                ret (Entry.chip result_entry, Entry.result result_entry))
               (fun e => match e with
                         | KeyError => raise (ConstraintError "Result deleted")
                         | _ => raise e
                         end)
       end ;;
     let chip := fst cr in
     let result := snd cr in
     (* update result status *)
     let result :=
       if negb (opt_eqb Z.eqb result_id (Some (-1)))
          || negb (ResultStatus.eqb status old_status)
          || ResultStatus.eqb status ResultStatus.DISQUALIFIED
       then PersonRaceResult.set_status status result
       else result in
     (* compute new result *)
     pc <- class_course (Some class_id) ;;
     let result := compute_result (snd pc) (fst pc) start_time (l_year l)
                     (if String.eqb (l_gender l) "" then None
                      else Some (l_gender l))
                     result in
     update_entry_result (l_id l) chip result (PersonRaceStart.mk start_time))
    (reprobe event_id (Some (l_id l)) (l_competitor_id l) class_id (l_club_id l)).

(** Add a new entry to an event or update an existing entry of an event.
    The function returns the entry id ([return id]). *)
Definition add_or_update_entry (id : option Z) (event_id : Z)
    (competitor_id : option Z) (first_name last_name gender : string)
    (year : option Z) (class_id : Z) (club_id : option Z)
    (not_competing : bool) (chip : string) (fields : list (Z * string))
    (status : ResultStatus.t) (start_time : option datetime)
    (result_id : option Z) : M Z :=
  id <- transaction IMMEDIATE
          (l <- match id with
                | None =>
                    add_branch event_id competitor_id first_name last_name
                      gender year class_id club_id not_competing chip fields
                      status start_time
                | Some id =>
                    update_branch id event_id competitor_id first_name
                      last_name gender year class_id club_id not_competing
                      chip fields status start_time result_id
                end ;;
           settle_result event_id l class_id status start_time result_id ;;;
           ret (l_id l)) ;;
  clear_cache (Some event_id) (Some id) ;;;
  ret id.

(** [delete_entry] of [entries.py]. *)
Definition entries_delete_entry (id : Z) : M unit :=
  transaction IMMEDIATE (delete_entry id) ;;;
  clear_cache None None.

End Results.

(** ** Vocabulary of the specification

    The sets and conditions that section 4.2 of the specification names,
    written over the store. *)
Section Vocabulary.
Context {E : ResultEngine}.

(** What one class makes of its own copy of the result: the class and the
    recomputed copy when the class has a course and the copy comes out
    [OK], nothing otherwise. *)
Definition try_class (db : Store.t) (result : PersonRaceResult.t)
    (competitor : Competitor.t) (class_ : Class.t)
  : list (Class.t * PersonRaceResult.t) :=
  match Class.course_id class_ with
  | None => []
  | Some cid =>
      match find_course db cid with
      | None => []
      | Some course =>
          let r := compute_result (Course.controls course)
                     (Class.params class_) None
                     (truthy_year (Competitor.year competitor))
                     (Some (Competitor.gender competitor)) result in
          if ResultStatus.eqb (PersonRaceResult.status r) ResultStatus.OK
          then [(class_, r)] else []
      end
  end.

(** The classes of the event with a course that yield [OK]. *)
Definition ok_matches (db : Store.t) (event_id : Z)
    (result : PersonRaceResult.t) (competitor : Competitor.t)
  : list (Class.t * PersonRaceResult.t) :=
  flat_map (try_class db result competitor) (classes_of db event_id).

(** What [missing_controls] asks of a result to answer with the empty
    list: a start time, a finish time and no [MISSING] row. *)
Definition complete (r : PersonRaceResult.t) : Prop :=
  PersonRaceResult.start_time r <> None
  /\ PersonRaceResult.finish_time r <> None
  /\ forall sp, In sp (PersonRaceResult.split_times r) ->
                is_missing sp = false.

(** Modelled from the spec: [compute_result] ([result_type.py]) is not
    under src/.  Section 4.1 gives the status [OK] to a result of which no
    expected control is [MISSING], and [MISSING_PUNCH] to a result with a
    finish but neither start nor punches; [missing_controls] counts a
    missing start or finish as a missing control.  The reading taken here
    is that a result without start or without finish is not [OK] either.
    [ok_is_complete r] is that reading for the card result [r]: whatever
    the course, the engine finishes [r] as [OK] only with a complete
    result. *)
Definition ok_is_complete (r : PersonRaceResult.t) : Prop :=
  forall controls params scheduled year gender,
    PersonRaceResult.status
      (compute_result controls params scheduled year gender r)
    = ResultStatus.OK ->
    complete (compute_result controls params scheduled year gender r).

(** [C]: the entries of the event whose chip is the control card, and its
    partition into assigned (class set) and unassigned (class unset). *)
Definition card_entries (db : Store.t) (event_id : Z) (chip : option string)
  : list Entry.t :=
  filter (chip_is chip) (entries_of db event_id).

Definition assigned_of (db : Store.t) (event_id : Z) (chip : option string)
  : list Entry.t :=
  filter (fun e => opt_is_some (Entry.class_name e))
    (card_entries db event_id chip).

Definition unassigned_of (db : Store.t) (event_id : Z) (chip : option string)
  : list Entry.t :=
  filter (fun e => opt_is_none (Entry.class_name e))
    (card_entries db event_id chip).

(** Duplicate-to-assigned: some assigned entry has the SI punches of the
    incoming result. *)
Definition duplicates_assigned (assigned : list Entry.t)
    (result : PersonRaceResult.t) : Prop :=
  exists a, In a assigned /\ same_si_punches (Entry.result a) result = true.

(** Merge into sole assigned: [|assigned| == 1], that entry has no punches,
    and [|unassigned| == 0] or [|unassigned| == 1] with the same SI
    punches. *)
Definition merge_condition (assigned unassigned : list Entry.t)
    (result : PersonRaceResult.t) : Prop :=
  exists a,
    assigned = [a]
    /\ has_punches (Entry.result a) = false
    /\ (unassigned = []
        \/ exists u, unassigned = [u]
                     /\ same_si_punches (Entry.result u) result = true).

(** The row that [add_entry_result] inserts. *)
Definition unassigned_row (db : Store.t) (event_id : Z) (chip : option string)
    (result : PersonRaceResult.t) : EntryRow.t :=
  EntryRow.mk (fresh_id (map EntryRow.id (Store.entries db))) event_id
    None None None false chip [] result PersonRaceStart.default.

(** The store after [add_entry_result]. *)
Definition with_unassigned (db : Store.t) (event_id : Z) (chip : option string)
    (result : PersonRaceResult.t) : Store.t :=
  Store.set_entries
    (Store.entries db ++ [unassigned_row db event_id chip result]) db.

(** The course controls and class parameters an entry is computed against:
    those of its class when the class and its course are found, otherwise no
    controls and [ClassParams()]. *)
Definition course_params_of (db : Store.t) (class_id : option Z)
  : ClassParams.t * list string :=
  match class_id with
  | None => (ClassParams_default, [])
  | Some cid =>
      match find_class db cid with
      | None => (ClassParams_default, [])
      | Some class_ =>
          match Class.course_id class_ with
          | None => (ClassParams_default, [])
          | Some course_id =>
              match find_course db course_id with
              | None => (ClassParams_default, [])
              | Some course => (Class.params class_, Course.controls course)
              end
          end
      end
  end.

(** What the merge leaves behind, in the words of the specification: the
    sole assigned entry [a] carries the incoming result recomputed against
    the course and parameters of its class, with its scheduled start, year
    and gender; the matching unassigned entry, when there is one, is gone
    and the event has one entry less. *)
Definition merge_outcome (db db' : Store.t) (event_id : Z) (a : Entry.t)
    (unassigned : list Entry.t) (result : PersonRaceResult.t) : Prop :=
  (forall cid class_ coid course,
     Entry.class_id a = Some cid ->
     find_class db cid = Some class_ ->
     Class.course_id class_ = Some coid ->
     find_course db coid = Some course ->
     option_map EntryRow.result (find_row db' (Entry.id a)) =
     Some (compute_result (Course.controls course) (Class.params class_)
             (PersonRaceStart.start_time (Entry.start a))
             (Entry.year a) (Entry.gender a) result))
  /\ (forall u,
        unassigned = [u] ->
        find_row db' (Entry.id u) = None
        /\ S (List.length (rows_of db' event_id))
           = List.length (rows_of db event_id)).

(** The merge claim as the specification states it, for one message. *)
Definition merge_claim (event_key : string) (item : CardReaderMessage.t)
    (w : world) : Prop :=
  forall ev r a,
    let db := w_db w in
    let chip := CardReaderMessage.control_card item in
    find (key_matches event_key) (Store.events db) = Some ev ->
    Event.light ev = false ->
    CardReaderMessage.entry_type item = "cardRead" ->
    CardReaderMessage.result item = Some r ->
    NoDup (map EntryRow.id (Store.entries db)) ->
    assigned_of db (Event.id ev) chip = [a] ->
    merge_condition (assigned_of db (Event.id ev) chip)
      (unassigned_of db (Event.id ev) chip) r ->
    exists res w',
      store_cardreader_result event_key item w
      = (Ok ("cardRead", ev, res), w')
      /\ merge_outcome db (w_db w') (Event.id ev) a
           (unassigned_of db (Event.id ev) chip) r.

(** An unassigned entry of the event with the given chip and result. *)
Definition stored_unassigned (db : Store.t) (event_id : Z)
    (chip : option string) (result : PersonRaceResult.t) : Prop :=
  exists row,
    In row (Store.entries db)
    /\ EntryRow.event_id row = event_id
    /\ EntryRow.chip row = chip
    /\ EntryRow.competitor_id row = None
    /\ EntryRow.class_id row = None
    /\ EntryRow.result row = result.

(** The claim on a removed or replaced result as the specification states
    it, for one call on the existing entry [id] with [result_id] set: when
    the entry's current result has punches, a reset copy of it, recomputed
    without controls, is in the store as an unassigned entry after the
    call. *)
Definition kept_result_claim (id event_id : Z) (competitor_id : option Z)
    (first_name last_name gender : string) (year : option Z) (class_id : Z)
    (club_id : option Z) (not_competing : bool) (chip : string)
    (fields : list (Z * string)) (status : ResultStatus.t)
    (start_time : option datetime) (result_id : Z) (w : world) : Prop :=
  forall row id' w',
    find_row (w_db w) id = Some row ->
    has_punches (EntryRow.result row) = true ->
    add_or_update_entry (Some id) event_id competitor_id first_name last_name
      gender year class_id club_id not_competing chip fields status
      start_time (Some result_id) w = (Ok id', w') ->
    stored_unassigned (w_db w') (EntryRow.event_id row) (EntryRow.chip row)
      (compute_result [] ClassParams_default None None None
         (reset (EntryRow.result row))).

(** The store after the first half of an update of the entry [row] with
    [result_id] set: the removed result is kept as an unassigned entry, the
    competitor and the entry are updated. *)
Definition after_update (db : Store.t) (row : EntryRow.t)
    (competitor : Competitor.t) (first_name last_name gender : string)
    (year : option Z) (class_id : Z) (club_id : option Z)
    (not_competing : bool) (chip : string) (fields : list (Z * string))
    (status : ResultStatus.t) (start_time : option datetime) : Store.t :=
  with_entry
    (with_competitor
       (with_unassigned db (EntryRow.event_id row) (EntryRow.chip row)
          (compute_result [] ClassParams_default None None None
             (reset (EntryRow.result row))))
       (Competitor.id competitor) first_name last_name
       (Competitor.club_id competitor) gender year (Competitor.chip competitor))
    (EntryRow.id row) (Some class_id) club_id not_competing (Some chip) fields
    (PersonRaceResult.set_status status (EntryRow.result row))
    (PersonRaceStart.set_start_time start_time (EntryRow.start row)).

(** Cache invalidation relative to the transaction brackets: reading the
    log from the left, no [clear_cache] happens between a begin and the
    commit or rollback that closes it.  [open] tells whether a transaction
    is open at the start of the log. *)
Fixpoint clears_outside (open : bool) (log : list effect) : bool :=
  match log with
  | [] => true
  | TxBegin _ :: l => clears_outside true l
  | TxCommit :: l => clears_outside false l
  | TxRollback :: l => clears_outside false l
  | CacheClear _ _ :: l => negb open && clears_outside open l
  end.

Definition is_clear (e : effect) : bool :=
  match e with CacheClear _ _ => true | _ => false end.

(** A computation that leaves in the log nothing but calls of
    [clear_cache]: it opens and closes no transaction of its own. *)
Definition quiet {A} (m : M A) : Prop :=
  forall w, exists l,
    w_log (snd (m w)) = (w_log w ++ l)%list /\ forallb is_clear l = true.

End Vocabulary.

(** ** A concrete engine *)

(** Modelled from the spec: [result_type.py] is not under src/.  The
    instance below follows section 4.1 for the standard course order
    (no voided legs, no handicap), section 4.2 for [same_si_punches], and
    the fixtures of [tests/model/test_entries.py] for [reset] and
    [has_punches]: [reset] puts a result back to what the card itself
    holds (punched times become the SI times, rows without an SI punch are
    dropped).  It serves to run the model on concrete inputs; the theorems
    on the model functions hold for every engine. *)
Module SampleEngine.

Definition has_time (o : option datetime) : bool := opt_is_some o.

Definition has_punches (r : PersonRaceResult.t) : bool :=
  has_time (PersonRaceResult.punched_start_time r)
  || has_time (PersonRaceResult.punched_finish_time r)
  || existsb (fun s => has_time (SplitTime.punch_time s))
       (PersonRaceResult.split_times r).

Definition si_punches (r : PersonRaceResult.t) : list (string * datetime) :=
  flat_map (fun s => match SplitTime.si_punch_time s with
                     | Some t => [(SplitTime.control_code s, t)]
                     | None => []
                     end)
    (PersonRaceResult.split_times r).

Definition punch_eqb (a b : string * datetime) : bool :=
  String.eqb (fst a) (fst b) && (snd a =? snd b).

Fixpoint remove_one (p : string * datetime) (l : list (string * datetime))
  : option (list (string * datetime)) :=
  match l with
  | [] => None
  | q :: l' =>
      if punch_eqb p q then Some l'
      else option_map (cons q) (remove_one p l')
  end.

Fixpoint same_multiset (a b : list (string * datetime)) : bool :=
  match a with
  | [] => match b with [] => true | _ => false end
  | p :: a' =>
      match remove_one p b with
      | Some b' => same_multiset a' b'
      | None => false
      end
  end.

Definition same_si_punches (r other : PersonRaceResult.t) : bool :=
  opt_eqb Z.eqb (PersonRaceResult.si_punched_start_time r)
    (PersonRaceResult.si_punched_start_time other)
  && opt_eqb Z.eqb (PersonRaceResult.si_punched_finish_time r)
       (PersonRaceResult.si_punched_finish_time other)
  && same_multiset (si_punches r) (si_punches other).

Definition reset (r : PersonRaceResult.t) : PersonRaceResult.t :=
  PersonRaceResult.mk ResultStatus.FINISHED None None
    (PersonRaceResult.si_punched_start_time r)
    (PersonRaceResult.si_punched_finish_time r)
    (PersonRaceResult.si_punched_start_time r)
    (PersonRaceResult.si_punched_finish_time r)
    (PersonRaceResult.punched_clear_time r)
    (PersonRaceResult.punched_check_time r)
    None
    (flat_map (fun s => match SplitTime.si_punch_time s with
                        | Some t => [SplitTime.mk (SplitTime.control_code s)
                                       (Some t) (Some t) None None false]
                        | None => []
                        end)
       (PersonRaceResult.split_times r))
    [].

(** The working sequence: the rows that carry a punch, all [ADDITIONAL]. *)
Definition working (sts : list SplitTime.t) : list SplitTime.t :=
  flat_map (fun s => match SplitTime.punch_time s with
                     | Some t => [SplitTime.mk (SplitTime.control_code s)
                                    (Some t) (SplitTime.si_punch_time s) None
                                    (Some SpStatus.ADDITIONAL) false]
                     | None => []
                     end) sts.

Definition is_additional (s : SplitTime.t) : bool :=
  opt_eqb SpStatus.eqb (SplitTime.status s) (Some SpStatus.ADDITIONAL).

(** Consume the earliest unused punch of code [c] not before [last]. *)
Fixpoint consume (c : string) (last : datetime) (pool : list SplitTime.t)
  : option (list SplitTime.t * datetime) :=
  match pool with
  | [] => None
  | s :: pool' =>
      match SplitTime.punch_time s with
      | Some t =>
          if is_additional s && String.eqb (SplitTime.control_code s) c
             && (last <=? t)
          then Some (SplitTime.mk (SplitTime.control_code s) (Some t)
                       (SplitTime.si_punch_time s) None (Some SpStatus.OK)
                       false :: pool', t)
          else option_map (fun r => (s :: fst r, snd r)) (consume c last pool')
      | None => option_map (fun r => (s :: fst r, snd r)) (consume c last pool')
      end
  end.

Fixpoint walk (controls : list string) (last : datetime)
    (pool : list SplitTime.t) : list SplitTime.t * list string :=
  match controls with
  | [] => (pool, [])
  | c :: cs =>
      match consume c last pool with
      | Some (pool', t) => walk cs t pool'
      | None => let r := walk cs last pool in (fst r, c :: snd r)
      end
  end.

Definition missing_row (c : string) : SplitTime.t :=
  SplitTime.mk c None None None (Some SpStatus.MISSING) false.

Definition since (start : option datetime) (t : option datetime) : option Z :=
  match start, t with
  | Some s, Some x => Some (x - s)
  | _, _ => None
  end.

Definition with_time (start : option datetime) (s : SplitTime.t) : SplitTime.t :=
  SplitTime.mk (SplitTime.control_code s) (SplitTime.punch_time s)
    (SplitTime.si_punch_time s) (since start (SplitTime.punch_time s))
    (SplitTime.status s) (SplitTime.leg_voided s).

Definition terminal (s : ResultStatus.t) : bool :=
  match s with
  | ResultStatus.DID_NOT_START | ResultStatus.DID_NOT_FINISH
  | ResultStatus.DISQUALIFIED => true
  | _ => false
  end.

Definition compute_result (controls : list string) (params : ClassParams.t)
    (scheduled : option datetime) (year : option Z) (gender : option string)
    (r : PersonRaceResult.t) : PersonRaceResult.t :=
  let start := match scheduled with
               | Some t => Some t
               | None => PersonRaceResult.punched_start_time r
               end in
  let finish := PersonRaceResult.punched_finish_time r in
  let pool := working (PersonRaceResult.split_times r) in
  let w := walk controls
             (match start with Some t => t | None => 0 end) pool in
  let rows := (map (with_time start) (fst w) ++ map missing_row (snd w))%list in
  let status :=
    if terminal (PersonRaceResult.status r) then PersonRaceResult.status r
    else if opt_is_none finish && match pool with [] => true | _ => false end
    then PersonRaceResult.status r
    else match controls with
         | [] => ResultStatus.FINISHED
         | _ =>
             match start, finish with
             | Some s, Some f =>
                 if f <? s then ResultStatus.DID_NOT_FINISH
                 else match snd w with
                      | [] => ResultStatus.OK
                      | _ => ResultStatus.MISSING_PUNCH
                      end
             | _, _ => ResultStatus.MISSING_PUNCH
             end
         end in
  PersonRaceResult.mk status start finish
    (PersonRaceResult.punched_start_time r)
    (PersonRaceResult.punched_finish_time r)
    (PersonRaceResult.si_punched_start_time r)
    (PersonRaceResult.si_punched_finish_time r)
    (PersonRaceResult.punched_clear_time r)
    (PersonRaceResult.punched_check_time r)
    (since start finish)
    rows
    (PersonRaceResult.extensions r).

Definition params : ClassParams.t :=
  ClassParams.mk "standard" [] None None None false.

Definition engine : ResultEngine :=
  Build_ResultEngine params compute_result has_punches same_si_punches reset.

End SampleEngine.

(** ** Fixtures: the scenarios of the tests, as stores *)
Module Fixtures.

(** Times of day of 2015-01-01, in seconds. *)
Definition s1 : datetime := 45539.  (* 12:38:59 *)
Definition c1 : datetime := 45541.  (* 12:39:01 *)
Definition c2 : datetime := 45543.  (* 12:39:03 *)
Definition c3 : datetime := 45545.  (* 12:39:05 *)
Definition f1 : datetime := 45547.  (* 12:39:07 *)
Definition entry_time : datetime := 49139.  (* 13:38:59 *)

Definition punch (code : string) (t : datetime) : SplitTime.t :=
  SplitTime.mk code (Some t) (Some t) None (Some SpStatus.ADDITIONAL) false.

(** [_ok_result()] of [test_store_cardreader_result_light.py] *)
Definition ok_result : PersonRaceResult.t :=
  PersonRaceResult.mk ResultStatus.FINISHED None None (Some s1) (Some f1)
    (Some s1) (Some f1) None None None
    [punch "101" c1; punch "102" c2; punch "103" c3] [].

(** [_missing_punch_result()] *)
Definition missing_punch_result : PersonRaceResult.t :=
  PersonRaceResult.mk ResultStatus.FINISHED None None (Some s1) (Some f1)
    (Some s1) (Some f1) None None None
    [punch "101" c1; punch "103" c3] [].

(** A card that was cleared and read out without a single punch. *)
Definition empty_card : PersonRaceResult.t :=
  PersonRaceResult.of_status ResultStatus.FINISHED.

Definition light_event : Event.t :=
  Event.mk 1 "Light Event" 20150101 (Some "4711") false None [] true.

Definition standard_event : Event.t :=
  Event.mk 1 "Event" 20150101 (Some "4711") false None [] false.

Definition bahn_a : Course.t := Course.mk 1 1 "Bahn A" ["101"; "102"; "103"].

Definition elite : Class.t :=
  Class.mk 1 1 "Elite" (Some "E") (Some 1) SampleEngine.params.

Definition open_class : Class.t :=
  Class.mk 2 1 "Open" (Some "O") (Some 1) SampleEngine.params.

Definition jane : Competitor.t :=
  Competitor.mk 1 "Jane" "Doe" None "F" (Some 1990) "9876".

Definition light_db : Store.t :=
  Store.mk [light_event] [bahn_a] [elite] [] [jane] [].

Definition card_read (chip : string) (r : PersonRaceResult.t)
  : CardReaderMessage.t :=
  CardReaderMessage.mk "cardRead" entry_time (Some chip) (Some r).

Definition start_of (db : Store.t) : world := mk_world db [].

(** An event whose stored key is the empty string. *)
Definition keyless_event : Event.t :=
  Event.mk 1 "Light Event" 20150101 (Some "") false None [] true.

Definition keyless_db : Store.t :=
  Store.mk [keyless_event] [bahn_a] [elite] [] [jane] [].

(** A [cardRead] message that lost its result. *)
Definition broken_read : CardReaderMessage.t :=
  CardReaderMessage.mk "cardRead" entry_time (Some "9876") None.

(** The store of [test_second_reading_if_entry_already_exists]: the chip
    already has an (unassigned) entry. *)
Definition read_before_db : Store.t :=
  Store.mk [light_event] [bahn_a] [elite] [] [jane]
    [EntryRow.mk 1 1 None None None false (Some "9876") []
       (PersonRaceResult.of_status ResultStatus.FINISHED)
       PersonRaceStart.default].

(** The store of [test_unassigned_on_multiple_matching_classes]. *)
Definition two_class_db : Store.t :=
  Store.mk [light_event] [bahn_a] [elite; open_class] [] [jane] [].

(** The merge scenario (S6): a standard event, one assigned entry for chip
    4711 without a result, one unassigned entry holding a read of the
    card. *)
Definition angela : Competitor.t :=
  Competitor.mk 1 "Angela" "Merkel" None "F" (Some 1957) "4711".

Definition assigned_row (result : PersonRaceResult.t) : EntryRow.t :=
  EntryRow.mk 1 1 (Some 1) (Some 1) None false (Some "4711") [] result
    PersonRaceStart.default.

Definition unassigned_read (id : Z) (result : PersonRaceResult.t) : EntryRow.t :=
  EntryRow.mk id 1 None None None false (Some "4711") []
    (SampleEngine.compute_result [] SampleEngine.params None None None result)
    PersonRaceStart.default.

(** The result of an entry that was registered and never read. *)
Definition not_started : PersonRaceResult.t :=
  SampleEngine.compute_result ["101"; "102"; "103"] SampleEngine.params
    None (Some 1957) (Some "F") PersonRaceResult.default.

Definition merge_db : Store.t :=
  Store.mk [standard_event] [bahn_a] [elite] [] [angela]
    [assigned_row not_started; unassigned_read 2 ok_result].

(** A class on a course without controls (start to finish): the result of
    an entry registered in it has no rows at all. *)
Definition sprint_course : Course.t := Course.mk 2 1 "Sprint" [].

Definition sprinters : Class.t :=
  Class.mk 2 1 "Sprinters" None (Some 2) SampleEngine.params.

Definition sprinter_row : EntryRow.t :=
  EntryRow.mk 1 1 (Some 1) (Some 2) None false (Some "4711") []
    PersonRaceResult.default PersonRaceStart.default.

(** An empty card was read (and stored unassigned) before its owner was
    registered. *)
Definition empty_read_db : Store.t :=
  Store.mk [standard_event] [bahn_a; sprint_course] [elite; sprinters] []
    [angela]
    [sprinter_row; unassigned_read 2 empty_card].

(** The store of [tests/model/test_entries.py]: one event, one class with a
    course, one club, Angela Merkel as competitor. *)
Definition bundestag : Club.t := Club.mk 1 "OL Bundestag".

Definition merkel : Competitor.t :=
  Competitor.mk 1 "Angela" "Merkel" (Some 1) "F" (Some 1957) "1234567".

Definition entries_db : Store.t :=
  Store.mk [standard_event] [bahn_a] [elite] [bundestag] [merkel] [].

(** [entry_1] of the tests: start and control 103 come from the card, the
    finish time and control 101 were entered by hand. *)
Definition entry_1_result : PersonRaceResult.t :=
  SampleEngine.compute_result ["101"; "102"; "103"] SampleEngine.params None
    None None
    (PersonRaceResult.mk ResultStatus.INACTIVE None None (Some s1) (Some f1)
       (Some s1) None None None None
       [SplitTime.mk "101" (Some c1) None None (Some SpStatus.ADDITIONAL) false;
        SplitTime.mk "103" (Some c3) (Some c3) None (Some SpStatus.ADDITIONAL)
          false]
       []).

Definition registered_row (result : PersonRaceResult.t) : EntryRow.t :=
  EntryRow.mk 1 1 (Some 1) (Some 1) (Some 1) false (Some "4711") [] result
    PersonRaceStart.default.

Definition entry_1_db : Store.t :=
  Store.mk [standard_event] [bahn_a] [elite] [bundestag] [merkel]
    [registered_row entry_1_result].

(** An entry whose only punch is a finish time entered by hand
    ([edit_entry_result] on the FINISH row), like the finish time of
    [entry_1]: nothing on it comes from a card. *)
Definition hand_edited_result : PersonRaceResult.t :=
  SampleEngine.compute_result ["101"; "102"; "103"] SampleEngine.params None
    None None
    (PersonRaceResult.mk ResultStatus.INACTIVE None None None (Some f1)
       None None None None None [] []).

Definition hand_edited_db : Store.t :=
  Store.mk [standard_event] [bahn_a] [elite] [bundestag] [merkel]
    [registered_row hand_edited_result].

End Fixtures.


(** ** Series points *)

(** Modelled from the spec: [build_results.build_total_results] (the series
    aggregator) is not under src/; [build_series_result] only hands the
    settings and the per-event rankings to it.  Section 4.4: in the
    proportional modes an [OK] competitor of a class gets
    [maximum_points * (fastest_time / runner_time) ^ k] points for an event,
    rounded to [decimal_places]; [fastest_time] is the best [OK] time of the
    class in that event.  Points are [Decimal]s; rounding is to nearest,
    ties to even, the default of Python's [decimal]. *)
Module Series.

Record Settings := mk_settings {
  name : string;
  nr_of_best_results : Z;
  mode : string;
  maximum_points : Z;
  decimal_places : nat
}.

(** A decimal number with [places] digits after the point:
    [units / 10 ^ places]. *)
Record Decimal := mk_decimal {
  units : Z;
  places : nat
}.

Definition scale (places : nat) : Z := 10 ^ Z.of_nat places.

(** [n / d] rounded to the nearest integer, ties to even. *)
Definition div_half_even (n d : Z) : Z :=
  let q := n / d in
  let r := n mod d in
  if 2 * r <? d then q
  else if d <? 2 * r then q + 1
  else if Z.even q then q else q + 1.

(** Modelled from the spec: the per-event points of the proportional modes
    of [build_total_results] (not under src/), section 4.4:
    [maximum_points * (fastest / time) ^ k], rounded to [decimal_places]. *)
Definition proportional (k : Z) (s : Settings) (fastest time : Z) : Decimal :=
  mk_decimal
    (div_half_even (maximum_points s * fastest ^ k * scale (decimal_places s))
       (time ^ k))
    (decimal_places s).

(** The time of an entry that counts: status [OK] and a time. *)
Definition ok_time (e : Entry.t) : option Z :=
  if ResultStatus.eqb (PersonRaceResult.status (Entry.result e)) ResultStatus.OK
  then PersonRaceResult.time (Entry.result e)
  else None.

(** Modelled from the spec: [fastest_time] of section 4.4, the best [OK]
    time of the class list ([build_total_results] is not under src/). *)
Fixpoint fastest_time (class_list : list Entry.t) : option Z :=
  match class_list with
  | [] => None
  | e :: rest =>
      match ok_time e, fastest_time rest with
      | Some t, Some f => Some (Z.min t f)
      | Some t, None => Some t
      | None, f => f
      end
  end.

(** The exponent [k] of the ranking mode.  The table of mode Place is not
    given by the specification; that mode is left without points here. *)
Definition mode_exponent (s : Settings) : option Z :=
  if String.eqb (mode s) "Proportional 1" then Some 1
  else if String.eqb (mode s) "Proportional 2" then Some 2
  else None.

(** Modelled from the spec: the points of one event for the [OK]
    competitors of a class in the proportional modes, as
    [build_total_results] (not under src/) assigns them by section 4.4. *)
Definition event_points (s : Settings) (class_list : list Entry.t)
  : list (Entry.t * Decimal) :=
  match mode_exponent s, fastest_time class_list with
  | Some k, Some fastest =>
      flat_map (fun e => match ok_time e with
                         | Some t => [(e, proportional k s fastest t)]
                         | None => []
                         end)
        class_list
  | _, _ => []
  end.

(** [d <= z] and [d = z] for a decimal and an integer. *)
Definition le_int (d : Decimal) (z : Z) : Prop :=
  units d <= z * scale (places d).

Definition eq_int (d : Decimal) (z : Z) : Prop :=
  units d = z * scale (places d).

(** [d] is the exact quotient [n / m] rounded to its number of places:
    they differ by at most half a unit of the last place. *)
Definition rounds (d : Decimal) (n m : Z) : Prop :=
  Z.abs (2 * (units d * m - n * scale (places d))) <= m.

(** The series of [test_build_series_result.py]: 500 points, 3 places. *)
Definition series_1 : Settings := mk_settings "Series 1" 4 "Proportional 1" 500 3.

Definition finisher (id : Z) (first_name last_name : string) (time : Z)
  : Entry.t :=
  Entry.mk id 1 (Some id) (Some first_name) (Some last_name) (Some "") None
    (Some 1) (Some "Bahn A - Lang") false (Some "") []
    (PersonRaceResult.mk ResultStatus.OK None None None None None None None
       None (Some time) [] [])
    PersonRaceStart.default None None.

Definition bahn_a_lang : list Entry.t :=
  [finisher 1 "Angela" "Merkel" 9876; finisher 4 "Birgit" "Derkel" 3333].

End Series.

(** * More of [results.py] and [entries.py] *)

(** ** [parse_cardreader_log] *)

(** One element of [item["punches"]]. *)
Module LogPunch.
Record t := mk {
  controlCode : option string;
  punchTime : option string
}.
End LogPunch.

(** The JSON object of a card-reader log entry, with the values the code
    reads: strings for the entry type, the control card and the times, a
    list for the punches.  [None] is an absent key and, for the keys read
    with [item.get], also a key that is [null]. *)
Module LogItem.
Record t := mk {
  entryType : option string;
  entryTime : option string;
  controlCard : option string;
  clearTime : option string;
  checkTime : option string;
  startTime : option string;
  finishTime : option string;
  punches : option (list LogPunch.t)
}.
End LogItem.

(** What [parse_cardreader_log] can raise: [jsonschema.ValidationError],
    [iso8601.ParseError], and [KeyError] with the missing key. *)
Inductive parse_error :=
  | ValidationError
  | ParseError
  | MissingKey (key : string).

Definition parsed (A : Type) : Type := (parse_error + A)%type.

Definition and_then {A B} (m : parsed A) (k : A -> parsed B) : parsed B :=
  match m with
  | inl e => inl e
  | inr a => k a
  end.

(** [item[key]] *)
Definition required {A} (key : string) (o : option A) : parsed A :=
  match o with
  | Some v => inr v
  | None => inl (MissingKey key)
  end.

Section ParseLog.
(** [jsonschema.validate(item, schema_cardreader_log)]: the schema file
    [schema/cardreader_log.json] is not under src/. *)
Variable schema_valid : LogItem.t -> bool.
(** [iso8601.parse_date], [None] where it raises [ParseError]. *)
Variable parse_date : string -> option datetime.

Definition date_of (s : string) : parsed datetime :=
  match parse_date s with
  | Some t => inr t
  | None => inl ParseError
  end.

(** [if item.get(key, None) is not None: ... = iso8601.parse_date(item[key])] *)
Definition optional_date (o : option string) : parsed (option datetime) :=
  match o with
  | None => inr None
  | Some s => and_then (date_of s) (fun t => inr (Some t))
  end.

(** The [for p in item["punches"]] loop: one [ADDITIONAL] row per punch, the
    punch time also being the SI punch time. *)
Fixpoint parse_punches (ps : list LogPunch.t) : parsed (list SplitTime.t) :=
  match ps with
  | [] => inr []
  | p :: rest =>
      and_then (required "controlCode" (LogPunch.controlCode p)) (fun code =>
      and_then (required "punchTime" (LogPunch.punchTime p)) (fun s =>
      and_then (date_of s) (fun t =>
      and_then (parse_punches rest) (fun rows =>
      inr (SplitTime.mk code (Some t) (Some t) None
             (Some SpStatus.ADDITIONAL) false :: rows)))))
  end.

Definition parse_cardreader_log (item : LogItem.t)
  : parsed CardReaderMessage.t :=
  if negb (schema_valid item) then inl ValidationError
  else
    and_then (required "entryType" (LogItem.entryType item)) (fun entry_type =>
    and_then (required "entryTime" (LogItem.entryTime item)) (fun s =>
    and_then (date_of s) (fun entry_time =>
    let control_card := LogItem.controlCard item in
    if String.eqb entry_type "cardRead" then
      and_then (optional_date (LogItem.clearTime item)) (fun clear =>
      and_then (optional_date (LogItem.checkTime item)) (fun check =>
      and_then (optional_date (LogItem.startTime item)) (fun start =>
      and_then (optional_date (LogItem.finishTime item)) (fun finish =>
      and_then (required "punches" (LogItem.punches item)) (fun ps =>
      and_then (parse_punches ps) (fun rows =>
      inr (CardReaderMessage.mk entry_type entry_time control_card
             (Some (PersonRaceResult.mk ResultStatus.FINISHED
                      start finish start finish start finish clear check
                      None rows [])))))))))
    else
      inr (CardReaderMessage.mk entry_type entry_time control_card None)))).

End ParseLog.

(** The split time row that a punch of the log becomes. *)
Definition punch_row (parse_date : string -> option datetime)
    (p : LogPunch.t) (row : SplitTime.t) : Prop :=
  exists t s,
    LogPunch.controlCode p = Some (SplitTime.control_code row)
    /\ LogPunch.punchTime p = Some s
    /\ parse_date s = Some t
    /\ SplitTime.punch_time row = Some t
    /\ SplitTime.si_punch_time row = Some t
    /\ SplitTime.time row = None
    /\ SplitTime.status row = Some SpStatus.ADDITIONAL
    /\ SplitTime.leg_voided row = false.

(** An optional time of the log and the time it was read as. *)
Definition read_as (parse_date : string -> option datetime)
    (o : option string) (t : option datetime) : Prop :=
  match o with
  | None => t = None
  | Some s => t <> None /\ parse_date s = t
  end.

(** ** [create_event_list] *)

(** [list.sort(key=...)] is stable, and a stable sort has one result: the
    one obtained by inserting every element, from the last to the first,
    before the first element that is not smaller. *)
Fixpoint insert_by {A} (leb : A -> A -> bool) (x : A) (l : list A) : list A :=
  match l with
  | [] => [x]
  | y :: l' => if leb x y then x :: l else y :: insert_by leb x l'
  end.

Definition sort_by {A} (leb : A -> A -> bool) (l : list A) : list A :=
  fold_right (insert_by leb) [] l.

(** The sort key [e.series] of an event that has a series. *)
Definition series_key (e : Event.t) : string :=
  match Event.series e with
  | Some s => s
  | None => ""
  end.

Definition by_series (a b : Event.t) : bool :=
  String.leb (series_key a) (series_key b).

Definition by_date (a b : Event.t) : bool := Event.date a <=? Event.date b.

Definition create_event_list (events : list Event.t) : list Event.t :=
  (* filter list *)
  let e_list := filter (fun e => opt_is_some (Event.series e)) events in
  (* sort list *)
  let e_list := sort_by by_series e_list in
  sort_by by_date e_list.

(** Earlier date first, and within a date the smaller series first. *)
Definition in_series_order (a b : Event.t) : Prop :=
  Event.date a < Event.date b
  \/ (Event.date a = Event.date b
      /\ String.leb (series_key a) (series_key b) = true).

(** ** [edit_entry_result] *)

(** [selected_row]: the START row, the FINISH row, or the index of a split
    time row. *)
Inductive selected_row :=
  | START
  | FINISH
  | Row (i : Z).

(** [l[i]] for a Python list: indices count from the end when negative. *)
Definition py_index {A} (l : list A) (i : Z) : option nat :=
  let n := Z.of_nat (List.length l) in
  if (0 <=? i) && (i <? n) then Some (Z.to_nat i)
  else if (- n <=? i) && (i <? 0) then Some (Z.to_nat (i + n))
  else None.

Fixpoint set_nth {A} (n : nat) (f : A -> A) (l : list A) {struct l}
  : list A :=
  match l, n with
  | [], _ => []
  | x :: l', O => f x :: l'
  | x :: l', S n' => x :: set_nth n' f l'
  end.

Fixpoint remove_nth {A} (n : nat) (l : list A) {struct l} : list A :=
  match l, n with
  | [], _ => []
  | _ :: l', O => l'
  | x :: l', S n' => x :: remove_nth n' l'
  end.

(** [l.insert(i, x)]: the index is clamped to the list. *)
Definition py_insert {A} (i : Z) (x : A) (l : list A) : list A :=
  let n := Z.of_nat (List.length l) in
  let j := if i <? 0 then Z.max 0 (i + n) else Z.min i n in
  (firstn (Z.to_nat j) l ++ x :: skipn (Z.to_nat j) l)%list.

Definition set_punch_time (t : option datetime) (sp : SplitTime.t)
  : SplitTime.t :=
  SplitTime.mk (SplitTime.control_code sp) t (SplitTime.si_punch_time sp)
    (SplitTime.time sp) (SplitTime.status sp) (SplitTime.leg_voided sp).

(** [SplitTime(control_code=control, punch_time=used_t)] *)
Definition entered_row (control : string) (used_t : datetime) : SplitTime.t :=
  SplitTime.mk control (Some used_t) None None None false.

Definition set_punched_start_time (t : option datetime)
    (r : PersonRaceResult.t) : PersonRaceResult.t :=
  PersonRaceResult.mk (PersonRaceResult.status r)
    (PersonRaceResult.start_time r) (PersonRaceResult.finish_time r)
    t (PersonRaceResult.punched_finish_time r)
    (PersonRaceResult.si_punched_start_time r)
    (PersonRaceResult.si_punched_finish_time r)
    (PersonRaceResult.punched_clear_time r)
    (PersonRaceResult.punched_check_time r) (PersonRaceResult.time r)
    (PersonRaceResult.split_times r) (PersonRaceResult.extensions r).

Definition set_punched_finish_time (t : option datetime)
    (r : PersonRaceResult.t) : PersonRaceResult.t :=
  PersonRaceResult.mk (PersonRaceResult.status r)
    (PersonRaceResult.start_time r) (PersonRaceResult.finish_time r)
    (PersonRaceResult.punched_start_time r) t
    (PersonRaceResult.si_punched_start_time r)
    (PersonRaceResult.si_punched_finish_time r)
    (PersonRaceResult.punched_clear_time r)
    (PersonRaceResult.punched_check_time r) (PersonRaceResult.time r)
    (PersonRaceResult.split_times r) (PersonRaceResult.extensions r).

Definition set_split_times (rows : list SplitTime.t) (r : PersonRaceResult.t)
  : PersonRaceResult.t :=
  PersonRaceResult.mk (PersonRaceResult.status r)
    (PersonRaceResult.start_time r) (PersonRaceResult.finish_time r)
    (PersonRaceResult.punched_start_time r)
    (PersonRaceResult.punched_finish_time r)
    (PersonRaceResult.si_punched_start_time r)
    (PersonRaceResult.si_punched_finish_time r)
    (PersonRaceResult.punched_clear_time r)
    (PersonRaceResult.punched_check_time r) (PersonRaceResult.time r)
    rows (PersonRaceResult.extensions r).

Definition set_entry_result (result : PersonRaceResult.t) (e : Entry.t)
  : Entry.t :=
  Entry.mk (Entry.id e) (Entry.event_id e) (Entry.competitor_id e)
    (Entry.first_name e) (Entry.last_name e) (Entry.gender e) (Entry.year e)
    (Entry.class_id e) (Entry.class_name e) (Entry.not_competing e)
    (Entry.chip e) (Entry.fields e) result (Entry.start e) (Entry.club_id e)
    (Entry.club_name e).

(** What the card itself holds of a result: the SI start and finish times
    and, in row order, the SI punches. *)
Definition si_rows (rows : list SplitTime.t) : list (string * datetime) :=
  flat_map (fun s => match SplitTime.si_punch_time s with
                     | Some t => [(SplitTime.control_code s, t)]
                     | None => []
                     end) rows.

Definition si_data (r : PersonRaceResult.t)
  : option datetime * option datetime * list (string * datetime) :=
  (PersonRaceResult.si_punched_start_time r,
   PersonRaceResult.si_punched_finish_time r,
   si_rows (PersonRaceResult.split_times r)).

Section EditEntry.
Context {E : ResultEngine}.
(** A time of day ([datetime.time]) as the form delivers it. *)
Variable time_of_day : Type.
Variable time_eqb : time_of_day -> time_of_day -> bool.
(** [datetime.datetime.combine(date, time, tzinfo=tzlocal.get_localzone())] *)
Variable combine : Z -> time_of_day -> datetime.
(** [dt.time()] *)
Variable time_of : datetime -> time_of_day.
(** [SplitTime.NO_TIME] ([result_type.py] is not under src/). *)
Variable NO_TIME : datetime.

(** [update changed start time] / [update changed finish time]: the time is
    only replaced when the time of day differs from the one stored. *)
Definition changed_time (date : Z) (old : option datetime)
    (punch_time : option time_of_day) : option datetime :=
  match punch_time with
  | None => None
  | Some t =>
      match old with
      | None => Some (combine date t)
      | Some o => if time_eqb (time_of o) t then old else Some (combine date t)
      end
  end.

(** The edit proper, before the result is recomputed. *)
Definition edit_rows (date : Z) (command control : string) (i : Z)
    (punch_time : option time_of_day) (split_times : list SplitTime.t)
  : M (list SplitTime.t) :=
  if String.eqb command "entr_ep_del" then
    n <- of_option IndexError (py_index split_times i) ;;
    match nth_error split_times n with
    | Some sp =>
        if opt_is_none (SplitTime.si_punch_time sp)
        then (* delete the row (punch not contained at SI card) *)
          ret (remove_nth n split_times)
        else (* delete the used punch time *)
          ret (set_nth n (set_punch_time None) split_times)
    | None => raise IndexError
    end
  else
    let used_t := match punch_time with
                  | None => NO_TIME
                  | Some t => combine date t
                  end in
    if String.eqb command "entr_ep_edit" then
      n <- of_option IndexError (py_index split_times i) ;;
      ret (set_nth n (set_punch_time (Some used_t)) split_times)
    else
      ret (py_insert i (entered_row control used_t) split_times).

Definition edit_result (date : Z) (command control : string)
    (selected : selected_row) (punch_time : option time_of_day)
    (result : PersonRaceResult.t) : M PersonRaceResult.t :=
  match selected with
  | START =>
      ret (set_punched_start_time
             (changed_time date (PersonRaceResult.punched_start_time result)
                punch_time)
             result)
  | FINISH =>
      ret (set_punched_finish_time
             (changed_time date (PersonRaceResult.punched_finish_time result)
                punch_time)
             result)
  | Row i =>
      rows <- edit_rows date command control i punch_time
                (PersonRaceResult.split_times result) ;;
      ret (set_split_times rows result)
  end.

Definition edit_entry_result (entry_id event_id : Z) (command control : string)
    (selected : selected_row) (punch_time : option time_of_day) : M Entry.t :=
  entry <- transaction IMMEDIATE
             (event <- get_event event_id ;;
              entry <- get_entry entry_id ;;
              result <- edit_result (Event.date event) command control
                          selected punch_time (Entry.result entry) ;;
              (* compute new result *)
              pc <- class_course (Entry.class_id entry) ;;
              let result := compute_result (snd pc) (fst pc)
                              (PersonRaceStart.start_time (Entry.start entry))
                              (Entry.year entry) (Entry.gender entry) result in
              (* store result *)
              update_entry_result (Entry.id entry) (Entry.chip entry) result
                (Entry.start entry) ;;;
              ret (set_entry_result result entry)) ;;
  clear_cache (Some event_id) (Some entry_id) ;;;
  ret entry.

End EditEntry.

(** ** What an operation leaves alone *)

(** The tables that hold the set-up of the events are the same in both
    stores. *)
Definition same_setup (a b : Store.t) : Prop :=
  Store.events a = Store.events b
  /\ Store.courses a = Store.courses b
  /\ Store.classes a = Store.classes b
  /\ Store.clubs a = Store.clubs b.

(** The stores differ in their entries at most. *)
Definition same_but_entries (a b : Store.t) : Prop :=
  same_setup a b /\ Store.competitors a = Store.competitors b.

(** Entry ids (the primary key of the entries table) that are distinct in
    the first store are distinct in the second. *)
Definition ids_stay_distinct (a b : Store.t) : Prop :=
  NoDup (map EntryRow.id (Store.entries a)) ->
  NoDup (map EntryRow.id (Store.entries b)).

(** Whatever the outcome, the store a computation leaves behind is related
    by [P] to the store it started in. *)
Definition keeps (P : Store.t -> Store.t -> Prop) {A} (m : M A) : Prop :=
  forall w, P (w_db w) (w_db (snd (m w))).

(** A computation that leaves the log as it is: it opens no transaction
    and does not touch the cache. *)
Definition silent {A} (m : M A) : Prop :=
  forall w, w_log (snd (m w)) = w_log w.

(** A computation that raises nothing but the exceptions in [S]. *)
Definition raises_only (S : exn -> Prop) {A} (m : M A) : Prop :=
  forall w e, fst (m w) = Raise e -> S e.

(** A computation whose exceptions are justified, by [C], in the store it
    started in. *)
Definition answers (C : Store.t -> exn -> Prop) {A} (m : M A) : Prop :=
  forall w e, fst (m w) = Raise e -> C (w_db w) e.

(** What the [try] block of [add_or_update_entry] raises by itself. *)
Definition inner_error (e : exn) : Prop :=
  e = KeyError \/ e = ConstraintError "Result deleted".

(** The exception the handler of [add_or_update_entry] ends with, as a
    function of the store it runs in and of the exception [e] it caught:
    the first row found missing, in the order event, entry, competitor,
    class, club, or else [e] again. *)
Definition probe (db : Store.t) (event_id : Z) (id competitor_id : option Z)
    (class_id : Z) (club_id : option Z) (e : exn) : exn :=
  match find (fun ev => Event.id ev =? event_id) (Store.events db) with
  | None => EventNotFoundError
  | Some _ =>
      if match id with
         | Some i => opt_is_none (find_row db i)
         | None => false
         end
      then ConstraintError "Entry deleted"
      else if match competitor_id with
              | Some c => opt_is_none (find_competitor db c)
              | None => false
              end
      then ConstraintError "Competitor deleted"
      else if opt_is_none (find_class db class_id)
      then ConstraintError "Class deleted"
      else if match club_id with
              | Some c => opt_is_none (find_club db c)
              | None => false
              end
      then ConstraintError "Club deleted"
      else e
  end.

(** An error of [add_or_update_entry], read against the store of the
    call: [EventNotFoundError] stands for an event that is not in the
    store, every other error for an event that is in the store, and the
    message "Class deleted" for a class that is not in the store.  Which
    other errors there are is left open: the store may refuse a write
    with an error of its own, which the handler passes on when all its
    probes succeed. *)
Definition entry_error (event_id class_id : Z) (db : Store.t) (e : exn)
  : Prop :=
  let event := find (fun ev => Event.id ev =? event_id) (Store.events db) in
  match e with
  | EventNotFoundError => event = None
  | ConstraintError msg =>
      event <> None
      /\ (msg = "Class deleted" -> find_class db class_id = None)
  | _ => event <> None
  end.

(** ** The entries of a card and the competitor of a name *)

(** The rows behind [card_entries]. *)
Definition card_row (event_id : Z) (chip : option string) (r : EntryRow.t)
  : bool :=
  (EntryRow.event_id r =? event_id)
  && opt_eqb String.eqb (EntryRow.chip r) chip.

(** The store after [delete_entry] for each of the ids. *)
Definition without_entries (db : Store.t) (ids : list Z) : Store.t :=
  Store.set_entries
    (filter (fun r => negb (existsb (Z.eqb (EntryRow.id r)) ids))
       (Store.entries db))
    db.

(** ** More fixtures *)
Module Scenarios.

(** A clock for the time stamps of the fixtures. *)
Definition clock (s : string) : option datetime :=
  if String.eqb s "2015-01-01T12:38:59+00:00" then Some Fixtures.s1
  else if String.eqb s "2015-01-01T12:39:01+00:00" then Some Fixtures.c1
  else if String.eqb s "2015-01-01T12:39:03+00:00" then Some Fixtures.c2
  else if String.eqb s "2015-01-01T12:39:05+00:00" then Some Fixtures.c3
  else if String.eqb s "2015-01-01T12:39:07+00:00" then Some Fixtures.f1
  else if String.eqb s "2015-01-01T13:38:59+00:00" then Some Fixtures.entry_time
  else None.

Definition any_item (item : LogItem.t) : bool := true.

Definition punch (code time : string) : LogPunch.t :=
  LogPunch.mk (Some code) (Some time).

(** The log entry of a card that punched 101, 102 and 103. *)
Definition card_read_item : LogItem.t :=
  LogItem.mk (Some "cardRead") (Some "2015-01-01T13:38:59+00:00")
    (Some "9876") None None
    (Some "2015-01-01T12:38:59+00:00") (Some "2015-01-01T12:39:07+00:00")
    (Some [punch "101" "2015-01-01T12:39:01+00:00";
           punch "102" "2015-01-01T12:39:03+00:00";
           punch "103" "2015-01-01T12:39:05+00:00"]).

(** The card of an assigned entry is read a second time. *)
Definition read_result : PersonRaceResult.t :=
  SampleEngine.compute_result ["101"; "102"; "103"] SampleEngine.params
    None (Some 1957) (Some "F") Fixtures.ok_result.

Definition read_twice_db : Store.t :=
  Store.mk [Fixtures.standard_event] [Fixtures.bahn_a] [Fixtures.elite] []
    [Fixtures.angela] [Fixtures.assigned_row read_result].

(** A light event in which the card 5555, unknown at the time, was read
    and stored unassigned. *)
Definition unknown_read_db : Store.t :=
  Store.mk [Fixtures.light_event] [Fixtures.bahn_a] [Fixtures.elite] []
    [Fixtures.jane]
    [EntryRow.mk 1 1 None None None false (Some "5555") []
       (SampleEngine.compute_result [] SampleEngine.params None None None
          Fixtures.ok_result)
       PersonRaceStart.default].

(** A clock for one day: a time of day is its second, and the times of
    the fixtures are seconds of that day. *)
Definition day_combine (date : Z) (t : Z) : datetime := t.

Definition day_time (t : datetime) : Z := t.

(** Two events in one store: the merge scenario, and a second event that
    has an entry for the same card. *)
Definition relay : Event.t :=
  Event.mk 2 "Relay" 20150102 (Some "0815") false None [] false.

Definition relay_row : EntryRow.t :=
  EntryRow.mk 3 2 None None None false (Some "4711") [] Fixtures.empty_card
    PersonRaceStart.default.

Definition two_event_db : Store.t :=
  Store.mk [Fixtures.standard_event; relay] [Fixtures.bahn_a]
    [Fixtures.elite] [] [Fixtures.angela]
    [Fixtures.assigned_row Fixtures.not_started;
     Fixtures.unassigned_read 2 Fixtures.ok_result; relay_row].

End Scenarios.

(** * Properties *)

(** ** Equality tests *)

Lemma ResultStatus_eqb_eq (a b : ResultStatus.t) :
  ResultStatus.eqb a b = true <-> a = b.
Proof. destruct a, b; simpl; split; congruence. Qed.

Lemma opt_eqb_Z_eq (a b : option Z) : opt_eqb Z.eqb a b = true <-> a = b.
Proof.
  destruct a, b; simpl; split; try congruence.
  - intros H; apply Z.eqb_eq in H; congruence.
  - intros H; inversion H; apply Z.eqb_refl.
Qed.

Lemma opt_eqb_string_eq (a b : option string) :
  opt_eqb String.eqb a b = true <-> a = b.
Proof.
  destruct a, b; simpl; split; try congruence.
  - intros H; apply String.eqb_eq in H; congruence.
  - intros H; inversion H; apply String.eqb_refl.
Qed.

(** ** Running the monad *)

Ltac unfold_monad :=
  unfold transaction, bind, try_except, ret, raise, of_option, get_db, put_db,
    emit, clear_cache in *.

Lemma transaction_run {A} mode (body : M A) w :
  transaction mode body w =
  match body (opened mode w) with
  | (Ok a, w1) => (Ok a, committed w1)
  | (Raise e, w1) => (Raise e, rolled_back w w1)
  end.
Proof. reflexivity. Qed.

Lemma transaction_rollback {A} mode (body : M A) w e w' :
  transaction mode body w = (Raise e, w') ->
  w_db w' = w_db w /\ exists l, w_log w' = (l ++ [TxRollback])%list.
Proof.
  rewrite transaction_run.
  destruct (body _) as [[a|e'] w1]; intros H; inversion H; subst; simpl.
  split; eauto.
Qed.

(** ** What the body of a transaction logs *)

Lemma quiet_ret {A} (a : A) : quiet (ret a).
Proof. intros w. exists []. rewrite app_nil_r. auto. Qed.

Lemma quiet_raise {A} (e : exn) : quiet (@raise A e).
Proof. intros w. exists []. rewrite app_nil_r. auto. Qed.

Lemma quiet_get_db : quiet get_db.
Proof. intros w. exists []. rewrite app_nil_r. auto. Qed.

Lemma quiet_put_db db : quiet (put_db db).
Proof. intros w. exists []. rewrite app_nil_r. auto. Qed.

Lemma quiet_clear_cache a b : quiet (clear_cache a b).
Proof. intros w. exists [CacheClear a b]. auto. Qed.

Lemma quiet_of_option {A} e (o : option A) : quiet (of_option e o).
Proof. destruct o; [apply quiet_ret|apply quiet_raise]. Qed.

Lemma quiet_bind {A B} (m : M A) (k : A -> M B) :
  quiet m -> (forall a, quiet (k a)) -> quiet (bind m k).
Proof.
  intros Hm Hk w. unfold bind. destruct (Hm w) as [l1 [H1 C1]].
  destruct (m w) as [[a|e] w1]; simpl in *.
  - destruct (Hk a w1) as [l2 [H2 C2]]. exists (l1 ++ l2)%list.
    rewrite H2, H1, app_assoc. split; [reflexivity|].
    rewrite forallb_app, C1, C2. reflexivity.
  - exists l1. auto.
Qed.

Lemma quiet_try {A} (m : M A) (h : exn -> M A) :
  quiet m -> (forall e, quiet (h e)) -> quiet (try_except m h).
Proof.
  intros Hm Hh w. unfold try_except. destruct (Hm w) as [l1 [H1 C1]].
  destruct (m w) as [[a|e] w1]; simpl in *.
  - exists l1. auto.
  - destruct (Hh e w1) as [l2 [H2 C2]]. exists (l1 ++ l2)%list.
    rewrite H2, H1, app_assoc. split; [reflexivity|].
    rewrite forallb_app, C1, C2. reflexivity.
Qed.

Ltac quiet_step :=
  match goal with
  | |- quiet (bind _ _) => apply quiet_bind; [|intros]
  | |- quiet (try_except _ _) => apply quiet_try; [|intros]
  | |- quiet (ret _) => apply quiet_ret
  | |- quiet (raise _) => apply quiet_raise
  | |- quiet get_db => apply quiet_get_db
  | |- quiet (put_db _) => apply quiet_put_db
  | |- quiet (clear_cache _ _) => apply quiet_clear_cache
  | |- quiet (of_option _ _) => apply quiet_of_option
  | |- quiet (match ?x with _ => _ end) => destruct x
  | |- quiet (if ?x then _ else _) => destruct x
  | |- quiet (let _ := _ in _) => cbv zeta
  end.

Ltac quiet_ops :=
  unfold class_course, find_event, add_entry_result;
  unfold get_events, get_event, get_entries, get_entry, get_classes,
    get_class, get_course, get_club, get_competitor, get_competitor_by_name,
    get_competitor_by_chip, add_competitor, update_competitor,
    add_entry, update_entry, update_entry_result, delete_entry.

Section Resolution.
Context {E : ResultEngine}.

(** ** Event resolution *)

Lemma find_event_run (event_key : string) (w : world) :
  find_event event_key w =
  (match find (key_matches event_key) (Store.events (w_db w)) with
   | Some e => Ok e
   | None => Raise EventNotFoundError
   end, w).
Proof.
  unfold find_event, get_events. unfold_monad.
  destruct (find _ _); reflexivity.
Qed.

Lemma key_matches_true (event_key : string) (e : Event.t) :
  key_matches event_key e = true <->
  Event.key e = Some event_key /\ event_key <> "".
Proof.
  unfold key_matches. rewrite andb_true_iff, negb_true_iff, opt_eqb_string_eq.
  rewrite String.eqb_neq. tauto.
Qed.

Lemma find_key_none (event_key : string) (events : list Event.t) :
  (event_key = "" \/ forall e, In e events -> Event.key e <> Some event_key) ->
  find (key_matches event_key) events = None.
Proof.
  intros H. destruct (find _ _) eqn:F; [|reflexivity].
  apply find_some in F. destruct F as [Hin Hk].
  apply key_matches_true in Hk. destruct Hk as [Hk Hne].
  destruct H as [H | H]; [contradiction | ]. exfalso. eapply H; eauto.
Qed.

Lemma find_key_some (event_key : string) (events : list Event.t) :
  event_key <> "" ->
  (exists e, In e events /\ Event.key e = Some event_key) ->
  exists ev, find (key_matches event_key) events = Some ev.
Proof.
  intros Hne [e [Hin Hk]].
  destruct (find _ _) eqn:F; [eauto|].
  exfalso. eapply find_none in F; eauto.
  assert (key_matches event_key e = true) by (apply key_matches_true; auto).
  congruence.
Qed.

Lemma find_key_sound (event_key : string) (events : list Event.t) ev :
  find (key_matches event_key) events = Some ev ->
  In ev events /\ Event.key ev = Some event_key /\ event_key <> "".
Proof.
  intros F. apply find_some in F. destruct F as [Hin Hk].
  apply key_matches_true in Hk. tauto.
Qed.

(** A transaction that begins by resolving the event. *)
Lemma in_event_run {A} (event_key : string) (k : Event.t -> M A) (w : world) :
  transaction IMMEDIATE (event <- find_event event_key ;; k event) w =
  match find (key_matches event_key) (Store.events (w_db w)) with
  | None => (Raise EventNotFoundError, rolled_back w (opened IMMEDIATE w))
  | Some ev =>
      match k ev (opened IMMEDIATE w) with
      | (Ok a, w1) => (Ok a, committed w1)
      | (Raise e, w1) => (Raise e, rolled_back w w1)
      end
  end.
Proof.
  rewrite transaction_run. unfold bind at 1. rewrite find_event_run. simpl.
  destruct (find _ _); reflexivity.
Qed.

Lemma store_cardreader_result_event (event_key : string)
    (item : CardReaderMessage.t) (w w' : world) t ev res :
  store_cardreader_result event_key item w = (Ok (t, ev, res), w') ->
  find (key_matches event_key) (Store.events (w_db w)) = Some ev.
Proof.
  unfold store_cardreader_result. unfold bind at 1.
  rewrite in_event_run.
  destruct (find _ _) as [ev0|]; [|discriminate].
  unfold bind at 1.
  match goal with |- context [?m (opened IMMEDIATE w)] =>
    destruct (m (opened IMMEDIATE w)) as [[a|e] w1] end;
    unfold ret; simpl; intros H; inversion H; subst; reflexivity.
Qed.

Lemma assign_name_event (event_key chip first_name last_name : string)
    (w w' : world) ev res :
  assign_name_to_light_entry event_key chip first_name last_name w
    = (Ok (ev, res), w') ->
  find (key_matches event_key) (Store.events (w_db w)) = Some ev.
Proof.
  unfold assign_name_to_light_entry. rewrite in_event_run.
  destruct (find _ _) as [ev0|]; [|discriminate].
  set (w0 := opened IMMEDIATE w). clearbody w0.
  unfold bind at 1. unfold get_entries at 1. unfold bind at 1.
  unfold get_db at 1, ret at 1.
  unfold bind at 1.
  destruct (hd_error _) as [first|]; simpl; [|discriminate].
  unfold bind at 1.
  destruct (for_each _ _ w0) as [[[]|e] w1]; [|discriminate].
  unfold bind at 1.
  destruct (get_competitor_by_name _ _ w1) as [[found|e] w2]; [|discriminate].
  unfold bind at 1.
  match goal with |- context [?m w2] =>
    destruct (m w2) as [[competitor|e] w3] end; [|discriminate].
  unfold bind at 1.
  destruct (get_classes _ w3) as [[classes|e] w4]; [|discriminate].
  unfold bind at 1.
  destruct (match_classes _ _ _ w4) as [[matching|e] w5]; [|discriminate].
  destruct matching as [|[class_ mr] [|]].
  - unfold bind at 1.
    destruct (add_entry_result _ _ _ _ w5) as [[x|e] w6]; [|discriminate].
    unfold ret. intros H; inversion H; subst; reflexivity.
  - unfold bind at 1.
    destruct (add_entry _ _ _ _ _ _ _ _ _ w5) as [[x|e] w6]; [|discriminate].
    unfold bind at 1.
    destruct (get_entry _ w6) as [[x'|e] w7]; [|discriminate].
    unfold bind at 1.
    destruct (clear_cache _ _ w7) as [[x''|e] w8]; [|discriminate].
    unfold ret. intros H; inversion H; subst; reflexivity.
  - unfold bind at 1.
    destruct (add_entry_result _ _ _ _ w5) as [[x|e] w6]; [|discriminate].
    unfold ret. intros H; inversion H; subst; reflexivity.
Qed.

(** C6: both entry points resolve the event by the non-empty key, and raise
    [EventNotFoundError] when the key is empty or no event has it; an empty
    key matches no event, whatever the stored keys are. *)
Theorem event_resolved_by_nonempty_key (event_key : string) (w : world) :
  let events := Store.events (w_db w) in
  (forall ev w', find_event event_key w = (Ok ev, w') ->
     In ev events /\ Event.key ev = Some event_key /\ event_key <> "")
  /\ (event_key <> "" ->
      (exists e, In e events /\ Event.key e = Some event_key) ->
      exists ev, find_event event_key w = (Ok ev, w))
  /\ (event_key = ""
      \/ (forall e, In e events -> Event.key e <> Some event_key) ->
      (forall item,
         fst (store_cardreader_result event_key item w)
         = Raise EventNotFoundError)
      /\ (forall chip first_name last_name,
            fst (assign_name_to_light_entry event_key chip first_name
                   last_name w)
            = Raise EventNotFoundError))
  /\ (forall item t ev res w',
        store_cardreader_result event_key item w = (Ok (t, ev, res), w') ->
        In ev events /\ Event.key ev = Some event_key /\ event_key <> "")
  /\ (forall chip first_name last_name ev res w',
        assign_name_to_light_entry event_key chip first_name last_name w
        = (Ok (ev, res), w') ->
        In ev events /\ Event.key ev = Some event_key /\ event_key <> "").
Proof.
  intros events. subst events.
  assert (S : forall ev,
             find (key_matches event_key) (Store.events (w_db w)) = Some ev ->
             In ev (Store.events (w_db w))
             /\ Event.key ev = Some event_key /\ event_key <> "")
    by (intros ev F; apply find_key_sound in F; exact F).
  split; [|split; [|split; [|split]]].
  - intros ev w' H. rewrite find_event_run in H.
    destruct (find _ _) eqn:F; inversion H; subst. auto.
  - intros Hne Hex. destruct (find_key_some _ _ Hne Hex) as [ev F].
    exists ev. rewrite find_event_run, F. reflexivity.
  - intros H. split; intros.
    + unfold store_cardreader_result. unfold bind at 1.
      rewrite in_event_run, (find_key_none _ _ H). reflexivity.
    + unfold assign_name_to_light_entry.
      rewrite in_event_run, (find_key_none _ _ H). reflexivity.
  - intros item t ev res w' H.
    apply store_cardreader_result_event in H. auto.
  - intros chip first_name last_name ev res w' H.
    apply assign_name_event in H. auto.
Qed.

(** ** What the ingestion logs *)

Lemma quiet_match_classes classes result competitor :
  quiet (match_classes classes result competitor).
Proof.
  induction classes as [|c rest IH]; simpl; [apply quiet_ret|].
  quiet_ops. repeat quiet_step; try exact IH.
Qed.

Lemma quiet_light_card_read ev item : quiet (light_card_read ev item).
Proof.
  unfold light_card_read. quiet_ops.
  repeat first [apply quiet_match_classes | quiet_step].
Qed.

Lemma quiet_standard_card_read ev item : quiet (standard_card_read ev item).
Proof. unfold standard_card_read. quiet_ops. repeat quiet_step. Qed.

(** ** Atomicity *)

(** C7: when [store_cardreader_result] raises, the store is what it was
    before the call: the call is one IMMEDIATE transaction, closed by a
    rollback, with nothing but cache invalidations logged inside. *)
Theorem ingestion_atomic (event_key : string) (item : CardReaderMessage.t)
    (w w' : world) (e : exn) :
  store_cardreader_result event_key item w = (Raise e, w') ->
  w_db w' = w_db w
  /\ exists inside,
       w_log w' = (w_log w ++ TxBegin IMMEDIATE :: inside ++ [TxRollback])%list
       /\ forallb is_clear inside = true.
Proof.
  unfold store_cardreader_result. unfold bind at 1. rewrite transaction_run.
  match goal with |- context [?m (opened IMMEDIATE w)] =>
    assert (Q : quiet m);
    [|destruct (Q (opened IMMEDIATE w)) as [inside [L C]];
      destruct (m (opened IMMEDIATE w)) as [[a|e'] w1]]
  end.
  - quiet_ops.
    repeat first [apply quiet_light_card_read
                 | apply quiet_standard_card_read | quiet_step].
  - unfold ret. discriminate.
  - intros H. inversion H; subst. split; [reflexivity|].
    exists inside. split; [|exact C].
    cbn [w_log rolled_back snd opened] in *. rewrite L.
    rewrite <- !app_assoc. reflexivity.
Qed.

End Resolution.


Lemma event_resolved_by_nonempty_key_witness :
  fst (store_cardreader_result (E:=SampleEngine.engine) ""
         (Fixtures.card_read "9876" Fixtures.ok_result)
         (Fixtures.start_of Fixtures.keyless_db))
  = Raise EventNotFoundError.
Proof.
  apply (proj1 (proj2 (proj2 (event_resolved_by_nonempty_key
                                (E:=SampleEngine.engine) ""
                                (Fixtures.start_of
                                   Fixtures.keyless_db))))).
  left. reflexivity.
Defined.

Lemma ingestion_atomic_witness :
  let run := store_cardreader_result (E:=SampleEngine.engine) "4711"
               Fixtures.broken_read
               (Fixtures.start_of Fixtures.light_db) in
  run = (Raise AttributeError, snd run)
  /\ w_db (snd run) = Fixtures.light_db
  /\ exists inside,
       w_log (snd run) = (TxBegin IMMEDIATE :: inside ++ [TxRollback])%list
       /\ forallb is_clear inside = true.
Proof.
  split; [reflexivity|].
  apply (ingestion_atomic (E:=SampleEngine.engine) "4711"
           Fixtures.broken_read
           (Fixtures.start_of Fixtures.light_db) _ AttributeError).
  reflexivity.
Defined.

(** ** Light events *)

Section Light.
Context {E : ResultEngine}.

Lemma card_read_run (event_key : string) (item : CardReaderMessage.t)
    (w : world) (ev : Event.t) :
  find (key_matches event_key) (Store.events (w_db w)) = Some ev ->
  CardReaderMessage.entry_type item = "cardRead" ->
  store_cardreader_result event_key item w =
  match (if Event.light ev then light_card_read ev item
         else standard_card_read ev item) (opened IMMEDIATE w) with
  | (Ok res, w1) => (Ok ("cardRead", ev, res), committed w1)
  | (Raise e, w1) => (Raise e, rolled_back w w1)
  end.
Proof.
  intros F T. unfold store_cardreader_result. unfold bind at 1.
  rewrite in_event_run, F, T. unfold bind at 1. simpl.
  destruct (Event.light ev);
    match goal with |- context [?m (opened IMMEDIATE w)] =>
      destruct (m (opened IMMEDIATE w)) as [[a|e] w1] end; reflexivity.
Qed.

Lemma match_classes_run (classes : list Class.t) (result : PersonRaceResult.t)
    (competitor : Competitor.t) (w : world) :
  match_classes classes result competitor w =
  (Ok (flat_map (try_class (w_db w) result competitor) classes), w).
Proof.
  induction classes as [|class_ rest IH]; [reflexivity|].
  simpl. unfold try_class at 1.
  destruct (Class.course_id class_) as [cid|]; simpl; [|exact IH].
  unfold get_course. unfold_monad. simpl.
  destruct (find_course (w_db w) cid) as [course|]; simpl; [|exact IH].
  fold (match_classes rest result competitor). rewrite IH.
  destruct (ResultStatus.eqb _ _); reflexivity.
Qed.

Lemma fresh_id_above (ids : list Z) (x : Z) : In x ids -> x < fresh_id ids.
Proof.
  unfold fresh_id. induction ids as [|y ids IH]; [intros []|].
  change (fold_right Z.max 0 (y :: ids)) with (Z.max y (fold_right Z.max 0 ids)).
  intros [H|H]; [subst; lia|]. specialize (IH H). lia.
Qed.

Lemma find_row_fresh (rows : list EntryRow.t) (row : EntryRow.t) :
  EntryRow.id row = fresh_id (map EntryRow.id rows) ->
  find (fun r => EntryRow.id r =? fresh_id (map EntryRow.id rows))
    (rows ++ [row]) = Some row.
Proof.
  intros Hid. rewrite <- Hid.
  assert (N : forall r, In r rows -> (EntryRow.id r =? EntryRow.id row) = false).
  { intros r Hin. apply Z.eqb_neq. rewrite Hid.
    pose proof (fresh_id_above (map EntryRow.id rows) (EntryRow.id r)
                  (in_map _ _ _ Hin)). lia. }
  clear Hid. induction rows as [|r rows IH]; simpl.
  - rewrite Z.eqb_refl. reflexivity.
  - rewrite (N r) by (left; reflexivity). apply IH.
    intros r' Hin. apply N. right. exact Hin.
Qed.

Lemma add_entry_run (event_id : Z) (competitor_id class_id club_id : option Z)
    (not_competing : bool) (chip : option string) (fields : list (Z * string))
    (result : PersonRaceResult.t) (start : PersonRaceStart.t) (w : world) :
  let id := fresh_id (map EntryRow.id (Store.entries (w_db w))) in
  add_entry event_id competitor_id class_id club_id not_competing chip fields
    result start w =
  (Ok id,
   mk_world
     (Store.set_entries
        (Store.entries (w_db w) ++
           [EntryRow.mk id event_id competitor_id class_id club_id
              not_competing chip fields result start])
        (w_db w))
     (w_log w)).
Proof. reflexivity. Qed.

Lemma get_entry_added (db : Store.t) (row : EntryRow.t) (log : list effect) :
  EntryRow.id row = fresh_id (map EntryRow.id (Store.entries db)) ->
  let db' := Store.set_entries (Store.entries db ++ [row]) db in
  get_entry (fresh_id (map EntryRow.id (Store.entries db))) (mk_world db' log)
  = (Ok (join_entry db' row), mk_world db' log).
Proof.
  intros Hid db'.
  assert (F : find_row db' (fresh_id (map EntryRow.id (Store.entries db)))
              = Some row) by (exact (find_row_fresh _ _ Hid)).
  unfold get_entry. unfold_monad. cbn [w_db]. rewrite F. reflexivity.
Qed.

Lemma card_entries_nonempty (db : Store.t) (event_id : Z)
    (chip : option string) (row : EntryRow.t) :
  In row (Store.entries db) ->
  EntryRow.event_id row = event_id ->
  EntryRow.chip row = chip ->
  card_entries db event_id chip <> [].
Proof.
  intros Hin He Hc Hnil.
  assert (I : In (join_entry db row) (card_entries db event_id chip)).
  { unfold card_entries, entries_of, rows_of.
    apply filter_In. split.
    - apply in_map. apply filter_In. split; [exact Hin|].
      apply Z.eqb_eq. exact He.
    - unfold chip_is. simpl. apply opt_eqb_string_eq. exact Hc. }
  rewrite Hnil in I. exact I.
Qed.

(** C4: a second reading answers [second_reading] and leaves the store as
    it was. *)
Theorem light_second_reading (event_key : string)
    (item : CardReaderMessage.t) (w : world) (ev : Event.t)
    (r : PersonRaceResult.t) (row : EntryRow.t) :
  find (key_matches event_key) (Store.events (w_db w)) = Some ev ->
  Event.light ev = true ->
  CardReaderMessage.entry_type item = "cardRead" ->
  CardReaderMessage.result item = Some r ->
  In row (Store.entries (w_db w)) ->
  EntryRow.event_id row = Event.id ev ->
  EntryRow.chip row = CardReaderMessage.control_card item ->
  exists res w',
    store_cardreader_result event_key item w = (Ok ("cardRead", ev, res), w')
    /\ dict_get "light_status" res = Some (VStr "second_reading")
    /\ w_db w' = w_db w.
Proof.
  intros F L T R Hin He Hc.
  rewrite (card_read_run _ _ _ _ F T), L.
  unfold light_card_read. unfold bind at 1. rewrite R. simpl.
  unfold bind at 1. unfold get_entries. unfold_monad. simpl.
  pose proof (card_entries_nonempty _ _ _ _ Hin He Hc) as N.
  unfold card_entries in N.
  destruct (filter _ _) as [|x xs]; [congruence|].
  eexists. eexists. split; [reflexivity|]. split; reflexivity.
Qed.

(** [missing_controls] answers with the empty list exactly on a complete
    result. *)
Lemma missing_controls_complete (r : PersonRaceResult.t) :
  missing_controls r = [] <-> complete r.
Proof.
  unfold missing_controls, complete.
  destruct (PersonRaceResult.finish_time r) as [f|].
  - destruct (PersonRaceResult.start_time r) as [s|].
    + split.
      * intros H. split; [discriminate|]. split; [discriminate|].
        intros sp Hin. destruct (is_missing sp) eqn:Ms; [|reflexivity].
        assert (Hf : In sp (filter is_missing (PersonRaceResult.split_times r)))
          by (apply filter_In; split; assumption).
        apply (in_map SplitTime.control_code) in Hf.
        rewrite H in Hf. contradiction.
      * intros [_ [_ H]].
        induction (PersonRaceResult.split_times r) as [|sp l IH];
          [reflexivity|].
        cbn [filter]. rewrite (H sp) by (left; reflexivity).
        apply IH. intros x Hx. apply H. right. exact Hx.
    + split; [discriminate|]. intros [H _]. contradiction.
  - split; [discriminate|]. intros [_ [H _]]. contradiction.
Qed.

(** Every class that matches yields a result of status [OK]. *)
Lemma ok_matches_ok (db : Store.t) (event_id : Z) (r : PersonRaceResult.t)
    (competitor : Competitor.t) (class_ : Class.t) (mr : PersonRaceResult.t) :
  In (class_, mr) (ok_matches db event_id r competitor) ->
  PersonRaceResult.status mr = ResultStatus.OK
  /\ exists controls,
       mr = compute_result controls (Class.params class_) None
              (truthy_year (Competitor.year competitor))
              (Some (Competitor.gender competitor)) r.
Proof.
  intros Hin. unfold ok_matches in Hin.
  apply in_flat_map in Hin. destruct Hin as [c [_ Hin]].
  unfold try_class in Hin.
  destruct (Class.course_id c); [|contradiction].
  destruct (find_course db z) as [course|]; [|contradiction].
  destruct (ResultStatus.eqb _ _) eqn:S; [|contradiction].
  destruct Hin as [Hin|[]]. inversion Hin; subst.
  split; [apply ResultStatus_eqb_eq; exact S|].
  exists (Course.controls course). reflexivity.
Qed.

(** C1: with no entry for the card and a known competitor, the card is
    registered in a class exactly when one class with a course yields [OK];
    otherwise the result is stored unassigned.  On registration the answer
    lists the missing controls of the matched result, which the code
    computes with [missing_controls]; the list is empty because the
    matched result has status [OK], for every engine that finishes the
    card result as [OK] only with start, finish and no [MISSING] row. *)
Theorem light_auto_register_iff_unique_match (event_key : string)
    (item : CardReaderMessage.t) (w : world) (ev : Event.t)
    (r : PersonRaceResult.t) (competitor : Competitor.t) :
  let db := w_db w in
  let chip := CardReaderMessage.control_card item in
  let matching := ok_matches db (Event.id ev) r competitor in
  find (key_matches event_key) (Store.events db) = Some ev ->
  Event.light ev = true ->
  CardReaderMessage.entry_type item = "cardRead" ->
  CardReaderMessage.result item = Some r ->
  card_entries db (Event.id ev) chip = [] ->
  competitor_by_chip db chip = Some competitor ->
  exists res w',
    store_cardreader_result event_key item w = (Ok ("cardRead", ev, res), w')
    /\ (List.length matching = 1%nat <->
        dict_get "light_status" res = Some (VStr "ok_registered"))
    /\ (forall class_ mr,
          matching = [(class_, mr)] ->
          w_db w' =
            Store.set_entries
              (Store.entries db ++
                 [EntryRow.mk (fresh_id (map EntryRow.id (Store.entries db)))
                    (Event.id ev) (Some (Competitor.id competitor))
                    (Some (Class.id class_)) (Competitor.club_id competitor)
                    false chip [] mr PersonRaceStart.default])
              db
          /\ PersonRaceResult.status mr = ResultStatus.OK
          /\ dict_get "missingControls" res
             = Some (VList (missing_controls mr))
          /\ (ok_is_complete r ->
              complete mr
              /\ dict_get "missingControls" res = Some (VList [])))
    /\ (List.length matching <> 1%nat ->
          w_db w' =
            with_unassigned db (Event.id ev) chip
              (compute_result [] ClassParams_default None None None r)
          /\ dict_get "light_status" res = Some (VStr "unassigned")
          /\ dict_get "error" res = Some (VStr "No unique matching course")).
Proof.
  intros db chip matching F L T R C K.
  rewrite (card_read_run _ _ _ _ F T), L.
  unfold light_card_read. unfold bind at 1. rewrite R. simpl.
  unfold bind at 1. unfold get_entries. unfold_monad. simpl.
  fold db. fold chip. unfold card_entries in C. rewrite C.
  unfold get_competitor_by_chip. unfold_monad. simpl. fold db. rewrite K.
  unfold get_classes. unfold_monad. simpl.
  rewrite match_classes_run. simpl. fold db.
  change (flat_map (try_class db r competitor) (classes_of db (Event.id ev)))
    with matching.
  assert (OKs : forall class_ mr, In (class_, mr) matching ->
                  PersonRaceResult.status mr = ResultStatus.OK
                  /\ (ok_is_complete r -> complete mr)).
  { intros class_ mr Hin.
    destruct (ok_matches_ok _ _ _ _ _ _ Hin) as [S [controls Hmr]].
    split; [exact S|].
    intros Law. rewrite Hmr. apply Law. rewrite <- Hmr. exact S. }
  destruct matching as [|[class_ mr] [|m2 rest]] eqn:Hm.
  - (* no match *)
    unfold add_entry_result, add_entry. unfold_monad. simpl.
    eexists. eexists. split; [reflexivity|]. simpl.
    split; [split; discriminate|].
    split; [intros ? ? Hx; discriminate|].
    intros _. split; [reflexivity|]. split; reflexivity.
  - (* exactly one match *)
    change (w_db (opened IMMEDIATE w)) with db.
    rewrite get_entry_added by reflexivity.
    eexists. eexists. split; [reflexivity|]. simpl.
    split; [split; reflexivity|].
    split.
    + intros c' mr' Hx. inversion Hx; subst. fold db.
      destruct (OKs c' mr' (or_introl eq_refl)) as [S Cm].
      split; [reflexivity|].
      split; [exact S|].
      split; [reflexivity|].
      intros Law. split; [exact (Cm Law)|].
      apply missing_controls_complete in Cm; [|exact Law].
      rewrite Cm. reflexivity.
    + intros Hx. exfalso. apply Hx. reflexivity.
  - (* several matches *)
    unfold add_entry_result, add_entry. unfold_monad. simpl.
    eexists. eexists. split; [reflexivity|]. simpl.
    split; [split; discriminate|].
    split; [intros ? ? Hx; discriminate|].
    intros _. split; [reflexivity|]. split; reflexivity.
Qed.

End Light.

Lemma light_second_reading_witness :
  exists res w',
    store_cardreader_result (E:=SampleEngine.engine) "4711"
      (Fixtures.card_read "9876" Fixtures.ok_result)
      (Fixtures.start_of Fixtures.read_before_db)
    = (Ok ("cardRead", Fixtures.light_event, res), w')
    /\ dict_get "light_status" res = Some (VStr "second_reading")
    /\ w_db w' = Fixtures.read_before_db.
Proof.
  apply (light_second_reading (E:=SampleEngine.engine) "4711"
           (Fixtures.card_read "9876" Fixtures.ok_result)
           (Fixtures.start_of Fixtures.read_before_db)
           Fixtures.light_event Fixtures.ok_result
           (EntryRow.mk 1 1 None None None false (Some "9876") []
              (PersonRaceResult.of_status ResultStatus.FINISHED)
              PersonRaceStart.default));
    try reflexivity.
  left. reflexivity.
Defined.

(** The sample engine reads section 4.1 that way: it labels no punch
    [MISSING], and it finishes a result as [OK] only with a start, a
    finish and every control of the course found. *)
Lemma consume_no_missing (c : string) (last : datetime)
    (pool pool' : list SplitTime.t) (t : datetime) :
  Forall (fun s => is_missing s = false) pool ->
  SampleEngine.consume c last pool = Some (pool', t) ->
  Forall (fun s => is_missing s = false) pool'.
Proof.
  revert pool'. induction pool as [|s pool IH]; intros pool' Hall Hc;
    [discriminate|].
  inversion Hall as [|? ? Hs Hrest]; subst.
  cbn [SampleEngine.consume] in Hc.
  assert (Rec : option_map (fun r => (s :: fst r, snd r))
                  (SampleEngine.consume c last pool) = Some (pool', t) ->
                Forall (fun x => is_missing x = false) pool').
  { destruct (SampleEngine.consume c last pool) as [[p u]|] eqn:Hp;
      [|discriminate].
    intros Q. inversion Q; subst. constructor; [exact Hs|].
    apply IH; [exact Hrest|reflexivity]. }
  destruct (SplitTime.punch_time s) as [u|]; [|exact (Rec Hc)].
  destruct (SampleEngine.is_additional s
            && String.eqb (SplitTime.control_code s) c && (last <=? u));
    [|exact (Rec Hc)].
  inversion Hc; subst. constructor; [reflexivity|exact Hrest].
Qed.

Lemma walk_no_missing (controls : list string) (last : datetime)
    (pool : list SplitTime.t) :
  Forall (fun s => is_missing s = false) pool ->
  Forall (fun s => is_missing s = false)
    (fst (SampleEngine.walk controls last pool)).
Proof.
  revert last pool. induction controls as [|c cs IH]; intros last pool Hall;
    [exact Hall|].
  cbn [SampleEngine.walk].
  destruct (SampleEngine.consume c last pool) as [[pool' t]|] eqn:Hc.
  - apply IH. exact (consume_no_missing _ _ _ _ _ Hall Hc).
  - cbn [fst]. apply IH. exact Hall.
Qed.

Lemma working_no_missing (sts : list SplitTime.t) :
  Forall (fun s => is_missing s = false) (SampleEngine.working sts).
Proof.
  unfold SampleEngine.working.
  induction sts as [|s sts IH]; [constructor|].
  cbn [flat_map]. destruct (SplitTime.punch_time s); [|exact IH].
  constructor; [reflexivity|exact IH].
Qed.

Lemma sample_engine_ok_is_complete (r : PersonRaceResult.t) :
  PersonRaceResult.status r <> ResultStatus.OK ->
  ok_is_complete (E:=SampleEngine.engine) r.
Proof.
  intros Nok controls params scheduled year gender.
  change (compute_result (ResultEngine:=SampleEngine.engine))
    with SampleEngine.compute_result.
  unfold SampleEngine.compute_result, complete.
  cbn [PersonRaceResult.status PersonRaceResult.start_time
       PersonRaceResult.finish_time PersonRaceResult.split_times].
  destruct (SampleEngine.terminal (PersonRaceResult.status r));
    [intros S; contradiction|].
  destruct (opt_is_none (PersonRaceResult.punched_finish_time r)
            && match SampleEngine.working (PersonRaceResult.split_times r)
               with [] => true | _ => false end);
    [intros S; contradiction|].
  destruct controls as [|c cs]; [discriminate|].
  set (start := match scheduled with
                | Some t => Some t
                | None => PersonRaceResult.punched_start_time r
                end).
  destruct start as [s|]; [|discriminate].
  destruct (PersonRaceResult.punched_finish_time r) as [f|]; [|discriminate].
  destruct (f <? s); [discriminate|].
  set (w := SampleEngine.walk (c :: cs) s
              (SampleEngine.working (PersonRaceResult.split_times r))).
  pose proof (walk_no_missing (c :: cs) s _
                (working_no_missing (PersonRaceResult.split_times r))) as Hw.
  fold w in Hw.
  destruct (snd w) as [|m ms]; [|discriminate].
  intros _. split; [discriminate|]. split; [discriminate|].
  intros sp Hin. cbn [map] in Hin. rewrite app_nil_r in Hin.
  apply in_map_iff in Hin. destruct Hin as [x [Hx Hin]]. subst sp.
  rewrite Forall_forall in Hw. exact (Hw x Hin).
Qed.

Lemma light_auto_register_iff_unique_match_witness :
  exists res w',
    store_cardreader_result (E:=SampleEngine.engine) "4711"
      (Fixtures.card_read "9876" Fixtures.ok_result)
      (Fixtures.start_of Fixtures.light_db)
    = (Ok ("cardRead", Fixtures.light_event, res), w')
    /\ dict_get "light_status" res = Some (VStr "ok_registered")
    /\ dict_get "missingControls" res = Some (VList [])
    /\ List.length (Store.entries (w_db w')) = 1%nat.
Proof.
  destruct (light_auto_register_iff_unique_match (E:=SampleEngine.engine)
              "4711" (Fixtures.card_read "9876" Fixtures.ok_result)
              (Fixtures.start_of Fixtures.light_db)
              Fixtures.light_event Fixtures.ok_result Fixtures.jane
              eq_refl eq_refl eq_refl eq_refl eq_refl eq_refl)
    as [res [w' [Run [Iff [One _]]]]].
  exists res, w'. split; [exact Run|].
  split; [apply Iff; reflexivity|].
  destruct (One Fixtures.elite
              (SampleEngine.compute_result
                 ["101"; "102"; "103"] SampleEngine.params None (Some 1990)
                 (Some "F") Fixtures.ok_result) eq_refl)
    as [Db [_ [_ Law]]].
  destruct (Law (sample_engine_ok_is_complete Fixtures.ok_result
                   ltac:(discriminate))) as [_ Mc].
  split; [exact Mc|]. rewrite Db. reflexivity.
Defined.

(** ** Standard events *)

Section Standard.
Context {E : ResultEngine}.

Lemma class_course_run (class_id : option Z) (w : world) :
  class_course class_id w = (Ok (course_params_of (w_db w) class_id), w).
Proof.
  unfold class_course, get_class, get_course, course_params_of. unfold_monad.
  destruct class_id as [cid|]; simpl; [|reflexivity].
  destruct (find_class (w_db w) cid) as [class_|]; simpl; [|reflexivity].
  destruct (Class.course_id class_) as [coid|]; simpl; [|reflexivity].
  destruct (find_course (w_db w) coid); reflexivity.
Qed.

Lemma find_same_none_iff (result : PersonRaceResult.t) (l : list Entry.t) :
  find (same_as result) l = None <->
  forall e, In e l -> same_si_punches (Entry.result e) result = false.
Proof.
  split.
  - intros F e Hin. exact (find_none _ _ F e Hin).
  - intros H. destruct (find _ _) eqn:F; [|reflexivity].
    apply find_some in F. destruct F as [Hin S].
    unfold same_as in S. rewrite (H _ Hin) in S. discriminate.
Qed.

Lemma not_duplicates_find (assigned : list Entry.t)
    (result : PersonRaceResult.t) :
  ~ duplicates_assigned assigned result ->
  find (same_as result) assigned = None.
Proof.
  intros N. apply find_same_none_iff. intros e Hin.
  destruct (same_si_punches _ _) eqn:S; [|reflexivity].
  exfalso. apply N. exists e. auto.
Qed.

Lemma can_assign_iff (assigned unassigned : list Entry.t)
    (result : PersonRaceResult.t) :
  can_assign assigned unassigned result = true <->
  merge_condition assigned unassigned result.
Proof.
  unfold can_assign, merge_condition, same_as. split.
  - intros H.
    apply andb_true_iff in H. destruct H as [H Hu].
    apply andb_true_iff in H. destruct H as [Hl Hp].
    destruct assigned as [|a [|a' rest]]; try discriminate.
    exists a. split; [reflexivity|].
    split; [apply negb_true_iff in Hp; exact Hp|].
    apply orb_true_iff in Hu. destruct Hu as [Hu|Hu].
    + left. destruct unassigned; [reflexivity|discriminate].
    + apply andb_true_iff in Hu. destruct Hu as [Hl' Hs].
      destruct unassigned as [|u [|u' rest]]; try discriminate.
      right. exists u. auto.
  - intros [a [Ha [Hp Hu]]]. subst assigned. simpl. rewrite Hp. simpl.
    destruct Hu as [Hu|[u [Hu Hs]]]; subst unassigned; simpl;
      [reflexivity|exact Hs].
Qed.

Lemma add_entry_result_run (event_id : Z) (chip : option string)
    (result : PersonRaceResult.t) (w : world) :
  add_entry_result event_id chip result PersonRaceStart.default w =
  (Ok (fresh_id (map EntryRow.id (Store.entries (w_db w)))),
   mk_world (with_unassigned (w_db w) event_id chip result) (w_log w)).
Proof. reflexivity. Qed.

(** The unassigned path of a standard card read. *)
Lemma unassigned_path_run (ev : Event.t) (item : CardReaderMessage.t)
    (r : PersonRaceResult.t) (w : world) :
  let db := w_db w in
  let chip := CardReaderMessage.control_card item in
  let assigned := assigned_of db (Event.id ev) chip in
  let unassigned := unassigned_of db (Event.id ev) chip in
  let result := compute_result [] ClassParams_default None None None r in
  CardReaderMessage.result item = Some r ->
  find (same_as r) assigned = None ->
  can_assign assigned unassigned r = false ->
  exists res,
    standard_card_read ev item w =
    (Ok res,
     match find (same_as r) unassigned with
     | None => mk_world (with_unassigned db (Event.id ev) chip result) (w_log w)
     | Some _ => w
     end)
    /\ dict_get "error" res = Some (VStr (unassigned_error assigned)).
Proof.
  intros db chip assigned unassigned result R D C.
  unfold standard_card_read. unfold bind at 1. rewrite R. simpl.
  unfold bind at 1. unfold get_entries. unfold bind at 1.
  unfold get_db at 1, ret at 1.
  change (filter (fun e => opt_is_some (Entry.class_name e))
            (filter (chip_is (CardReaderMessage.control_card item))
               (entries_of (w_db w) (Event.id ev)))) with assigned.
  change (filter (fun e => opt_is_none (Entry.class_name e))
            (filter (chip_is (CardReaderMessage.control_card item))
               (entries_of (w_db w) (Event.id ev)))) with unassigned.
  rewrite D, C.
  destruct (find (same_as r) unassigned) as [u|]; simpl.
  - eexists. split; [reflexivity|]. reflexivity.
  - unfold bind at 1. unfold bind at 1. rewrite add_entry_result_run.
    eexists. split; [reflexivity|]. reflexivity.
Qed.

(** C5: outside the duplicate and merge cases the read is stored as a new
    unassigned entry unless an unassigned entry already holds the same SI
    punches, and the error names the number of assigned entries. *)
Theorem standard_unassigned (event_key : string)
    (item : CardReaderMessage.t) (w : world) (ev : Event.t)
    (r : PersonRaceResult.t) :
  let db := w_db w in
  let chip := CardReaderMessage.control_card item in
  let assigned := assigned_of db (Event.id ev) chip in
  let unassigned := unassigned_of db (Event.id ev) chip in
  let result := compute_result [] ClassParams_default None None None r in
  find (key_matches event_key) (Store.events db) = Some ev ->
  Event.light ev = false ->
  CardReaderMessage.entry_type item = "cardRead" ->
  CardReaderMessage.result item = Some r ->
  ~ duplicates_assigned assigned r ->
  ~ merge_condition assigned unassigned r ->
  exists res w',
    store_cardreader_result event_key item w = (Ok ("cardRead", ev, res), w')
    /\ ((forall u, In u unassigned ->
                   same_si_punches (Entry.result u) r = false) ->
        w_db w' = with_unassigned db (Event.id ev) chip result)
    /\ ((exists u, In u unassigned
                   /\ same_si_punches (Entry.result u) r = true) ->
        w_db w' = db)
    /\ (List.length (Store.entries (w_db w'))
        = S (List.length (Store.entries db)) <->
        forall u, In u unassigned ->
                  same_si_punches (Entry.result u) r = false)
    /\ (List.length assigned = 0%nat ->
        dict_get "error" res = Some (VStr "Control card unknown"))
    /\ ((2 <= List.length assigned)%nat ->
        dict_get "error" res
        = Some (VStr "There are several entries for this card"))
    /\ (List.length assigned = 1%nat ->
        dict_get "error" res
        = Some (VStr "There are other results for this card")).
Proof.
  intros db chip assigned unassigned result F L T R ND NM.
  rewrite (card_read_run _ _ _ _ F T), L.
  assert (C : can_assign assigned unassigned r = false).
  { destruct (can_assign _ _ _) eqn:C; [|reflexivity].
    exfalso. apply NM. apply can_assign_iff. exact C. }
  destruct (unassigned_path_run ev item r (opened IMMEDIATE w) R
              (not_duplicates_find _ _ ND) C) as [res [Run Err]].
  rewrite Run. clear Run.
  change (w_db (opened IMMEDIATE w)) with db in Err |- *.
  change (assigned_of db (Event.id ev) (CardReaderMessage.control_card item))
    with assigned in Err.
  change (unassigned_of db (Event.id ev) (CardReaderMessage.control_card item))
    with unassigned.
  exists res. eexists. split; [reflexivity|].
  assert (Errs :
    (List.length assigned = 0%nat ->
     dict_get "error" res = Some (VStr "Control card unknown"))
    /\ ((2 <= List.length assigned)%nat ->
        dict_get "error" res
        = Some (VStr "There are several entries for this card"))
    /\ (List.length assigned = 1%nat ->
        dict_get "error" res
        = Some (VStr "There are other results for this card"))).
  { unfold unassigned_error in Err.
    repeat split; intros H; rewrite Err.
    - rewrite H. reflexivity.
    - destruct (List.length assigned) as [|[|n]]; try lia. reflexivity.
    - rewrite H. reflexivity. }
  destruct (find (same_as r) unassigned) as [u|] eqn:U.
  - apply find_some in U. destruct U as [Hin S]. unfold same_as in S.
    split; [intros H; rewrite (H u Hin) in S; discriminate|].
    split; [intros _; reflexivity|].
    split; [|exact Errs].
    simpl. unfold db. split; [intros H; lia|].
    intros H. rewrite (H u Hin) in S. discriminate.
  - pose proof (proj1 (find_same_none_iff _ _) U) as N.
    split; [intros _; reflexivity|].
    split; [intros [u [Hin S]]; rewrite (N u Hin) in S; discriminate|].
    split; [|exact Errs].
    simpl. unfold db. rewrite length_app. simpl.
    split; [intros _; exact N|]. intros _. lia.
Qed.


(** *** Rows under update and delete *)

Lemma set_result_id id chip result start r :
  EntryRow.id (set_result id chip result start r) = EntryRow.id r.
Proof.
  unfold set_result. destruct (Z.eqb_spec (EntryRow.id r) id); simpl; congruence.
Qed.

Lemma set_result_event id chip result start r :
  EntryRow.event_id (set_result id chip result start r) = EntryRow.event_id r.
Proof. unfold set_result. destruct (EntryRow.id r =? id); reflexivity. Qed.

Lemma find_set_result id chip result start rows row :
  find (fun r => EntryRow.id r =? id) rows = Some row ->
  find (fun r => EntryRow.id r =? id) (map (set_result id chip result start) rows)
  = Some (set_result id chip result start row).
Proof.
  induction rows as [|r rows IH]; simpl; [discriminate|].
  rewrite set_result_id.
  destruct (EntryRow.id r =? id); [intros H; inversion H; reflexivity|exact IH].
Qed.

Lemma find_filter_other (id other : Z) (rows : list EntryRow.t) :
  id <> other ->
  find (fun r => EntryRow.id r =? id)
    (filter (fun r => negb (EntryRow.id r =? other)) rows)
  = find (fun r => EntryRow.id r =? id) rows.
Proof.
  intros N. induction rows as [|r rows IH]; simpl; [reflexivity|].
  destruct (Z.eqb_spec (EntryRow.id r) other) as [Ho|Ho]; simpl.
  - destruct (Z.eqb_spec (EntryRow.id r) id); [congruence|exact IH].
  - destruct (EntryRow.id r =? id); [reflexivity|exact IH].
Qed.

Lemma find_filter_same (id : Z) (rows : list EntryRow.t) :
  find (fun r => EntryRow.id r =? id)
    (filter (fun r => negb (EntryRow.id r =? id)) rows) = None.
Proof.
  induction rows as [|r rows IH]; simpl; [reflexivity|].
  destruct (EntryRow.id r =? id) eqn:H; simpl; [exact IH|].
  rewrite H. exact IH.
Qed.

Lemma filter_comm {A} (f g : A -> bool) (l : list A) :
  filter f (filter g l) = filter g (filter f l).
Proof.
  induction l as [|x l IH]; simpl; [reflexivity|].
  destruct (f x) eqn:F, (g x) eqn:G; simpl; rewrite ?F, ?G, IH; reflexivity.
Qed.

Lemma filter_event_set_result event_id id chip result start rows :
  filter (fun r => EntryRow.event_id r =? event_id)
    (map (set_result id chip result start) rows)
  = map (set_result id chip result start)
      (filter (fun r => EntryRow.event_id r =? event_id) rows).
Proof.
  induction rows as [|r rows IH]; simpl; [reflexivity|].
  rewrite set_result_event.
  destruct (EntryRow.event_id r =? event_id); simpl; rewrite IH; reflexivity.
Qed.

Lemma NoDup_ids_filter (f : EntryRow.t -> bool) (rows : list EntryRow.t) :
  NoDup (map EntryRow.id rows) -> NoDup (map EntryRow.id (filter f rows)).
Proof.
  induction rows as [|r rows IH]; simpl; [auto|].
  intros H. inversion H as [|x l Hn Hd]; subst.
  destruct (f r); simpl; [|auto].
  constructor; [|auto].
  intros Hin. apply Hn. apply in_map_iff in Hin.
  destruct Hin as [r' [Hid Hin]]. apply filter_In in Hin.
  apply in_map_iff. exists r'. tauto.
Qed.

Lemma length_without_id (id : Z) (rows : list EntryRow.t) :
  NoDup (map EntryRow.id rows) ->
  (exists row, In row rows /\ EntryRow.id row = id) ->
  S (List.length (filter (fun r => negb (EntryRow.id r =? id)) rows))
  = List.length rows.
Proof.
  induction rows as [|r rows IH]; simpl.
  - intros _ [row [[] _]].
  - intros H Hex. inversion H as [|x l Hn Hd]; subst.
    destruct (Z.eqb_spec (EntryRow.id r) id) as [Hid|Hid]; simpl.
    + f_equal.
      assert (F : forall r', In r' rows ->
                    negb (EntryRow.id r' =? id) = true).
      { intros r' Hin. apply negb_true_iff. apply Z.eqb_neq. intros Heq.
        apply Hn. apply in_map_iff. exists r'. split; [congruence|exact Hin]. }
      clear - F. induction rows as [|x rows IH]; simpl; [reflexivity|].
      rewrite (F x) by (left; reflexivity). simpl. f_equal.
      apply IH. intros r' Hin. apply F. right. exact Hin.
    + f_equal. apply IH; [exact Hd|].
      destruct Hex as [row [[Hr|Hr] Hi]]; [subst; contradiction|eauto].
Qed.

Lemma same_id_same_row (rows : list EntryRow.t) (x y : EntryRow.t) :
  NoDup (map EntryRow.id rows) ->
  In x rows -> In y rows -> EntryRow.id x = EntryRow.id y -> x = y.
Proof.
  induction rows as [|r rows IH]; simpl; [tauto|].
  intros H Hx Hy Hid. inversion H as [|z l Hn Hd]; subst.
  destruct Hx as [Hx|Hx], Hy as [Hy|Hy]; subst; auto.
  - exfalso. apply Hn. rewrite Hid. apply in_map. exact Hy.
  - exfalso. apply Hn. rewrite <- Hid. apply in_map. exact Hx.
Qed.

Lemma find_row_in (rows : list EntryRow.t) (row : EntryRow.t) :
  NoDup (map EntryRow.id rows) -> In row rows ->
  find (fun r => EntryRow.id r =? EntryRow.id row) rows = Some row.
Proof.
  intros H Hin.
  destruct (find _ rows) as [x|] eqn:F.
  - apply find_some in F. destruct F as [Hx Hid]. apply Z.eqb_eq in Hid.
    f_equal. eapply same_id_same_row; eauto.
  - exfalso. apply (find_none _ _ F) in Hin. rewrite Z.eqb_refl in Hin.
    discriminate.
Qed.

(** An entry listed for the event is the join of one of its rows. *)
Lemma card_entry_row (db : Store.t) (event_id : Z) (chip : option string)
    (e : Entry.t) :
  In e (card_entries db event_id chip) ->
  exists row, In row (rows_of db event_id) /\ e = join_entry db row.
Proof.
  unfold card_entries, entries_of. intros H.
  apply filter_In in H. destruct H as [H _].
  apply in_map_iff in H. destruct H as [row [Hj Hin]]. eauto.
Qed.


Lemma set_result_hit id chip result start r :
  EntryRow.id r = id ->
  EntryRow.result (set_result id chip result start r) = result.
Proof. intros H. unfold set_result. rewrite H, Z.eqb_refl. reflexivity. Qed.

Lemma ids_set_result id chip result start rows :
  map EntryRow.id (map (set_result id chip result start) rows)
  = map EntryRow.id rows.
Proof.
  rewrite map_map. apply map_ext. intros r. apply set_result_id.
Qed.

(** The merge path of a standard card read. *)
Lemma merge_path_run (ev : Event.t) (item : CardReaderMessage.t)
    (r : PersonRaceResult.t) (a : Entry.t) (rest : list Entry.t) (w : world) :
  let db := w_db w in
  let chip := CardReaderMessage.control_card item in
  let assigned := assigned_of db (Event.id ev) chip in
  let unassigned := unassigned_of db (Event.id ev) chip in
  let cp := course_params_of db (Entry.class_id a) in
  let result := compute_result (snd cp) (fst cp)
                  (PersonRaceStart.start_time (Entry.start a))
                  (Entry.year a) (Entry.gender a) r in
  let db1 := with_result db (Entry.id a) (Entry.chip a) result (Entry.start a) in
  CardReaderMessage.result item = Some r ->
  assigned = a :: rest ->
  find (same_as r) assigned = None ->
  can_assign assigned unassigned r = true ->
  exists res,
    standard_card_read ev item w =
    (Ok res,
     mk_world
       match find (same_as r) unassigned with
       | Some u => if list_eq_dec Entry.eq_dec unassigned [u]
                   then without_entry db1 (Entry.id u) else db1
       | None => db1
       end
       (w_log w ++ [CacheClear (Some (Event.id ev)) (Some (Entry.id a))])).
Proof.
  intros db chip assigned unassigned cp result db1 R A D C.
  unfold standard_card_read. unfold bind at 1. rewrite R. simpl.
  unfold bind at 1. unfold get_entries. unfold bind at 1.
  unfold get_db at 1, ret at 1.
  change (filter (fun e => opt_is_some (Entry.class_name e))
            (filter (chip_is (CardReaderMessage.control_card item))
               (entries_of (w_db w) (Event.id ev)))) with assigned.
  change (filter (fun e => opt_is_none (Entry.class_name e))
            (filter (chip_is (CardReaderMessage.control_card item))
               (entries_of (w_db w) (Event.id ev)))) with unassigned.
  rewrite D, C, A. simpl hd_error.
  unfold bind at 1. unfold of_option at 1, ret at 1.
  unfold bind at 1. rewrite class_course_run.
  fold db. fold cp. fold result.
  unfold bind at 1. unfold update_entry_result, bind at 1.
  unfold get_db at 1. unfold put_db at 1. cbn [w_db w_log]. fold db. fold db1.
  unfold bind at 1. unfold clear_cache, emit. cbn [w_db w_log].
  destruct (find (same_as r) unassigned) as [u|]; [|eexists; reflexivity].
  destruct (list_eq_dec Entry.eq_dec unassigned [u]); [|eexists; reflexivity].
  unfold bind at 1. unfold delete_entry, bind at 1.
  unfold get_db at 1. unfold put_db at 1. cbn [w_db w_log].
  eexists. reflexivity.
Qed.

(** C2 (amended): in a store with distinct entry ids, when the sole assigned
    entry has no punches and does not itself carry the SI punches of the
    incoming result, the incoming result is recomputed for that entry
    (against the course and parameters of its class, with its scheduled
    start, year and gender) and stored on it, and the matching unassigned
    entry, when there is one, is deleted, which leaves the event with one
    entry less. *)
Theorem standard_merge (event_key : string) (item : CardReaderMessage.t)
    (w : world) (ev : Event.t) (r : PersonRaceResult.t) (a : Entry.t) :
  let db := w_db w in
  let chip := CardReaderMessage.control_card item in
  let assigned := assigned_of db (Event.id ev) chip in
  let unassigned := unassigned_of db (Event.id ev) chip in
  find (key_matches event_key) (Store.events db) = Some ev ->
  Event.light ev = false ->
  CardReaderMessage.entry_type item = "cardRead" ->
  CardReaderMessage.result item = Some r ->
  NoDup (map EntryRow.id (Store.entries db)) ->
  assigned = [a] ->
  merge_condition assigned unassigned r ->
  same_si_punches (Entry.result a) r = false ->
  exists res w',
    store_cardreader_result event_key item w = (Ok ("cardRead", ev, res), w')
    /\ merge_outcome db (w_db w') (Event.id ev) a unassigned r
    /\ option_map EntryRow.result (find_row (w_db w') (Entry.id a))
       = Some (compute_result
                 (snd (course_params_of db (Entry.class_id a)))
                 (fst (course_params_of db (Entry.class_id a)))
                 (PersonRaceStart.start_time (Entry.start a))
                 (Entry.year a) (Entry.gender a) r)
    /\ (unassigned = [] ->
        List.length (rows_of (w_db w') (Event.id ev))
        = List.length (rows_of db (Event.id ev))).
Proof.
  intros db chip assigned unassigned F L T R ND A MC NS.
  rewrite (card_read_run _ _ _ _ F T), L.
  assert (D : find (same_as r) assigned = None).
  { rewrite A. simpl. unfold same_as. rewrite NS. reflexivity. }
  pose proof (proj2 (can_assign_iff _ _ _) MC) as C.
  destruct (merge_path_run ev item r a [] (opened IMMEDIATE w) R A D C)
    as [res Run].
  rewrite Run. clear Run.
  change (w_db (opened IMMEDIATE w)) with db.
  change (unassigned_of db (Event.id ev) (CardReaderMessage.control_card item))
    with unassigned.
  set (cp := course_params_of db (Entry.class_id a)).
  set (result := compute_result (snd cp) (fst cp)
                   (PersonRaceStart.start_time (Entry.start a))
                   (Entry.year a) (Entry.gender a) r).
  set (db1 := with_result db (Entry.id a) (Entry.chip a) result (Entry.start a)).
  (* the row behind [a] *)
  assert (Ia : In a (card_entries db (Event.id ev) chip)).
  { assert (I : In a assigned) by (rewrite A; left; reflexivity).
    unfold assigned, assigned_of in I. apply filter_In in I. tauto. }
  destruct (card_entry_row _ _ _ _ Ia) as [ra [Hra Ja]].
  assert (Ira : In ra (Store.entries db))
    by (unfold rows_of in Hra; apply filter_In in Hra; tauto).
  assert (Ida : Entry.id a = EntryRow.id ra) by (rewrite Ja; reflexivity).
  assert (F1 : option_map EntryRow.result (find_row db1 (Entry.id a))
               = Some result).
  { unfold find_row, db1, with_result. cbn [Store.entries Store.set_entries].
    rewrite (find_set_result _ _ _ _ _ ra).
    - simpl. rewrite set_result_hit by congruence. reflexivity.
    - rewrite Ida. apply find_row_in; assumption. }
  assert (Rows1 : rows_of db1 (Event.id ev)
                  = map (set_result (Entry.id a) (Entry.chip a) result
                           (Entry.start a))
                      (rows_of db (Event.id ev))).
  { unfold rows_of, db1, with_result. cbn [Store.entries Store.set_entries].
    apply filter_event_set_result. }
  assert (Part1 : forall db',
            option_map EntryRow.result (find_row db' (Entry.id a))
            = Some result ->
            forall cid class_ coid course,
              Entry.class_id a = Some cid ->
              find_class db cid = Some class_ ->
              Class.course_id class_ = Some coid ->
              find_course db coid = Some course ->
              option_map EntryRow.result (find_row db' (Entry.id a)) =
              Some (compute_result (Course.controls course)
                      (Class.params class_)
                      (PersonRaceStart.start_time (Entry.start a))
                      (Entry.year a) (Entry.gender a) r)).
  { intros db' H cid class_ coid course H1 H2 H3 H4. rewrite H.
    unfold result, cp, course_params_of. rewrite H1, H2, H3, H4. reflexivity. }
  destruct MC as [a0 [A0 [HP HU]]].
  destruct HU as [U|[u [U S]]].
  - (* no unassigned entry *)
    rewrite U. simpl find.
    eexists. eexists. split; [reflexivity|]. cbn [w_db committed].
    split; [split|split].
    + apply Part1. exact F1.
    + intros u Hu. discriminate.
    + exact F1.
    + intros _. rewrite Rows1. apply length_map.
  - (* one unassigned entry with the same SI punches *)
    rewrite U. simpl find. unfold same_as at 1. rewrite S.
    destruct (list_eq_dec Entry.eq_dec [u] [u]) as [_|N]; [|congruence].
    assert (Iu : In u (card_entries db (Event.id ev) chip)).
    { assert (I : In u unassigned) by (rewrite U; left; reflexivity).
      unfold unassigned, unassigned_of in I. apply filter_In in I. tauto. }
    destruct (card_entry_row _ _ _ _ Iu) as [ru [Hru Ju]].
    assert (Iru : In ru (Store.entries db))
      by (unfold rows_of in Hru; apply filter_In in Hru; tauto).
    assert (Idu : Entry.id u = EntryRow.id ru) by (rewrite Ju; reflexivity).
    assert (Neq : Entry.id a <> Entry.id u).
    { intros Heq.
      assert (ra = ru)
        by (eapply same_id_same_row; eauto; congruence).
      assert (Eau : a = u) by congruence.
      assert (I1 : In a assigned) by (rewrite A; left; reflexivity).
      assert (I2 : In a unassigned) by (rewrite U; left; congruence).
      unfold assigned, assigned_of in I1. apply filter_In in I1.
      unfold unassigned, unassigned_of in I2. apply filter_In in I2.
      destruct I1 as [_ I1], I2 as [_ I2].
      unfold opt_is_some in I1. rewrite I2 in I1. discriminate. }
    assert (F2 : option_map EntryRow.result
                   (find_row (without_entry db1 (Entry.id u)) (Entry.id a))
                 = Some result).
    { rewrite <- F1. unfold find_row, without_entry.
      cbn [Store.entries Store.set_entries].
      rewrite find_filter_other by exact Neq. reflexivity. }
    eexists. eexists. split; [reflexivity|]. cbn [w_db committed].
    split; [split|split].
    + apply Part1. exact F2.
    + intros u' Hu'. inversion Hu'; subst u'. split.
      * unfold find_row, without_entry. cbn [Store.entries Store.set_entries].
        apply find_filter_same.
      * unfold rows_of at 1. unfold without_entry.
        cbn [Store.entries Store.set_entries].
        rewrite filter_comm. fold (rows_of db1 (Event.id ev)). rewrite Rows1.
        rewrite length_without_id; [apply length_map| |].
        -- rewrite ids_set_result. apply NoDup_ids_filter. exact ND.
        -- exists (set_result (Entry.id a) (Entry.chip a) result
                     (Entry.start a) ru).
           split; [apply in_map; exact Hru|].
           rewrite set_result_id. congruence.
    + exact F2.
    + intros H. discriminate.
Qed.

End Standard.

Lemma standard_unassigned_witness :
  exists res w',
    store_cardreader_result (E:=SampleEngine.engine) "4711"
      (Fixtures.card_read "000000" Fixtures.ok_result)
      (Fixtures.start_of Fixtures.merge_db)
    = (Ok ("cardRead", Fixtures.standard_event, res), w')
    /\ dict_get "error" res = Some (VStr "Control card unknown")
    /\ List.length (Store.entries (w_db w')) = 3%nat.
Proof.
  destruct (standard_unassigned (E:=SampleEngine.engine) "4711"
              (Fixtures.card_read "000000" Fixtures.ok_result)
              (Fixtures.start_of Fixtures.merge_db)
              Fixtures.standard_event Fixtures.ok_result)
    as [res [w' [Run [New [_ [_ [Err _]]]]]]]; try reflexivity.
  - intros [a [[] _]].
  - intros [a [A _]]. discriminate.
  - exists res, w'. split; [exact Run|]. split; [apply Err; reflexivity|].
    rewrite New; [reflexivity|]. intros u [].
Defined.

Lemma standard_merge_witness :
  exists res w',
    store_cardreader_result (E:=SampleEngine.engine) "4711"
      (Fixtures.card_read "4711" Fixtures.ok_result)
      (Fixtures.start_of Fixtures.merge_db)
    = (Ok ("cardRead", Fixtures.standard_event, res), w')
    /\ option_map (fun row => PersonRaceResult.status (EntryRow.result row))
         (find_row (w_db w') 1) = Some ResultStatus.OK
    /\ find_row (w_db w') 2 = None.
Proof.
  destruct (standard_merge (E:=SampleEngine.engine) "4711"
              (Fixtures.card_read "4711" Fixtures.ok_result)
              (Fixtures.start_of Fixtures.merge_db)
              Fixtures.standard_event Fixtures.ok_result
              (join_entry Fixtures.merge_db
                 (Fixtures.assigned_row Fixtures.not_started)))
    as [res [w' [Run [[_ Gone] [Upd _]]]]]; try reflexivity.
  - repeat constructor; simpl; intuition discriminate.
  - eexists. split; [reflexivity|]. split; [reflexivity|].
    right. eexists. split; reflexivity.
  - exists res, w'. split; [exact Run|]. split.
    + simpl in Upd. destruct (find_row (w_db w') 1) as [row|]; [|discriminate].
      simpl in *. inversion Upd as [Hr]. rewrite Hr. reflexivity.
    + exact (proj1 (Gone _ eq_refl)).
Defined.

(** C2, as stated, fails: a first read of an empty card was stored
    unassigned, the competitor was then registered, and the card is read
    again.  The assigned entry has no punches and the only unassigned entry
    has the SI punches of the read, but so has the assigned entry itself:
    the read counts as already stored and nothing is updated or deleted. *)
Lemma merge_claim_counterexample :
  ~ merge_claim (E:=SampleEngine.engine) "4711"
      (Fixtures.card_read "4711" Fixtures.empty_card)
      (Fixtures.start_of Fixtures.empty_read_db).
Proof.
  intros H.
  destruct (H Fixtures.standard_event Fixtures.empty_card
              (join_entry Fixtures.empty_read_db Fixtures.sprinter_row))
    as [res [w' [Run [_ Gone]]]]; try reflexivity.
  - repeat constructor; simpl; intuition discriminate.
  - eexists. split; [reflexivity|]. split; [reflexivity|].
    right. eexists. split; reflexivity.
  - destruct (Gone _ eq_refl) as [G _].
    vm_compute in Run. inversion Run; subst. vm_compute in G. discriminate.
Qed.

(** ** Entries *)

Section Entries.
Context {E : ResultEngine}.

Lemma set_entry_id id class_id club_id nc chip fields result start r :
  EntryRow.id (set_entry id class_id club_id nc chip fields result start r)
  = EntryRow.id r.
Proof.
  unfold set_entry. destruct (Z.eqb_spec (EntryRow.id r) id); simpl; congruence.
Qed.

Lemma set_entry_other id class_id club_id nc chip fields result start r :
  EntryRow.id r <> id ->
  set_entry id class_id club_id nc chip fields result start r = r.
Proof.
  intros N. unfold set_entry.
  destruct (Z.eqb_spec (EntryRow.id r) id); [contradiction|reflexivity].
Qed.

Lemma set_result_other id chip result start r :
  EntryRow.id r <> id -> set_result id chip result start r = r.
Proof.
  intros N. unfold set_result.
  destruct (Z.eqb_spec (EntryRow.id r) id); [contradiction|reflexivity].
Qed.

Lemma in_map_fixed {A} (f : A -> A) (x : A) (l : list A) :
  f x = x -> In x l -> In x (map f l).
Proof. intros H Hin. rewrite <- H. apply in_map. exact Hin. Qed.

Lemma find_id_app (id : Z) (l l' : list EntryRow.t) (x : EntryRow.t) :
  find (fun r => EntryRow.id r =? id) l = Some x ->
  find (fun r => EntryRow.id r =? id) (l ++ l') = Some x.
Proof.
  induction l as [|r l IH]; simpl; [discriminate|].
  destruct (EntryRow.id r =? id); auto.
Qed.

Lemma find_id_map (id : Z) (f : EntryRow.t -> EntryRow.t)
    (l : list EntryRow.t) (x : EntryRow.t) :
  (forall r, EntryRow.id (f r) = EntryRow.id r) ->
  find (fun r => EntryRow.id r =? id) l = Some x ->
  find (fun r => EntryRow.id r =? id) (map f l) = Some (f x).
Proof.
  intros Hf. induction l as [|r l IH]; simpl; [discriminate|].
  rewrite Hf. destruct (EntryRow.id r =? id); [|exact IH].
  intros H. inversion H. reflexivity.
Qed.

Lemma find_row_id (db : Store.t) (id : Z) (row : EntryRow.t) :
  find_row db id = Some row -> In row (Store.entries db) /\ EntryRow.id row = id.
Proof.
  intros F. apply find_some in F. destruct F as [Hin H].
  apply Z.eqb_eq in H. auto.
Qed.

Lemma fresh_row_differs (db : Store.t) (id : Z) (row : EntryRow.t) :
  find_row db id = Some row ->
  fresh_id (map EntryRow.id (Store.entries db)) <> id.
Proof.
  intros F. apply find_row_id in F. destruct F as [Hin Hid].
  pose proof (fresh_id_above (map EntryRow.id (Store.entries db)) id) as Lt.
  rewrite <- Hid in Lt at 1. specialize (Lt (in_map _ _ _ Hin)). lia.
Qed.

Lemma fresh_id_pos (ids : list Z) : 0 < fresh_id ids.
Proof.
  unfold fresh_id.
  assert (0 <= fold_right Z.max 0 ids).
  { induction ids as [|y ids IH]; [reflexivity|].
    change (fold_right Z.max 0 (y :: ids))
      with (Z.max y (fold_right Z.max 0 ids)). lia. }
  lia.
Qed.

Lemma update_branch_run (id event_id : Z) (competitor_id : option Z)
    (first_name last_name gender : string) (year : option Z) (class_id : Z)
    (club_id : option Z) (not_competing : bool) (chip : string)
    (fields : list (Z * string)) (status : ResultStatus.t)
    (start_time : option datetime) (rid : Z) (w : world)
    (row : EntryRow.t) (cid : Z) (competitor : Competitor.t) :
  find_row (w_db w) id = Some row ->
  EntryRow.competitor_id row = Some cid ->
  find_competitor (w_db w) cid = Some competitor ->
  has_punches (reset (EntryRow.result row)) = true ->
  update_branch id event_id competitor_id first_name last_name gender year
    class_id club_id not_competing chip fields status start_time (Some rid) w
  = (Ok (mk_locals id competitor_id gender year club_id (Some chip)
           (EntryRow.result row)),
     mk_world
       (after_update (w_db w) row competitor first_name last_name gender year
          class_id club_id not_competing chip fields status start_time)
       (w_log w)).
Proof.
  intros F C K P.
  pose proof (find_row_id _ _ _ F) as [_ Hid].
  unfold update_branch.
  cbv [bind try_except ret of_option get_db put_db get_entry get_competitor
       update_competitor update_entry option_map].
  rewrite F.
  cbn [Entry.result Entry.event_id Entry.chip Entry.competitor_id Entry.start
       join_entry].
  rewrite P, add_entry_result_run. cbn [w_db w_log]. rewrite C.
  change (find_competitor (with_unassigned (w_db w) (EntryRow.event_id row)
            (EntryRow.chip row)
            (compute_result [] ClassParams_default None None None
               (reset (EntryRow.result row)))) cid)
    with (find_competitor (w_db w) cid).
  rewrite K. unfold after_update. rewrite Hid. reflexivity.
Qed.


Lemma settle_result_keeps (event_id : Z) (l : locals) (class_id : Z)
    (status : ResultStatus.t) (start_time : option datetime) (rid : Z)
    (w : world) (kept : EntryRow.t) :
  In kept (Store.entries (w_db w)) ->
  EntryRow.id kept <> l_id l ->
  EntryRow.id kept <> rid ->
  (rid = -1 \/ exists x, find_row (w_db w) rid = Some x) ->
  exists w',
    settle_result event_id l class_id status start_time (Some rid) w
    = (Ok tt, w')
    /\ In kept (Store.entries (w_db w'))
    /\ w_log w' = w_log w.
Proof.
  intros Hin Nid Nrid Hrid.
  unfold settle_result.
  cbv [bind try_except ret of_option get_db put_db get_entry delete_entry
       update_entry_result option_map].
  destruct (Z.eqb_spec rid (-1)) as [Hm|Hm].
  - rewrite class_course_run. cbn [fst snd w_db w_log].
    eexists. split; [reflexivity|]. split; [|reflexivity].
    cbn [w_db]. unfold with_result. cbn [Store.entries Store.set_entries].
    apply in_map_fixed; [apply set_result_other; exact Nid|exact Hin].
  - destruct Hrid as [Hrid|[x Hx]]; [contradiction|].
    rewrite Hx. rewrite class_course_run. cbn [fst snd w_db w_log].
    eexists. split; [reflexivity|]. split; [|reflexivity].
    cbn [w_db]. unfold with_result, without_entry.
    cbn [Store.entries Store.set_entries].
    apply in_map_fixed; [apply set_result_other; exact Nid|].
    apply filter_In. split; [exact Hin|].
    apply negb_true_iff. apply Z.eqb_neq. exact Nrid.
Qed.

(** C10 (amended): on an update with [result_id] set, of an entry with a
    competitor, where the event, the class and the club of the call are in
    the store and the name is not that of another competitor: when the
    reset copy of the entry's result still has punches, the call succeeds
    and that copy, recomputed without controls, is in the store as a new
    unassigned entry of the same event under the entry's chip. *)
Theorem removed_result_is_kept (id event_id : Z) (competitor_id : option Z)
    (first_name last_name gender : string) (year : option Z) (class_id : Z)
    (club_id : option Z) (not_competing : bool) (chip : string)
    (fields : list (Z * string)) (status : ResultStatus.t)
    (start_time : option datetime) (rid : Z) (w : world)
    (row : EntryRow.t) (cid : Z) (competitor : Competitor.t) :
  let db := w_db w in
  let kept := compute_result [] ClassParams_default None None None
                (reset (EntryRow.result row)) in
  find_row db id = Some row ->
  EntryRow.competitor_id row = Some cid ->
  find_competitor db cid = Some competitor ->
  find (fun ev => Event.id ev =? event_id) (Store.events db) <> None ->
  find_class db class_id <> None ->
  (forall b, club_id = Some b -> find_club db b <> None) ->
  (forall x, In x (Store.competitors db) ->
             named first_name last_name x = true -> Competitor.id x = cid) ->
  (rid = -1 \/ exists x, find_row db rid = Some x) ->
  has_punches (reset (EntryRow.result row)) = true ->
  exists w',
    add_or_update_entry (Some id) event_id competitor_id first_name last_name
      gender year class_id club_id not_competing chip fields status
      start_time (Some rid) w = (Ok id, w')
    /\ In (unassigned_row db (EntryRow.event_id row) (EntryRow.chip row) kept)
         (Store.entries (w_db w'))
    /\ stored_unassigned (w_db w') (EntryRow.event_id row) (EntryRow.chip row)
         kept.
Proof.
  intros db kept F C K _ _ _ _ Hrid P.
  set (urow := unassigned_row db (EntryRow.event_id row) (EntryRow.chip row)
                 kept).
  pose proof (find_row_id _ _ _ F) as [Irow Hid].
  assert (Nid : EntryRow.id urow <> id) by (exact (fresh_row_differs _ _ _ F)).
  assert (Nrid : EntryRow.id urow <> rid).
  { destruct Hrid as [Hm|[x Hx]].
    - subst rid. unfold urow, unassigned_row. cbn [EntryRow.id].
      pose proof (fresh_id_pos (map EntryRow.id (Store.entries db))). lia.
    - exact (fresh_row_differs _ _ _ Hx). }
  set (db3 := after_update db row competitor first_name last_name gender year
                class_id club_id not_competing chip fields status start_time).
  assert (E3 : Store.entries db3
               = map (set_entry (EntryRow.id row) (Some class_id) club_id
                        not_competing (Some chip) fields
                        (PersonRaceResult.set_status status
                           (EntryRow.result row))
                        (PersonRaceStart.set_start_time start_time
                           (EntryRow.start row)))
                   (Store.entries db ++ [urow])) by reflexivity.
  assert (I3 : In urow (Store.entries db3)).
  { rewrite E3. apply in_map_fixed.
    - apply set_entry_other. rewrite Hid. exact Nid.
    - apply in_or_app. right. left. reflexivity. }
  assert (R3 : rid = -1 \/ exists x, find_row db3 rid = Some x).
  { destruct Hrid as [Hm|[x Hx]]; [left; exact Hm|right].
    eexists. unfold find_row. rewrite E3.
    apply find_id_map; [intros r; apply set_entry_id|].
    apply find_id_app. exact Hx. }
  destruct (settle_result_keeps event_id
              (mk_locals id competitor_id gender year club_id (Some chip)
                 (EntryRow.result row))
              class_id status start_time rid
              (mk_world db3 (w_log (opened IMMEDIATE w))) urow I3 Nid Nrid R3)
    as [w4 [Run4 [I4 L4]]].
  unfold add_or_update_entry. unfold bind at 1. rewrite transaction_run.
  unfold bind at 1.
  rewrite (update_branch_run id event_id competitor_id first_name last_name
             gender year class_id club_id not_competing chip fields status
             start_time rid (opened IMMEDIATE w) row cid competitor F C K P).
  unfold bind at 1.
  change (after_update (w_db (opened IMMEDIATE w)) row competitor first_name
            last_name gender year class_id club_id not_competing chip fields
            status start_time) with db3.
  rewrite Run4. cbv [ret bind clear_cache emit]. cbn [l_id].
  eexists. split; [reflexivity|]. cbn [w_db committed].
  split; [exact I4|].
  exists urow. split; [exact I4|]. repeat split.
Qed.

(** On the add path the stored flag is the submitted one, whatever the
    store holds. *)
Lemma add_branch_stores_flag (event_id : Z) (competitor_id : option Z)
    (first_name last_name gender : string) (year : option Z) (class_id : Z)
    (club_id : option Z) (not_competing : bool) (chip : string)
    (fields : list (Z * string)) (status : ResultStatus.t)
    (start_time : option datetime) (w w' : world) (l : locals) :
  add_branch event_id competitor_id first_name
    last_name gender year class_id club_id not_competing chip fields status
    start_time w = (Ok l, w') ->
  option_map EntryRow.not_competing (find_row (w_db w') (l_id l))
  = Some not_competing.
Proof.
  unfold add_branch.
  cbv [bind try_except ret of_option get_db put_db get_competitor_by_name
       get_competitor add_competitor update_competitor].
  destruct competitor_id as [cid|].
  - destruct (find_competitor (w_db w) cid) as [c|].
    + rewrite add_entry_run. intros H. inversion H; subst. cbn [l_id w_db].
      unfold find_row. cbn [Store.entries Store.set_entries].
      rewrite find_row_fresh by reflexivity. reflexivity.
    + unfold reprobe.
      cbv [bind try_except ret raise of_option get_db get_event get_class
           get_competitor get_club].
      repeat match goal with
             | |- context [match ?x with _ => _ end] => destruct x
             end; discriminate.
  - destruct (find _ (Store.competitors (w_db w))) as [com|].
    + destruct (find_competitor (w_db w) (Competitor.id com)) as [c|].
      * rewrite add_entry_run. intros H. inversion H; subst. cbn [l_id w_db].
        unfold find_row. cbn [Store.entries Store.set_entries].
        rewrite find_row_fresh by reflexivity. reflexivity.
      * unfold reprobe.
        cbv [bind try_except ret raise of_option get_db get_event get_class
             get_competitor get_club].
        repeat match goal with
               | |- context [match ?x with _ => _ end] => destruct x
               end; discriminate.
    + cbn [w_db w_log].
      match goal with
      | |- context [find_competitor ?d ?i] =>
          destruct (find_competitor d i) as [c|]
      end.
      * rewrite add_entry_run. intros H. inversion H; subst. cbn [l_id w_db].
        unfold find_row. cbn [Store.entries Store.set_entries].
        rewrite find_row_fresh by reflexivity. reflexivity.
      * unfold reprobe.
        cbv [bind try_except ret raise of_option get_db get_event get_class
             get_competitor get_club].
        repeat match goal with
               | |- context [match ?x with _ => _ end] => destruct x
               end; discriminate.
Qed.

End Entries.

Lemma removed_result_is_kept_witness :
  exists w',
    add_or_update_entry (E:=SampleEngine.engine) (Some 1) 1 None "Angela"
      "Merkel" "F" (Some 1957) 1 (Some 1) false "4711" []
      ResultStatus.MISSING_PUNCH None (Some (-1))
      (Fixtures.start_of Fixtures.entry_1_db) = (Ok 1, w')
    /\ stored_unassigned (w_db w') 1 (Some "4711")
         (SampleEngine.compute_result [] SampleEngine.params None None None
            (SampleEngine.reset Fixtures.entry_1_result)).
Proof.
  destruct (removed_result_is_kept (E:=SampleEngine.engine) 1 1 None "Angela"
              "Merkel" "F" (Some 1957) 1 (Some 1) false "4711" []
              ResultStatus.MISSING_PUNCH None (-1)
              (Fixtures.start_of Fixtures.entry_1_db)
              (Fixtures.registered_row Fixtures.entry_1_result) 1
              Fixtures.merkel eq_refl eq_refl eq_refl)
    as [w' [Run [_ Kept]]].
  - simpl. discriminate.
  - simpl. discriminate.
  - intros b H. inversion H; subst. simpl. discriminate.
  - intros x [Hx|[]] _. subst x. reflexivity.
  - left. reflexivity.
  - reflexivity.
  - exists w'. split; [exact Run|exact Kept].
Defined.

(** C10, as stated, fails: the entry's result has a punch (a finish time
    entered by hand), the result is removed, and no unassigned entry is
    stored, because nothing of the result comes from a card. *)
Lemma kept_result_claim_counterexample :
  ~ kept_result_claim (E:=SampleEngine.engine) 1 1 None "Angela" "Merkel" "F"
      (Some 1957) 1 (Some 1) false "4711" [] ResultStatus.MISSING_PUNCH None
      (-1) (Fixtures.start_of Fixtures.hand_edited_db).
Proof.
  intros H.
  destruct (H (Fixtures.registered_row Fixtures.hand_edited_result) 1
              (snd (add_or_update_entry (E:=SampleEngine.engine) (Some 1) 1
                      None "Angela" "Merkel" "F" (Some 1957) 1 (Some 1) false
                      "4711" [] ResultStatus.MISSING_PUNCH None (Some (-1))
                      (Fixtures.start_of Fixtures.hand_edited_db)))
              eq_refl eq_refl eq_refl)
    as [row [Hin [_ [_ [Hc _]]]]].
  vm_compute in Hin. destruct Hin as [Hin|[]]. subst row. discriminate.
Qed.

(** C3: the second registration of a competitor in the same event.  The
    function returns the bare entry id, and the new entry keeps the
    submitted [not_competing = False]. *)
Theorem second_registration_not_promoted :
  let first :=
    add_or_update_entry (E:=SampleEngine.engine) None 1 None "Angela" "Merkel"
      "F" (Some 1957) 1 None false "4748495" [] ResultStatus.INACTIVE None
      None (Fixtures.start_of Fixtures.entries_db) in
  let second :=
    add_or_update_entry (E:=SampleEngine.engine) None 1 None "Angela" "Merkel"
      "F" None 1 None false "4748495" [] ResultStatus.INACTIVE None None
      (snd first) in
  fst first = Ok 1
  /\ fst second = Ok 2
  /\ map (fun r => (EntryRow.id r, EntryRow.competitor_id r,
                    EntryRow.class_id r, EntryRow.not_competing r))
       (Store.entries (w_db (snd second)))
     = [(1, Some 1, Some 1, false); (2, Some 1, Some 1, false)].
Proof. vm_compute. repeat split. Qed.


(** ** Cache invalidation *)

Section Cache.
Context {E : ResultEngine}.

(** [add_or_update_entry] invalidates after its transaction has committed. *)
Lemma add_or_update_entry_clears_after_commit (id : option Z) (event_id : Z)
    (competitor_id : option Z) (first_name last_name gender : string)
    (year : option Z) (class_id : Z) (club_id : option Z)
    (not_competing : bool) (chip : string) (fields : list (Z * string))
    (status : ResultStatus.t) (start_time : option datetime)
    (result_id : option Z) (w w' : world) (id' : Z) :
  add_or_update_entry id event_id competitor_id first_name last_name gender
    year class_id club_id not_competing chip fields status start_time
    result_id w = (Ok id', w') ->
  exists l,
    w_log w' = (l ++ [TxCommit; CacheClear (Some event_id) (Some id')])%list.
Proof.
  unfold add_or_update_entry. unfold bind at 1. rewrite transaction_run.
  match goal with |- context [?m (opened IMMEDIATE w)] =>
    destruct (m (opened IMMEDIATE w)) as [[a|e] w1] end;
    [|discriminate].
  cbv [bind ret clear_cache emit committed]. cbn [w_db w_log].
  intros H. inversion H; subst. exists (w_log w1).
  rewrite <- app_assoc. reflexivity.
Qed.

(** Whatever the message, a successful [store_cardreader_result] logs one
    IMMEDIATE transaction, and every cache invalidation of the call lies
    between its begin and its commit. *)
Lemma ingestion_log (event_key : string) (item : CardReaderMessage.t)
    (w w' : world) (out : string * Event.t * dict) :
  store_cardreader_result event_key item w = (Ok out, w') ->
  exists inside,
    w_log w' = (w_log w ++ TxBegin IMMEDIATE :: inside ++ [TxCommit])%list
    /\ forallb is_clear inside = true.
Proof.
  unfold store_cardreader_result. unfold bind at 1. rewrite transaction_run.
  match goal with |- context [?m (opened IMMEDIATE w)] =>
    assert (Q : quiet m);
    [|destruct (Q (opened IMMEDIATE w)) as [inside [L C]];
      destruct (m (opened IMMEDIATE w)) as [[a|e'] w1]]
  end.
  - quiet_ops.
    repeat first [apply quiet_light_card_read
                 | apply quiet_standard_card_read | quiet_step].
  - unfold ret. intros H. inversion H; subst.
    exists inside. split; [|exact C].
    cbn [w_log committed snd opened] in *. rewrite L.
    rewrite <- !app_assoc. reflexivity.
  - discriminate.
Qed.

End Cache.

(** C8: the ingestion of a card read that registers or merges calls
    [clear_cache] between the begin and the commit of its transaction; a
    read that is stored unassigned changes the store and does not call it
    at all; [add_or_update_entry] calls it after the commit. *)
Theorem ingestion_clears_cache_before_commit :
  let register :=
    store_cardreader_result (E:=SampleEngine.engine) "4711"
      (Fixtures.card_read "9876" Fixtures.ok_result)
      (Fixtures.start_of Fixtures.light_db) in
  let merge :=
    store_cardreader_result (E:=SampleEngine.engine) "4711"
      (Fixtures.card_read "4711" Fixtures.ok_result)
      (Fixtures.start_of Fixtures.merge_db) in
  let unknown :=
    store_cardreader_result (E:=SampleEngine.engine) "4711"
      (Fixtures.card_read "000000" Fixtures.ok_result)
      (Fixtures.start_of Fixtures.light_db) in
  let update :=
    add_or_update_entry (E:=SampleEngine.engine) (Some 1) 1 None "Angela"
      "Merkel" "F" (Some 1957) 1 (Some 1) false "4711" []
      ResultStatus.MISSING_PUNCH None (Some (-1))
      (Fixtures.start_of Fixtures.entry_1_db) in
  w_log (snd register)
  = [TxBegin IMMEDIATE; CacheClear (Some 1) (Some 1); TxCommit]
  /\ clears_outside false (w_log (snd register)) = false
  /\ w_log (snd merge)
     = [TxBegin IMMEDIATE; CacheClear (Some 1) (Some 1); TxCommit]
  /\ clears_outside false (w_log (snd merge)) = false
  /\ w_log (snd unknown) = [TxBegin IMMEDIATE; TxCommit]
  /\ List.length (Store.entries (w_db (snd unknown))) = 1%nat
  /\ w_log (snd update)
     = [TxBegin IMMEDIATE; TxCommit; CacheClear (Some 1) (Some 1)]
  /\ clears_outside false (w_log (snd update)) = true.
Proof. vm_compute. repeat split. Qed.

(** ** Series points *)

Module SeriesProofs.
Import Series.

Lemma div_half_even_cases (n d : Z) :
  0 < d ->
  exists q r,
    n = d * q + r /\ 0 <= r < d
    /\ (div_half_even n d = q /\ 2 * r <= d
        \/ div_half_even n d = q + 1 /\ d <= 2 * r).
Proof.
  intros Hd. exists (n / d), (n mod d).
  pose proof (Z.div_mod n d ltac:(lia)) as Hdm.
  pose proof (Z.mod_pos_bound n d Hd) as Hr.
  split; [exact Hdm|]. split; [exact Hr|].
  unfold div_half_even. cbv zeta.
  destruct (Z.ltb_spec (2 * (n mod d)) d); [left; split; [reflexivity|lia]|].
  destruct (Z.ltb_spec d (2 * (n mod d))); [right; split; [reflexivity|lia]|].
  destruct (Z.even (n / d)); [left|right]; split; try reflexivity; lia.
Qed.

Lemma div_half_even_rounds (n d : Z) :
  0 < d -> Z.abs (2 * (div_half_even n d * d - n)) <= d.
Proof.
  intros Hd.
  destruct (div_half_even_cases n d Hd) as [q [r [Hn [Hr [[Hq H]|[Hq H]]]]]];
    rewrite Hq; nia.
Qed.

Lemma div_half_even_le (n d m : Z) :
  0 < d -> n <= m * d -> div_half_even n d <= m.
Proof.
  intros Hd Hle.
  destruct (div_half_even_cases n d Hd) as [q [r [Hn [Hr [[Hq H]|[Hq H]]]]]];
    rewrite Hq; nia.
Qed.

Lemma div_half_even_exact (d m : Z) :
  0 < d -> div_half_even (m * d) d = m.
Proof.
  intros Hd.
  destruct (div_half_even_cases (m * d) d Hd)
    as [q [r [Hn [Hr [[Hq H]|[Hq H]]]]]]; rewrite Hq; nia.
Qed.

Lemma scale_pos (places : nat) : 0 < scale places.
Proof. unfold scale. apply Z.pow_pos_nonneg; lia. Qed.

Lemma fastest_time_le (class_list : list Entry.t) (e : Entry.t) (t : Z) :
  In e class_list -> ok_time e = Some t ->
  exists fastest, fastest_time class_list = Some fastest /\ fastest <= t.
Proof.
  induction class_list as [|x rest IH]; simpl; [tauto|].
  intros [H|H] Ht.
  - subst x. rewrite Ht. destruct (fastest_time rest) as [f|].
    + exists (Z.min t f). split; [reflexivity|lia].
    + exists t. split; [reflexivity|lia].
  - destruct (IH H Ht) as [f [Hf Hle]]. rewrite Hf.
    destruct (ok_time x) as [tx|].
    + exists (Z.min tx f). split; [reflexivity|lia].
    + exists f. auto.
Qed.

Lemma fastest_time_attained (class_list : list Entry.t) (fastest : Z) :
  fastest_time class_list = Some fastest ->
  exists e, In e class_list /\ ok_time e = Some fastest.
Proof.
  revert fastest. induction class_list as [|x rest IH]; simpl; [discriminate|].
  intros fastest.
  destruct (ok_time x) as [tx|] eqn:Hx.
  - destruct (fastest_time rest) as [f|].
    + intros H. inversion H; subst.
      destruct (Z.min_spec tx f) as [[_ Hm]|[_ Hm]]; rewrite Hm.
      * exists x. auto.
      * destruct (IH f eq_refl) as [e [Hin He]]. exists e. auto.
    + intros H. inversion H; subst. exists x. auto.
  - intros H. destruct (IH _ H) as [e [Hin He]]. exists e. auto.
Qed.

Lemma proportional_1_le (s : Settings) (fastest t : Z) :
  0 <= maximum_points s -> 0 < fastest <= t ->
  le_int (proportional 1 s fastest t) (maximum_points s).
Proof.
  intros Hm Ht. unfold le_int, proportional. cbn [units places].
  rewrite !Z.pow_1_r.
  pose proof (scale_pos (decimal_places s)) as Hs.
  apply div_half_even_le; [lia|]. nia.
Qed.

(** C9: in mode Proportional 1 an [OK] competitor gets
    [maximum_points * fastest_time / time] rounded to [decimal_places]; the
    result is at most [maximum_points], and is [maximum_points] for the
    fastest competitor, who exists. *)
Theorem proportional_1_points (s : Settings) (class_list : list Entry.t)
    (e : Entry.t) (t : Z) :
  mode s = "Proportional 1" ->
  0 <= maximum_points s ->
  (forall e' t', In e' class_list -> ok_time e' = Some t' -> 0 < t') ->
  In e class_list ->
  ok_time e = Some t ->
  exists fastest p,
    fastest_time class_list = Some fastest
    /\ In (e, p) (event_points s class_list)
    /\ places p = decimal_places s
    /\ rounds p (maximum_points s * fastest) t
    /\ le_int p (maximum_points s)
    /\ (t = fastest -> eq_int p (maximum_points s))
    /\ (exists e0 p0, In (e0, p0) (event_points s class_list)
                      /\ ok_time e0 = Some fastest
                      /\ eq_int p0 (maximum_points s))
    /\ (forall e' p', In (e', p') (event_points s class_list) ->
                      le_int p' (maximum_points s)).
Proof.
  intros Hmode Hm Hpos Hin Ht.
  assert (Hk : mode_exponent s = Some 1)
    by (unfold mode_exponent; rewrite Hmode; reflexivity).
  destruct (fastest_time_le _ _ _ Hin Ht) as [f [Hf Hle]].
  destruct (fastest_time_attained _ _ Hf) as [e0 [Hin0 Ht0]].
  pose proof (Hpos _ _ Hin0 Ht0) as Hf0.
  pose proof (Hpos _ _ Hin Ht) as Ht1.
  pose proof (scale_pos (decimal_places s)) as Hs.
  assert (Exact : eq_int (proportional 1 s f f) (maximum_points s)).
  { unfold eq_int, proportional. cbn [units places]. rewrite !Z.pow_1_r.
    replace (maximum_points s * f * scale (decimal_places s))
      with (maximum_points s * scale (decimal_places s) * f) by ring.
    apply div_half_even_exact. exact Hf0. }
  assert (Member : forall x tx, In x class_list -> ok_time x = Some tx ->
                     In (x, proportional 1 s f tx) (event_points s class_list)).
  { intros x tx Hx Htx. unfold event_points. rewrite Hk, Hf.
    apply in_flat_map. exists x. split; [exact Hx|].
    rewrite Htx. left. reflexivity. }
  exists f, (proportional 1 s f t).
  split; [exact Hf|]. split; [exact (Member _ _ Hin Ht)|].
  split; [reflexivity|].
  split.
  { unfold rounds, proportional. cbn [units places]. rewrite !Z.pow_1_r.
    pose proof (div_half_even_rounds
                  (maximum_points s * f * scale (decimal_places s)) t Ht1).
    lia. }
  split; [apply proportional_1_le; [exact Hm|lia]|].
  split; [intros Heq; subst t; exact Exact|].
  split.
  { exists e0, (proportional 1 s f f).
    split; [exact (Member _ _ Hin0 Ht0)|]. split; [exact Ht0|exact Exact]. }
  intros e' p' Hin'. unfold event_points in Hin'. rewrite Hk, Hf in Hin'.
  apply in_flat_map in Hin'. destruct Hin' as [x [Hx Hp]].
  destruct (ok_time x) as [tx|] eqn:Htx; [|contradiction].
  destruct Hp as [Hp|[]]. inversion Hp; subst.
  destruct (fastest_time_le _ _ _ Hx Htx) as [f' [Hf' Hle']].
  rewrite Hf in Hf'. inversion Hf'; subst f'.
  apply proportional_1_le; [exact Hm|lia].
Qed.

Lemma proportional_1_points_witness :
  exists fastest p,
    fastest_time bahn_a_lang = Some fastest
    /\ fastest = 3333
    /\ In (finisher 1 "Angela" "Merkel" 9876, p)
         (event_points series_1 bahn_a_lang)
    /\ rounds p (500 * 3333) 9876
    /\ le_int p 500.
Proof.
  destruct (proportional_1_points series_1 bahn_a_lang
              (finisher 1 "Angela" "Merkel" 9876) 9876)
    as [f [p [Hf [Hin [_ [Hr [Hle _]]]]]]].
  - reflexivity.
  - vm_compute. discriminate.
  - intros e' t' [H|[H|[]]] Ht; subst e'; vm_compute in Ht;
      inversion Ht; reflexivity.
  - left. reflexivity.
  - reflexivity.
  - exists f, p. vm_compute in Hf. inversion Hf; subst f.
    split; [reflexivity|]. split; [reflexivity|].
    split; [exact Hin|]. split; [exact Hr|exact Hle].
Defined.

End SeriesProofs.

(** * Further properties *)

(** ** Reading the card-reader log *)

Section ParseProofs.
Variable schema_valid : LogItem.t -> bool.
Variable parse_date : string -> option datetime.

Lemma and_then_inr {A B} (m : parsed A) (k : A -> parsed B) (b : B) :
  and_then m k = inr b -> exists a, m = inr a /\ k a = inr b.
Proof.
  destruct m as [e|a]; simpl; [discriminate|].
  intros H. exists a. split; [reflexivity|exact H].
Qed.

Lemma required_inr {A} (key : string) (o : option A) (a : A) :
  required key o = inr a -> o = Some a.
Proof. destruct o; simpl; congruence. Qed.

Lemma date_of_inr (s : string) (t : datetime) :
  date_of parse_date s = inr t -> parse_date s = Some t.
Proof. unfold date_of. destruct (parse_date s); congruence. Qed.

Lemma optional_date_inr (o : option string) (t : option datetime) :
  optional_date parse_date o = inr t -> read_as parse_date o t.
Proof.
  destruct o as [s|]; simpl.
  - intros H. apply and_then_inr in H. destruct H as [d [D H]].
    apply date_of_inr in D. inversion H; subst.
    split; [discriminate|exact D].
  - congruence.
Qed.

Lemma parse_punches_rows (ps : list LogPunch.t) (rows : list SplitTime.t) :
  parse_punches parse_date ps = inr rows ->
  Forall2 (punch_row parse_date) ps rows.
Proof.
  revert rows. induction ps as [|p ps IH]; intros rows H; simpl in H.
  - inversion H. constructor.
  - apply and_then_inr in H. destruct H as [code [C H]].
    apply and_then_inr in H. destruct H as [s [S H]].
    apply and_then_inr in H. destruct H as [t [T H]].
    apply and_then_inr in H. destruct H as [rest [R H]].
    apply required_inr in C. apply required_inr in S. apply date_of_inr in T.
    inversion H; subst. constructor; [|apply IH; exact R].
    exists t, s. simpl. repeat split; assumption.
Qed.

(** X1: the message of a [cardRead] log entry carries a result with status
    FINISHED whose start and finish times are the times of the card, both
    as used and as SI times, and whose split times are the punches of the
    log in their order, each an ADDITIONAL row whose used time is its SI
    time. *)
Theorem parsed_card_read (item : LogItem.t) (m : CardReaderMessage.t) :
  parse_cardreader_log schema_valid parse_date item = inr m ->
  LogItem.entryType item = Some "cardRead" ->
  exists r ps,
    CardReaderMessage.result m = Some r
    /\ LogItem.punches item = Some ps
    /\ PersonRaceResult.status r = ResultStatus.FINISHED
    /\ read_as parse_date (LogItem.startTime item)
         (PersonRaceResult.punched_start_time r)
    /\ PersonRaceResult.start_time r = PersonRaceResult.punched_start_time r
    /\ PersonRaceResult.si_punched_start_time r
       = PersonRaceResult.punched_start_time r
    /\ read_as parse_date (LogItem.finishTime item)
         (PersonRaceResult.punched_finish_time r)
    /\ PersonRaceResult.finish_time r = PersonRaceResult.punched_finish_time r
    /\ PersonRaceResult.si_punched_finish_time r
       = PersonRaceResult.punched_finish_time r
    /\ read_as parse_date (LogItem.clearTime item)
         (PersonRaceResult.punched_clear_time r)
    /\ read_as parse_date (LogItem.checkTime item)
         (PersonRaceResult.punched_check_time r)
    /\ PersonRaceResult.time r = None
    /\ Forall2 (punch_row parse_date) ps (PersonRaceResult.split_times r).
Proof.
  intros H T. unfold parse_cardreader_log in H.
  destruct (schema_valid item); simpl in H; [|discriminate].
  rewrite T in H. simpl in H.
  apply and_then_inr in H. destruct H as [s [S H]].
  apply and_then_inr in H. destruct H as [entry_time [_ H]].
  apply and_then_inr in H. destruct H as [clear [Cl H]].
  apply and_then_inr in H. destruct H as [check [Ch H]].
  apply and_then_inr in H. destruct H as [start [St H]].
  apply and_then_inr in H. destruct H as [finish [Fi H]].
  apply and_then_inr in H. destruct H as [ps [P H]].
  apply and_then_inr in H. destruct H as [rows [R H]].
  apply required_inr in P. apply parse_punches_rows in R.
  apply optional_date_inr in Cl, Ch, St, Fi.
  inversion H; subst. exists (PersonRaceResult.mk ResultStatus.FINISHED
    start finish start finish start finish clear check None rows []), ps.
  simpl. repeat split; assumption.
Qed.

(** X2: a log entry is only turned into a message when it passed the
    schema and its entry time was readable; the message has the entry type
    and the control card of the entry, and it carries a result exactly when
    the entry type is [cardRead]. *)
Theorem parsed_message_header (item : LogItem.t) (m : CardReaderMessage.t) :
  parse_cardreader_log schema_valid parse_date item = inr m ->
  schema_valid item = true
  /\ LogItem.entryType item = Some (CardReaderMessage.entry_type m)
  /\ (exists s, LogItem.entryTime item = Some s
                /\ parse_date s = Some (CardReaderMessage.entry_time m))
  /\ CardReaderMessage.control_card m = LogItem.controlCard item
  /\ (CardReaderMessage.result m <> None
      <-> CardReaderMessage.entry_type m = "cardRead").
Proof.
  intros H. unfold parse_cardreader_log in H.
  destruct (schema_valid item); simpl in H; [|discriminate].
  apply and_then_inr in H. destruct H as [entry_type [T H]].
  apply and_then_inr in H. destruct H as [s [S H]].
  apply and_then_inr in H. destruct H as [entry_time [D H]].
  apply required_inr in T. apply required_inr in S. apply date_of_inr in D.
  destruct (String.eqb entry_type "cardRead") eqn:Q.
  - apply String.eqb_eq in Q.
    apply and_then_inr in H. destruct H as [clear [_ H]].
    apply and_then_inr in H. destruct H as [check [_ H]].
    apply and_then_inr in H. destruct H as [start [_ H]].
    apply and_then_inr in H. destruct H as [finish [_ H]].
    apply and_then_inr in H. destruct H as [ps [_ H]].
    apply and_then_inr in H. destruct H as [rows [_ H]].
    inversion H; subst. simpl.
    repeat split; try assumption; try reflexivity; try discriminate.
    exists s. split; assumption.
  - apply String.eqb_neq in Q. inversion H; subst. simpl.
    repeat split; try assumption; try reflexivity.
    + exists s. split; assumption.
    + intros N. exfalso. apply N. reflexivity.
    + intros E. contradiction.
Qed.

End ParseProofs.

Lemma parsed_card_read_witness :
  exists m r ps,
    parse_cardreader_log Scenarios.any_item Scenarios.clock
      Scenarios.card_read_item = inr m
    /\ CardReaderMessage.result m = Some r
    /\ LogItem.punches Scenarios.card_read_item = Some ps
    /\ PersonRaceResult.status r = ResultStatus.FINISHED
    /\ PersonRaceResult.start_time r = Some Fixtures.s1
    /\ Forall2 (punch_row Scenarios.clock) ps
         (PersonRaceResult.split_times r).
Proof.
  eexists.
  edestruct (parsed_card_read Scenarios.any_item Scenarios.clock
               Scenarios.card_read_item _ eq_refl eq_refl)
    as (r & ps & R & P & S & _ & St & _ & _ & _ & _ & _ & _ & _ & F).
  exists r, ps. split; [reflexivity|].
  split; [exact R|]. split; [exact P|]. split; [exact S|].
  split; [|exact F].
  rewrite St. simpl in R. inversion R. reflexivity.
Defined.

Lemma parsed_message_header_witness :
  exists m,
    parse_cardreader_log Scenarios.any_item Scenarios.clock
      Scenarios.card_read_item = inr m
    /\ CardReaderMessage.entry_type m = "cardRead"
    /\ CardReaderMessage.control_card m = Some "9876"
    /\ CardReaderMessage.result m <> None.
Proof.
  eexists.
  edestruct (parsed_message_header Scenarios.any_item Scenarios.clock
               Scenarios.card_read_item _ eq_refl)
    as (_ & _ & _ & C & R).
  split; [reflexivity|]. split; [reflexivity|].
  split; [exact C|]. apply R. reflexivity.
Defined.

(** ** More on ingestion *)

Section Ingestion.
Context {E : ResultEngine}.

Lemma other_message_run (event_key : string) (item : CardReaderMessage.t)
    (w : world) (ev : Event.t) :
  find (key_matches event_key) (Store.events (w_db w)) = Some ev ->
  CardReaderMessage.entry_type item <> "cardRead" ->
  store_cardreader_result event_key item w =
  (Ok (CardReaderMessage.entry_type item, ev,
       if String.eqb (CardReaderMessage.entry_type item) "cardInserted"
       then [("eventId", VInt (Event.id ev));
             ("controlCard", v_str (CardReaderMessage.control_card item))]
       else [("eventId", VInt (Event.id ev))]),
   mk_world (w_db w) (w_log w ++ [TxBegin IMMEDIATE; TxCommit])).
Proof.
  intros F T. apply String.eqb_neq in T.
  unfold store_cardreader_result. unfold bind at 1.
  rewrite in_event_run, F, T. unfold bind at 1.
  unfold committed, opened.
  destruct (Event.light ev);
    destruct (String.eqb (CardReaderMessage.entry_type item) "cardInserted");
    cbv [bind ret w_db w_log fst snd]; rewrite <- app_assoc; reflexivity.
Qed.

(** X3: a message other than [cardRead] resolves the event and answers,
    and nothing else: the store is as before, the transaction is committed
    and the cache is not touched.  The answer names the event; it names the
    control card exactly when the message is [cardInserted]; it has no
    other key. *)
Theorem other_messages_change_nothing (event_key : string)
    (item : CardReaderMessage.t) (w : world) (ev : Event.t) :
  find (key_matches event_key) (Store.events (w_db w)) = Some ev ->
  CardReaderMessage.entry_type item <> "cardRead" ->
  exists res w',
    store_cardreader_result event_key item w
    = (Ok (CardReaderMessage.entry_type item, ev, res), w')
    /\ w_db w' = w_db w
    /\ w_log w' = (w_log w ++ [TxBegin IMMEDIATE; TxCommit])%list
    /\ dict_get "eventId" res = Some (VInt (Event.id ev))
    /\ (CardReaderMessage.entry_type item = "cardInserted" ->
        dict_get "controlCard" res
        = Some (v_str (CardReaderMessage.control_card item))
        /\ List.length res = 2%nat)
    /\ (CardReaderMessage.entry_type item <> "cardInserted" ->
        List.length res = 1%nat).
Proof.
  intros F T. rewrite (other_message_run event_key item w ev F T).
  eexists. eexists. split; [reflexivity|].
  split; [reflexivity|]. split; [reflexivity|].
  destruct (String.eqb (CardReaderMessage.entry_type item) "cardInserted")
    eqn:Q.
  - split; [reflexivity|]. split; [intros _; split; reflexivity|].
    apply String.eqb_eq in Q. intros N. contradiction.
  - split; [reflexivity|]. apply String.eqb_neq in Q.
    split; [intros Y; contradiction|]. intros _. reflexivity.
Qed.

(** What a card read does to the store of a light event: nothing when the
    card has an entry, and otherwise one row more, for the event and the
    card. *)
Lemma light_card_read_cases (ev : Event.t) (item : CardReaderMessage.t)
    (r : PersonRaceResult.t) (w : world) :
  let db := w_db w in
  let chip := CardReaderMessage.control_card item in
  CardReaderMessage.result item = Some r ->
  (card_entries db (Event.id ev) chip <> []
   /\ exists res,
        light_card_read ev item w = (Ok res, w)
        /\ dict_get "light_status" res = Some (VStr "second_reading"))
  \/ (card_entries db (Event.id ev) chip = []
      /\ exists res row log,
           light_card_read ev item w
           = (Ok res,
              mk_world (Store.set_entries (Store.entries db ++ [row]) db) log)
           /\ EntryRow.id row = fresh_id (map EntryRow.id (Store.entries db))
           /\ EntryRow.event_id row = Event.id ev
           /\ EntryRow.chip row = chip).
Proof.
  intros db chip R.
  unfold light_card_read. unfold bind at 1. rewrite R. simpl.
  unfold bind at 1. unfold get_entries. unfold_monad. simpl.
  fold db. fold chip. unfold card_entries.
  destruct (filter (chip_is chip) (entries_of db (Event.id ev))) as [|x xs].
  - right. split; [reflexivity|].
    unfold get_competitor_by_chip. unfold_monad. simpl. fold db.
    destruct (competitor_by_chip db chip) as [competitor|].
    + unfold get_classes. unfold_monad. simpl.
      rewrite match_classes_run. simpl. fold db.
      destruct (flat_map _ _) as [|[class_ mr] [|m2 rest]].
      * unfold add_entry_result, add_entry. unfold_monad. simpl.
        eexists. eexists. eexists. split; [reflexivity|].
        repeat split; reflexivity.
      * change (w_db w) with db.
        rewrite get_entry_added by reflexivity.
        eexists. eexists. eexists. split; [reflexivity|].
        repeat split; reflexivity.
      * unfold add_entry_result, add_entry. unfold_monad. simpl.
        eexists. eexists. eexists. split; [reflexivity|].
        repeat split; reflexivity.
    + unfold add_entry_result, add_entry. unfold_monad. simpl.
      eexists. eexists. eexists. split; [reflexivity|].
      repeat split; reflexivity.
  - left. split; [discriminate|].
    eexists. split; reflexivity.
Qed.

(** X4: in a light event, a card that has no entry and belongs to no
    competitor is stored as an unassigned entry, computed without controls
    and with the default class parameters; the answer is [unassigned] with
    the error "Control card unknown", and the cache is not touched. *)
Theorem light_unknown_card (event_key : string) (item : CardReaderMessage.t)
    (w : world) (ev : Event.t) (r : PersonRaceResult.t) :
  let db := w_db w in
  let chip := CardReaderMessage.control_card item in
  let result := compute_result [] ClassParams_default None None None r in
  find (key_matches event_key) (Store.events db) = Some ev ->
  Event.light ev = true ->
  CardReaderMessage.entry_type item = "cardRead" ->
  CardReaderMessage.result item = Some r ->
  card_entries db (Event.id ev) chip = [] ->
  competitor_by_chip db chip = None ->
  exists res,
    store_cardreader_result event_key item w
    = (Ok ("cardRead", ev, res),
       mk_world (with_unassigned db (Event.id ev) chip result)
         (w_log w ++ [TxBegin IMMEDIATE; TxCommit]))
    /\ dict_get "light_status" res = Some (VStr "unassigned")
    /\ dict_get "error" res = Some (VStr "Control card unknown")
    /\ dict_get "status" res = Some (VStatus (PersonRaceResult.status result))
    /\ dict_get "class" res = Some VNone.
Proof.
  intros db chip result F L T R C K.
  rewrite (card_read_run _ _ _ _ F T), L.
  unfold light_card_read. unfold bind at 1. rewrite R. simpl.
  unfold bind at 1. unfold get_entries. unfold_monad. simpl.
  fold db. fold chip. unfold card_entries in C. rewrite C.
  unfold get_competitor_by_chip. unfold_monad. simpl. fold db. rewrite K.
  unfold add_entry_result, add_entry. unfold_monad. simpl.
  eexists. split.
  - unfold committed, with_unassigned, unassigned_row. simpl.
    rewrite <- app_assoc. reflexivity.
  - repeat split; reflexivity.
Qed.

(** X5: whatever the message, ingestion into a light event is append-only:
    afterwards the store is as before, or it holds one more entry, for the
    event and the card of the message, under an id above every id in use.
    No entry is changed or deleted, and no other table is written. *)
Theorem light_ingestion_appends (event_key : string)
    (item : CardReaderMessage.t) (w : world) (ev : Event.t) :
  let db := w_db w in
  let db' := w_db (snd (store_cardreader_result event_key item w)) in
  find (key_matches event_key) (Store.events db) = Some ev ->
  Event.light ev = true ->
  db' = db
  \/ exists row,
       db' = Store.set_entries (Store.entries db ++ [row]) db
       /\ EntryRow.event_id row = Event.id ev
       /\ EntryRow.chip row = CardReaderMessage.control_card item
       /\ forall old, In old (Store.entries db) ->
                      EntryRow.id old < EntryRow.id row.
Proof.
  intros db db' F L. subst db'.
  destruct (String.eqb (CardReaderMessage.entry_type item) "cardRead") eqn:T.
  - apply String.eqb_eq in T.
    rewrite (card_read_run _ _ _ _ F T), L.
    destruct (CardReaderMessage.result item) as [r|] eqn:R.
    + destruct (light_card_read_cases ev item r (opened IMMEDIATE w) R)
        as [[_ [res [Run _]]]|[_ [res [row [log [Run [I [Ev Ch]]]]]]]];
        rewrite Run; simpl.
      * left. reflexivity.
      * right. exists row. split; [reflexivity|].
        split; [exact Ev|]. split; [exact Ch|].
        intros old Hin. rewrite I. apply fresh_id_above.
        apply in_map. exact Hin.
    + left. unfold light_card_read. unfold bind at 1. rewrite R. reflexivity.
  - apply String.eqb_neq in T.
    rewrite (other_message_run event_key item w ev F T).
    left. reflexivity.
Qed.

(** X6: in a light event a card is stored once: after a card read that
    carried a result, every further read of the same card into the event
    answers [second_reading] and leaves the store as the first read left
    it, whatever the second read holds. *)
Theorem light_card_read_once (event_key : string)
    (item1 item2 : CardReaderMessage.t) (w : world) (ev : Event.t)
    (r1 r2 : PersonRaceResult.t) :
  let w1 := snd (store_cardreader_result event_key item1 w) in
  find (key_matches event_key) (Store.events (w_db w)) = Some ev ->
  Event.light ev = true ->
  CardReaderMessage.entry_type item1 = "cardRead" ->
  CardReaderMessage.result item1 = Some r1 ->
  CardReaderMessage.entry_type item2 = "cardRead" ->
  CardReaderMessage.result item2 = Some r2 ->
  CardReaderMessage.control_card item2 = CardReaderMessage.control_card item1 ->
  exists res w2,
    store_cardreader_result event_key item2 w1
    = (Ok ("cardRead", ev, res), w2)
    /\ dict_get "light_status" res = Some (VStr "second_reading")
    /\ w_db w2 = w_db w1.
Proof.
  intros w1 F L T1 R1 T2 R2 C.
  assert (S1 : Store.events (w_db w1) = Store.events (w_db w)
               /\ card_entries (w_db w1) (Event.id ev)
                    (CardReaderMessage.control_card item1) <> []).
  { subst w1. rewrite (card_read_run _ _ _ _ F T1), L.
    destruct (light_card_read_cases ev item1 r1 (opened IMMEDIATE w) R1)
      as [[N [res [Run _]]]|[_ [res [row [log [Run [I [Ev Ch]]]]]]]];
      rewrite Run; simpl.
    - split; [reflexivity|exact N].
    - split; [reflexivity|].
      apply (card_entries_nonempty _ _ _ row); [|exact Ev|exact Ch].
      simpl. apply in_or_app. right. left. reflexivity. }
  destruct S1 as [Evs N].
  assert (F1 : find (key_matches event_key) (Store.events (w_db w1)) = Some ev)
    by (rewrite Evs; exact F).
  rewrite (card_read_run _ _ _ _ F1 T2), L.
  destruct (light_card_read_cases ev item2 r2 (opened IMMEDIATE w1) R2)
    as [[_ [res [Run S]]]|[Nil _]].
  - rewrite Run. exists res. eexists. split; [reflexivity|].
    split; [exact S|reflexivity].
  - exfalso. apply N. rewrite <- C. exact Nil.
Qed.

(** X7: in a standard event, a card read whose SI punches are those of an
    assigned entry of the card changes nothing: no row is written, the
    cache is not touched, and the answer reports that entry with the
    result it already has, without error. *)
Theorem standard_duplicate_reading (event_key : string)
    (item : CardReaderMessage.t) (w : world) (ev : Event.t)
    (r : PersonRaceResult.t) :
  let db := w_db w in
  let chip := CardReaderMessage.control_card item in
  let assigned := assigned_of db (Event.id ev) chip in
  find (key_matches event_key) (Store.events db) = Some ev ->
  Event.light ev = false ->
  CardReaderMessage.entry_type item = "cardRead" ->
  CardReaderMessage.result item = Some r ->
  duplicates_assigned assigned r ->
  exists res a,
    store_cardreader_result event_key item w
    = (Ok ("cardRead", ev, res),
       mk_world db (w_log w ++ [TxBegin IMMEDIATE; TxCommit]))
    /\ In a assigned
    /\ same_si_punches (Entry.result a) r = true
    /\ dict_get "controlCard" res = Some (v_str (Entry.chip a))
    /\ dict_get "firstName" res = Some (v_str (Entry.first_name a))
    /\ dict_get "lastName" res = Some (v_str (Entry.last_name a))
    /\ dict_get "class" res = Some (v_str (Entry.class_name a))
    /\ dict_get "status" res
       = Some (VStatus (PersonRaceResult.status (Entry.result a)))
    /\ dict_get "time" res = Some (v_int (running_time (Entry.result a)))
    /\ dict_get "error" res = Some VNone
    /\ dict_get "missingControls" res
       = Some (VList (missing_controls (Entry.result a))).
Proof.
  intros db chip assigned F L T R D.
  rewrite (card_read_run _ _ _ _ F T), L.
  destruct (find (same_as r) assigned) as [a|] eqn:Fa.
  - unfold standard_card_read. unfold bind at 1. rewrite R. simpl.
    unfold bind at 1. unfold get_entries. unfold bind at 1.
    unfold get_db at 1, ret at 1.
    change (filter (fun e => opt_is_some (Entry.class_name e))
              (filter (chip_is (CardReaderMessage.control_card item))
                 (entries_of (w_db (opened IMMEDIATE w)) (Event.id ev))))
      with assigned.
    rewrite Fa. apply find_some in Fa. destruct Fa as [Hin S].
    eexists. exists a. split.
    + unfold ret, committed, opened. simpl. rewrite <- app_assoc. reflexivity.
    + split; [exact Hin|]. split; [exact S|]. repeat split; reflexivity.
  - exfalso. destruct D as [a [Hin S]].
    rewrite (proj1 (find_same_none_iff _ _) Fa a Hin) in S. discriminate.
Qed.

End Ingestion.

Lemma other_messages_change_nothing_witness :
  exists res w',
    store_cardreader_result (E:=SampleEngine.engine) "4711"
      (CardReaderMessage.mk "cardInserted" Fixtures.entry_time (Some "9876")
         None)
      (Fixtures.start_of Fixtures.light_db)
    = (Ok ("cardInserted", Fixtures.light_event, res), w')
    /\ w_db w' = Fixtures.light_db
    /\ List.length res = 2%nat.
Proof.
  destruct (other_messages_change_nothing (E:=SampleEngine.engine) "4711"
              (CardReaderMessage.mk "cardInserted" Fixtures.entry_time
                 (Some "9876") None)
              (Fixtures.start_of Fixtures.light_db) Fixtures.light_event
              eq_refl)
    as (res & w' & Run & D & _ & _ & C & _).
  - discriminate.
  - exists res, w'. split; [exact Run|]. split; [exact D|].
    apply C. reflexivity.
Defined.

Lemma light_unknown_card_witness :
  exists res w',
    store_cardreader_result (E:=SampleEngine.engine) "4711"
      (Fixtures.card_read "5555" Fixtures.ok_result)
      (Fixtures.start_of Fixtures.light_db)
    = (Ok ("cardRead", Fixtures.light_event, res), w')
    /\ dict_get "error" res = Some (VStr "Control card unknown")
    /\ List.length (Store.entries (w_db w')) = 1%nat.
Proof.
  destruct (light_unknown_card (E:=SampleEngine.engine) "4711"
              (Fixtures.card_read "5555" Fixtures.ok_result)
              (Fixtures.start_of Fixtures.light_db) Fixtures.light_event
              Fixtures.ok_result eq_refl eq_refl eq_refl eq_refl eq_refl
              eq_refl)
    as (res & Run & _ & Err & _).
  exists res. eexists. split; [exact Run|]. split; [exact Err|reflexivity].
Defined.

Lemma light_ingestion_appends_witness :
  let db := Fixtures.light_db in
  let db' := w_db (snd (store_cardreader_result (E:=SampleEngine.engine)
                          "4711"
                          (Fixtures.card_read "9876" Fixtures.ok_result)
                          (Fixtures.start_of Fixtures.light_db))) in
  db' = db
  \/ exists row,
       db' = Store.set_entries (Store.entries db ++ [row]) db
       /\ EntryRow.event_id row = 1
       /\ EntryRow.chip row = Some "9876"
       /\ forall old, In old (Store.entries db) ->
                      EntryRow.id old < EntryRow.id row.
Proof.
  exact (light_ingestion_appends (E:=SampleEngine.engine) "4711"
           (Fixtures.card_read "9876" Fixtures.ok_result)
           (Fixtures.start_of Fixtures.light_db) Fixtures.light_event
           eq_refl eq_refl).
Defined.

Lemma light_card_read_once_witness :
  exists res w2,
    store_cardreader_result (E:=SampleEngine.engine) "4711"
      (Fixtures.card_read "9876" Fixtures.missing_punch_result)
      (snd (store_cardreader_result (E:=SampleEngine.engine) "4711"
              (Fixtures.card_read "9876" Fixtures.ok_result)
              (Fixtures.start_of Fixtures.light_db)))
    = (Ok ("cardRead", Fixtures.light_event, res), w2)
    /\ dict_get "light_status" res = Some (VStr "second_reading")
    /\ List.length (Store.entries (w_db w2)) = 1%nat.
Proof.
  destruct (light_card_read_once (E:=SampleEngine.engine) "4711"
              (Fixtures.card_read "9876" Fixtures.ok_result)
              (Fixtures.card_read "9876" Fixtures.missing_punch_result)
              (Fixtures.start_of Fixtures.light_db) Fixtures.light_event
              Fixtures.ok_result Fixtures.missing_punch_result
              eq_refl eq_refl eq_refl eq_refl eq_refl eq_refl eq_refl)
    as (res & w2 & Run & S & D).
  exists res, w2. split; [exact Run|]. split; [exact S|].
  rewrite D. reflexivity.
Defined.

Lemma standard_duplicate_reading_witness :
  exists res w',
    store_cardreader_result (E:=SampleEngine.engine) "4711"
      (Fixtures.card_read "4711" Fixtures.ok_result)
      (Fixtures.start_of Scenarios.read_twice_db)
    = (Ok ("cardRead", Fixtures.standard_event, res), w')
    /\ w_db w' = Scenarios.read_twice_db
    /\ dict_get "status" res = Some (VStatus ResultStatus.OK)
    /\ dict_get "class" res = Some (VStr "Elite").
Proof.
  destruct (standard_duplicate_reading (E:=SampleEngine.engine) "4711"
              (Fixtures.card_read "4711" Fixtures.ok_result)
              (Fixtures.start_of Scenarios.read_twice_db)
              Fixtures.standard_event Fixtures.ok_result
              eq_refl eq_refl eq_refl eq_refl)
    as (res & a & Run & Hin & _ & _ & _ & _ & Cl & St & _).
  - eexists. split; [left; reflexivity|reflexivity].
  - destruct Hin as [Ha|[]]. subst a.
    exists res. eexists. split; [exact Run|]. split; [reflexivity|].
    split; [exact St|exact Cl].
Defined.

(** ** What the operations leave alone *)

Section Frame.
Variable P : Store.t -> Store.t -> Prop.
Hypothesis P_refl : forall db, P db db.
Hypothesis P_trans : forall a b c, P a b -> P b c -> P a c.

Lemma keeps_ret {A} (a : A) : keeps P (ret a).
Proof. intros w. apply P_refl. Qed.

Lemma keeps_raise {A} (e : exn) : keeps P (@raise A e).
Proof. intros w. apply P_refl. Qed.

Lemma keeps_get_db : keeps P get_db.
Proof. intros w. apply P_refl. Qed.

Lemma keeps_of_option {A} (e : exn) (o : option A) : keeps P (of_option e o).
Proof. intros w. destruct o; apply P_refl. Qed.

Lemma keeps_clear_cache (a b : option Z) : keeps P (clear_cache a b).
Proof. intros w. apply P_refl. Qed.

Lemma keeps_bind {A B} (m : M A) (k : A -> M B) :
  keeps P m -> (forall a, keeps P (k a)) -> keeps P (bind m k).
Proof.
  intros Hm Hk w. specialize (Hm w). unfold bind.
  destruct (m w) as [[a|e] w1]; simpl in *.
  - apply (P_trans _ _ _ Hm). apply Hk.
  - exact Hm.
Qed.

Lemma keeps_try {A} (m : M A) (h : exn -> M A) :
  keeps P m -> (forall e, keeps P (h e)) -> keeps P (try_except m h).
Proof.
  intros Hm Hh w. specialize (Hm w). unfold try_except.
  destruct (m w) as [[a|e] w1]; simpl in *.
  - exact Hm.
  - apply (P_trans _ _ _ Hm). apply Hh.
Qed.

Lemma keeps_transaction {A} (mode : TransactionMode) (body : M A) :
  keeps P body -> keeps P (transaction mode body).
Proof.
  intros Hb w. specialize (Hb (opened mode w)). rewrite transaction_run.
  destruct (body (opened mode w)) as [[a|e] w1]; simpl in *.
  - exact Hb.
  - apply P_refl.
Qed.

Lemma keeps_for_each {A} (l : list A) (body : A -> M unit) :
  (forall x, keeps P (body x)) -> keeps P (for_each l body).
Proof.
  intros Hb. induction l as [|x l IH]; simpl.
  - apply keeps_ret.
  - apply keeps_bind; [apply Hb|intros _; exact IH].
Qed.

(** A write: the new store is computed from the one read. *)
Lemma keeps_write {A} (f : Store.t -> Store.t) (g : Store.t -> A) :
  (forall db, P db (f db)) ->
  keeps P (db <- get_db ;; put_db (f db) ;;; ret (g db)).
Proof. intros H w. apply H. Qed.

Lemma keeps_put (f : Store.t -> Store.t) :
  (forall db, P db (f db)) -> keeps P (db <- get_db ;; put_db (f db)).
Proof. intros H w. apply H. Qed.

End Frame.

Lemma same_setup_refl (db : Store.t) : same_setup db db.
Proof. repeat split. Qed.

Lemma same_setup_trans (a b c : Store.t) :
  same_setup a b -> same_setup b c -> same_setup a c.
Proof.
  intros [H1 [H2 [H3 H4]]] [K1 [K2 [K3 K4]]].
  repeat split; congruence.
Qed.

Lemma same_but_entries_refl (db : Store.t) : same_but_entries db db.
Proof. split; [apply same_setup_refl|reflexivity]. Qed.

Lemma same_but_entries_trans (a b c : Store.t) :
  same_but_entries a b -> same_but_entries b c -> same_but_entries a c.
Proof.
  intros [H1 H2] [K1 K2].
  split; [exact (same_setup_trans _ _ _ H1 K1)|congruence].
Qed.

Lemma set_entries_same (db : Store.t) (rows : list EntryRow.t) :
  same_but_entries db (Store.set_entries rows db).
Proof. repeat split. Qed.

Lemma set_competitors_same (db : Store.t) (cs : list Competitor.t) :
  same_setup db (Store.set_competitors cs db).
Proof. repeat split. Qed.

Lemma keeps_setup_of_entries {A} (m : M A) :
  keeps same_but_entries m -> keeps same_setup m.
Proof. intros H w. exact (proj1 (H w)). Qed.

(** The writes of the store. *)
Lemma keeps_add_entry event_id competitor_id class_id club_id not_competing
    chip fields result start :
  keeps same_but_entries
    (add_entry event_id competitor_id class_id club_id not_competing chip
       fields result start).
Proof. intros w. apply set_entries_same. Qed.

Lemma keeps_update_entry id class_id club_id not_competing chip fields result
    start :
  keeps same_but_entries
    (update_entry id class_id club_id not_competing chip fields result start).
Proof. intros w. apply set_entries_same. Qed.

Lemma keeps_update_entry_result id chip result start :
  keeps same_but_entries (update_entry_result id chip result start).
Proof. intros w. apply set_entries_same. Qed.

Lemma keeps_delete_entry id : keeps same_but_entries (delete_entry id).
Proof. intros w. apply set_entries_same. Qed.

Lemma keeps_add_competitor first_name last_name club_id gender year chip :
  keeps same_setup
    (add_competitor first_name last_name club_id gender year chip).
Proof. intros w. apply set_competitors_same. Qed.

Lemma keeps_update_competitor id first_name last_name club_id gender year
    chip :
  keeps same_setup
    (update_competitor id first_name last_name club_id gender year chip).
Proof. intros w. apply set_competitors_same. Qed.

Ltac keeps_write :=
  first
    [ apply keeps_add_entry
    | apply keeps_update_entry
    | apply keeps_update_entry_result
    | apply keeps_delete_entry
    | apply keeps_add_competitor
    | apply keeps_update_competitor
    | apply keeps_setup_of_entries;
      first [ apply keeps_add_entry
            | apply keeps_update_entry
            | apply keeps_update_entry_result
            | apply keeps_delete_entry ] ].

Ltac keeps_step R T :=
  match goal with
  | |- keeps _ (bind _ _) => apply (keeps_bind _ T); [|intros]
  | |- keeps _ (try_except _ _) => apply (keeps_try _ T); [|intros]
  | |- keeps _ (transaction _ _) => apply (keeps_transaction _ R)
  | |- keeps _ (for_each _ _) => apply (keeps_for_each _ R T); intros
  | |- keeps _ (ret _) => apply (keeps_ret _ R)
  | |- keeps _ (raise _) => apply (keeps_raise _ R)
  | |- keeps _ get_db => apply (keeps_get_db _ R)
  | |- keeps _ (clear_cache _ _) => apply (keeps_clear_cache _ R)
  | |- keeps _ (of_option _ _) => apply (keeps_of_option _ R)
  | |- keeps _ (match ?x with _ => _ end) => destruct x
  | |- keeps _ (if ?x then _ else _) => destruct x
  | |- keeps _ (let _ := _ in _) => cbv zeta
  | |- _ => keeps_write
  end.

(** The reads of the store. *)
Ltac keeps_reads :=
  unfold class_course, find_event, add_entry_result;
  unfold get_events, get_event, get_entries, get_entry, get_classes,
    get_class, get_course, get_club, get_competitor, get_competitor_by_name,
    get_competitor_by_chip.

Ltac keeps_entries :=
  keeps_reads;
  repeat keeps_step same_but_entries_refl same_but_entries_trans.

Ltac keeps_setup :=
  keeps_reads;
  repeat keeps_step same_setup_refl same_setup_trans.

Section FrameResults.
Context {E : ResultEngine}.

Lemma keeps_match_classes P classes result competitor :
  (forall db, P db db) -> keeps P (match_classes classes result competitor).
Proof. intros R w. rewrite match_classes_run. apply R. Qed.

Lemma keeps_light_card_read ev item :
  keeps same_but_entries (light_card_read ev item).
Proof.
  unfold light_card_read. keeps_entries.
  all: try (apply keeps_match_classes; exact same_but_entries_refl).
Qed.

Lemma keeps_standard_card_read ev item :
  keeps same_but_entries (standard_card_read ev item).
Proof. unfold standard_card_read. keeps_entries. Qed.

(** X8: ingestion and name assignment never write the set-up of an event.
    [store_cardreader_result] leaves events, courses, classes, clubs and
    competitors as they are, whatever the key and the message and whether
    it returns or raises; [assign_name_to_light_entry] leaves events,
    courses, classes and clubs as they are. *)
Theorem ingestion_keeps_setup (event_key : string) (w : world) :
  (forall item,
     same_but_entries (w_db w)
       (w_db (snd (store_cardreader_result event_key item w))))
  /\ (forall chip first_name last_name,
        same_setup (w_db w)
          (w_db (snd (assign_name_to_light_entry event_key chip first_name
                        last_name w)))).
Proof.
  split.
  - intros item. revert w.
    change (keeps same_but_entries (store_cardreader_result event_key item)).
    unfold store_cardreader_result.
    apply (keeps_bind _ same_but_entries_trans);
      [|intros; apply (keeps_ret _ same_but_entries_refl)].
    apply (keeps_transaction _ same_but_entries_refl).
    apply (keeps_bind _ same_but_entries_trans); [keeps_entries|intros ev].
    apply (keeps_bind _ same_but_entries_trans);
      [|intros; apply (keeps_ret _ same_but_entries_refl)].
    destruct (Event.light ev);
      destruct (String.eqb (CardReaderMessage.entry_type item) "cardRead");
      try apply keeps_light_card_read; try apply keeps_standard_card_read;
      keeps_entries.
  - intros chip first_name last_name. revert w.
    change (keeps same_setup
              (assign_name_to_light_entry event_key chip first_name
                 last_name)).
    unfold assign_name_to_light_entry. keeps_setup.
    all: try (apply keeps_match_classes; exact same_setup_refl).
Qed.

End FrameResults.

(** ** Assigning a name to a card *)

Section AssignName.
Context {E : ResultEngine}.

Lemma card_entries_rows (db : Store.t) (event_id : Z) (chip : option string) :
  card_entries db event_id chip
  = map (join_entry db) (filter (card_row event_id chip) (Store.entries db)).
Proof.
  unfold card_entries, entries_of, rows_of.
  induction (Store.entries db) as [|r rows IH]; [reflexivity|].
  simpl. unfold card_row at 1.
  destruct (EntryRow.event_id r =? event_id); simpl; [|exact IH].
  unfold chip_is at 1. simpl.
  destruct (opt_eqb String.eqb (EntryRow.chip r) chip); simpl;
    rewrite IH; reflexivity.
Qed.

Lemma without_entry_set (db : Store.t) (rows : list EntryRow.t) (id : Z) :
  without_entry (Store.set_entries rows db) id
  = Store.set_entries (filter (fun r => negb (EntryRow.id r =? id)) rows) db.
Proof. reflexivity. Qed.

Lemma filter_filter {A} (f g : A -> bool) (l : list A) :
  filter f (filter g l) = filter (fun x => g x && f x) l.
Proof.
  induction l as [|x l IH]; [reflexivity|].
  simpl. destruct (g x); simpl; [destruct (f x)|]; rewrite IH; reflexivity.
Qed.

Lemma for_each_delete_run (l : list Entry.t) (db : Store.t)
    (rows : list EntryRow.t) (log : list effect) :
  for_each l (fun e => delete_entry (Entry.id e))
    (mk_world (Store.set_entries rows db) log)
  = (Ok tt,
     mk_world
       (Store.set_entries
          (filter (fun r => negb (existsb (Z.eqb (EntryRow.id r))
                                    (map Entry.id l)))
             rows)
          db)
       log).
Proof.
  revert rows. induction l as [|e l IH]; intros rows.
  - simpl. unfold ret. f_equal. f_equal. f_equal.
    symmetry. apply forallb_filter_id. apply forallb_forall. reflexivity.
  - simpl for_each. unfold bind at 1. unfold delete_entry.
    unfold bind at 1. unfold get_db at 1, put_db at 1. cbn [w_db w_log].
    rewrite without_entry_set, IH. f_equal. f_equal. f_equal.
    rewrite filter_filter. apply filter_ext. intros r. simpl.
    rewrite negb_orb. reflexivity.
Qed.

Lemma set_entries_id (db : Store.t) : Store.set_entries (Store.entries db) db = db.
Proof. destruct db. reflexivity. Qed.

Lemma no_card_row_left (db : Store.t) (event_id : Z) (chip : option string) :
  filter (card_row event_id chip)
    (Store.entries
       (without_entries db (map Entry.id (card_entries db event_id chip))))
  = [].
Proof.
  destruct (filter _ _) as [|r rest] eqn:Q; [reflexivity|exfalso].
  assert (I : In r (r :: rest)) by (left; reflexivity).
  rewrite <- Q in I. apply filter_In in I. destruct I as [I C].
  simpl in I. apply filter_In in I. destruct I as [I N].
  apply negb_true_iff in N.
  assert (X : existsb (Z.eqb (EntryRow.id r))
                (map Entry.id (card_entries db event_id chip)) = true).
  { apply existsb_exists. exists (EntryRow.id r).
    split; [|apply Z.eqb_refl].
    rewrite card_entries_rows, map_map. simpl.
    apply in_map. apply filter_In. split; assumption. }
  congruence.
Qed.

Lemma find_competitor_fresh (cs : list Competitor.t) (c : Competitor.t) :
  Competitor.id c = fresh_id (map Competitor.id cs) ->
  find (fun x => Competitor.id x =? fresh_id (map Competitor.id cs))
    (cs ++ [c]) = Some c.
Proof.
  intros Hid.
  assert (G : forall l, (forall x, In x l ->
                           Competitor.id x <> fresh_id (map Competitor.id cs)) ->
              find (fun x => Competitor.id x =? fresh_id (map Competitor.id cs))
                (l ++ [c]) = Some c).
  { induction l as [|y l IH]; intros H; simpl.
    - rewrite Hid, Z.eqb_refl. reflexivity.
    - destruct (Competitor.id y =? _) eqn:Q.
      + apply Z.eqb_eq in Q. exfalso. apply (H y); [left; reflexivity|exact Q].
      + apply IH. intros x Hx. apply H. right. exact Hx. }
  apply G. intros x Hx Q.
  pose proof (fresh_id_above (map Competitor.id cs) (Competitor.id x)
                (in_map _ _ _ Hx)).
  lia.
Qed.

Lemma find_app_none {A} (f : A -> bool) (l : list A) (x : A) :
  find f l = None -> f x = true -> find f (l ++ [x]) = Some x.
Proof.
  intros N T. induction l as [|y l IH]; simpl in *.
  - rewrite T. reflexivity.
  - destruct (f y); [discriminate|]. apply IH. exact N.
Qed.

(** After [update_competitor] on the competitor found by name, with its own
    name: the rows that took the update are all the same record, and the
    first row of the name is one of them. *)
Lemma find_named_updated (first_name last_name : string)
    (cs : list Competitor.t) (c c' : Competitor.t) :
  find (named first_name last_name) cs = Some c ->
  named first_name last_name c' = true ->
  Competitor.id c' = Competitor.id c ->
  let upd := fun x => if Competitor.id x =? Competitor.id c then c' else x in
  find (named first_name last_name) (map upd cs) = Some c'
  /\ find (fun x => Competitor.id x =? Competitor.id c) (map upd cs) = Some c'.
Proof.
  intros F N I upd. split.
  - induction cs as [|y cs IH]; simpl in *; [discriminate|].
    destruct (Competitor.id y =? Competitor.id c) eqn:Q.
    + assert (U : upd y = c') by (unfold upd; rewrite Q; reflexivity).
      rewrite U, N. reflexivity.
    + assert (U : upd y = y) by (unfold upd; rewrite Q; reflexivity).
      rewrite U. destruct (named first_name last_name y) eqn:Ny.
      * inversion F; subst. rewrite Z.eqb_refl in Q. discriminate.
      * apply IH. exact F.
  - apply find_some in F. destruct F as [Hin _].
    induction cs as [|y cs IH]; simpl in *; [contradiction|].
    destruct (Competitor.id y =? Competitor.id c) eqn:Q.
    + assert (U : upd y = c') by (unfold upd; rewrite Q; reflexivity).
      rewrite U, I, Z.eqb_refl. reflexivity.
    + assert (U : upd y = y) by (unfold upd; rewrite Q; reflexivity).
      rewrite U, Q. destruct Hin as [Hy|Hin].
      * subst y. rewrite Z.eqb_refl in Q. discriminate.
      * apply IH. exact Hin.
Qed.

Lemma delete_entries_run (l : list Entry.t) (w : world) :
  for_each l (fun e => delete_entry (Entry.id e)) w
  = (Ok tt, mk_world (without_entries (w_db w) (map Entry.id l)) (w_log w)).
Proof.
  destruct w as [db log]. cbn [w_db w_log].
  rewrite <- (set_entries_id db) at 1. rewrite for_each_delete_run.
  reflexivity.
Qed.

Lemma assign_name_run (event_key chip first_name last_name : string)
    (w : world) (ev : Event.t) (e0 : Entry.t) (rest : list Entry.t) :
  let db := w_db w in
  let db1 := without_entries db (map Entry.id (e0 :: rest)) in
  find (key_matches event_key) (Store.events db) = Some ev ->
  card_entries db (Event.id ev) (Some chip) = e0 :: rest ->
  exists res competitor row cs log,
    assign_name_to_light_entry event_key chip first_name last_name w
    = (Ok (ev, res),
       mk_world (Store.set_entries (Store.entries db1 ++ [row])
                   (Store.set_competitors cs db1)) log)
    /\ EntryRow.event_id row = Event.id ev
    /\ EntryRow.chip row = Some chip
    /\ (exists controls params year gender,
          EntryRow.result row
          = compute_result controls params None year gender (Entry.result e0))
    /\ find (named first_name last_name) cs = Some competitor
    /\ find (fun x => Competitor.id x =? Competitor.id competitor) cs
       = Some competitor
    /\ Competitor.chip competitor = chip
    /\ ((EntryRow.competitor_id row = Some (Competitor.id competitor)
         /\ EntryRow.class_id row <> None
         /\ dict_get "light_status" res = Some (VStr "ok_registered"))
        \/ (EntryRow.competitor_id row = None
            /\ EntryRow.class_id row = None
            /\ dict_get "light_status" res = Some (VStr "unassigned"))).
Proof.
  intros db db1 F C.
  unfold assign_name_to_light_entry. rewrite in_event_run. fold db. rewrite F.
  unfold bind at 1. unfold get_entries. unfold bind at 1.
  unfold get_db at 1, ret at 1.
  change (w_db (opened IMMEDIATE w)) with db.
  change (filter (chip_is (Some chip)) (entries_of db (Event.id ev)))
    with (card_entries db (Event.id ev) (Some chip)).
  rewrite C. simpl hd_error.
  unfold bind at 1. unfold of_option at 1, ret at 1.
  unfold bind at 1. rewrite delete_entries_run.
  change (w_db (opened IMMEDIATE w)) with db. fold db1.
  unfold bind at 1. unfold get_competitor_by_name. unfold bind at 1.
  unfold get_db at 1, ret at 1. cbn [w_db w_log].
  change (Store.competitors db1) with (Store.competitors db).
  change (fun c : Competitor.t =>
            String.eqb (Competitor.first_name c) first_name
            && String.eqb (Competitor.last_name c) last_name)
    with (named first_name last_name).
  set (log1 := w_log (opened IMMEDIATE w)).
  assert (S1 : exists competitor cs,
    (match find (named first_name last_name) (Store.competitors db) with
     | Some c =>
         update_competitor (Competitor.id c) (Competitor.first_name c)
           (Competitor.last_name c) (Competitor.club_id c)
           (Competitor.gender c) (Competitor.year c) chip ;;;
         get_competitor (Some (Competitor.id c))
     | None =>
         competitor_id <- add_competitor first_name last_name None "" None
                            chip ;;
         get_competitor (Some competitor_id)
     end) (mk_world db1 log1)
    = (Ok competitor, mk_world (Store.set_competitors cs db1) log1)
    /\ find (named first_name last_name) cs = Some competitor
    /\ find (fun x => Competitor.id x =? Competitor.id competitor) cs
       = Some competitor
    /\ Competitor.chip competitor = chip).
  { destruct (find (named first_name last_name) (Store.competitors db))
      as [c|] eqn:Fc.
    - set (c' := Competitor.mk (Competitor.id c) (Competitor.first_name c)
                   (Competitor.last_name c) (Competitor.club_id c)
                   (Competitor.gender c) (Competitor.year c) chip).
      assert (N : named first_name last_name c' = true).
      { apply find_some in Fc. exact (proj2 Fc). }
      destruct (find_named_updated first_name last_name
                  (Store.competitors db) c c' Fc N eq_refl) as [U1 U2].
      exists c'. eexists. split; [|split; [exact U1|split; [exact U2|reflexivity]]].
      unfold bind at 1. unfold update_competitor. unfold bind at 1.
      unfold get_db at 1, put_db at 1. cbn [w_db w_log].
      unfold get_competitor. unfold bind at 1. unfold get_db at 1.
      cbn [w_db w_log]. unfold find_competitor, with_competitor.
      cbn [Store.competitors Store.set_competitors].
      change (Store.competitors db1) with (Store.competitors db).
      fold c'. rewrite U2. reflexivity.
    - set (c' := Competitor.mk
                   (fresh_id (map Competitor.id (Store.competitors db)))
                   first_name last_name None "" None chip).
      exists c'. eexists. split; [|split; [|split; [|reflexivity]]].
      + unfold bind at 1. unfold add_competitor. unfold bind at 1.
        unfold get_db at 1. cbn [w_db w_log].
        unfold bind at 1. unfold put_db at 1, ret at 1. cbn [w_db w_log].
        unfold get_competitor. unfold bind at 1. unfold get_db at 1.
        cbn [w_db w_log]. unfold find_competitor.
        cbn [Store.competitors Store.set_competitors].
        change (Store.competitors db1) with (Store.competitors db).
        fold c'. rewrite (find_competitor_fresh _ c' eq_refl). reflexivity.
      + apply find_app_none; [exact Fc|].
        unfold named. simpl. rewrite !String.eqb_refl. reflexivity.
      + exact (find_competitor_fresh _ c' eq_refl). }
  destruct S1 as [competitor [cs [Run1 [Fn [Fi Ch]]]]].
  unfold bind at 1. rewrite Run1. clear Run1.
  set (db2 := Store.set_competitors cs db1).
  unfold bind at 1. unfold get_classes. unfold bind at 1.
  unfold get_db at 1, ret at 1. cbn [w_db].
  unfold bind at 1. rewrite match_classes_run. cbn [w_db].
  set (matching := flat_map (try_class db2 (Entry.result e0) competitor)
                     (classes_of db2 (Event.id ev))).
  assert (M : forall class_ mr, In (class_, mr) matching ->
              exists controls params year gender,
                mr = compute_result controls params None year gender
                       (Entry.result e0)).
  { intros class_ mr Hin. unfold matching in Hin.
    apply in_flat_map in Hin. destruct Hin as [c [_ Hin]].
    unfold try_class in Hin.
    destruct (Class.course_id c); [|contradiction].
    destruct (find_course db2 z); [|contradiction].
    destruct (ResultStatus.eqb _ _); [|contradiction].
    destruct Hin as [Hin|[]]. inversion Hin; subst.
    eexists. eexists. eexists. eexists. reflexivity. }
  destruct matching as [|[class_ mr] [|m2 more]] eqn:Hm.
  - unfold bind at 1. rewrite add_entry_result_run. cbn [w_db w_log].
    eexists. exists competitor.
    exists (unassigned_row db2 (Event.id ev) (Some chip)
              (compute_result [] ClassParams_default None None None
                 (Entry.result e0))).
    exists cs. eexists. split; [reflexivity|].
    split; [reflexivity|]. split; [reflexivity|].
    split; [eexists; eexists; eexists; eexists; reflexivity|].
    split; [exact Fn|]. split; [exact Fi|]. split; [exact Ch|].
    right. repeat split; reflexivity.
  - unfold bind at 1. rewrite add_entry_run. cbn [w_db w_log].
    unfold bind at 1. rewrite get_entry_added by reflexivity.
    unfold bind at 1. unfold clear_cache, emit. cbn [w_db w_log].
    eexists. exists competitor.
    exists (EntryRow.mk (fresh_id (map EntryRow.id (Store.entries db2)))
              (Event.id ev) (Some (Competitor.id competitor))
              (Some (Class.id class_)) (Competitor.club_id competitor) false
              (Some chip) [] mr PersonRaceStart.default).
    exists cs. eexists. split; [reflexivity|].
    split; [reflexivity|]. split; [reflexivity|].
    split; [apply (M class_ mr); left; reflexivity|].
    split; [exact Fn|]. split; [exact Fi|]. split; [exact Ch|].
    left. repeat split; try reflexivity. discriminate.
  - unfold bind at 1. rewrite add_entry_result_run. cbn [w_db w_log].
    eexists. exists competitor.
    exists (unassigned_row db2 (Event.id ev) (Some chip)
              (compute_result [] ClassParams_default None None None
                 (Entry.result e0))).
    exists cs. eexists. split; [reflexivity|].
    split; [reflexivity|]. split; [reflexivity|].
    split; [eexists; eexists; eexists; eexists; reflexivity|].
    split; [exact Fn|]. split; [exact Fi|]. split; [exact Ch|].
    right. repeat split; reflexivity.
Qed.

Lemma filter_drops {A} (f : A -> bool) (l : list A) (x : A) :
  In x l -> f x = false -> (List.length (filter f l) < List.length l)%nat.
Proof.
  intros Hin Hf. induction l as [|y l IH]; simpl in *; [contradiction|].
  pose proof (filter_length_le f l) as Le.
  destruct Hin as [Hy|Hin].
  - subst y. rewrite Hf. lia.
  - specialize (IH Hin). destruct (f y); simpl; lia.
Qed.

Lemma assign_name_no_entry_run (event_key chip first_name last_name : string)
    (w : world) (ev : Event.t) :
  find (key_matches event_key) (Store.events (w_db w)) = Some ev ->
  card_entries (w_db w) (Event.id ev) (Some chip) = [] ->
  assign_name_to_light_entry event_key chip first_name last_name w
  = (Raise IndexError,
     mk_world (w_db w) (w_log w ++ [TxBegin IMMEDIATE; TxRollback])).
Proof.
  intros F C.
  unfold assign_name_to_light_entry. rewrite in_event_run, F.
  unfold bind at 1. unfold get_entries. unfold bind at 1.
  unfold get_db at 1, ret at 1.
  change (w_db (opened IMMEDIATE w)) with (w_db w).
  change (filter (chip_is (Some chip)) (entries_of (w_db w) (Event.id ev)))
    with (card_entries (w_db w) (Event.id ev) (Some chip)).
  rewrite C. simpl hd_error.
  unfold bind at 1. unfold of_option at 1, raise at 1.
  unfold rolled_back, opened. simpl. rewrite <- app_assoc. reflexivity.
Qed.

(** X9: a name can only be assigned to a card that was read.  When the
    event has no entry for the chip, [assign_name_to_light_entry] raises
    [IndexError], whatever the name; the transaction is rolled back, the
    store is as before (no competitor is created for the name) and the
    cache is not touched. *)
Theorem assign_name_without_entry (event_key chip first_name last_name : string)
    (w : world) (ev : Event.t) :
  let run := assign_name_to_light_entry event_key chip first_name last_name
               w in
  find (key_matches event_key) (Store.events (w_db w)) = Some ev ->
  card_entries (w_db w) (Event.id ev) (Some chip) = [] ->
  fst run = Raise IndexError
  /\ w_db (snd run) = w_db w
  /\ w_log (snd run) = (w_log w ++ [TxBegin IMMEDIATE; TxRollback])%list.
Proof.
  intros run F C. subst run.
  rewrite (assign_name_no_entry_run _ _ _ _ _ _ F C).
  repeat split; reflexivity.
Qed.

(** X10: when the event has entries for the chip, assigning a name
    succeeds and leaves the event with exactly one entry for the chip.
    That entry holds the result of one of the former entries for the
    chip, recomputed; it is registered for the named competitor in a class
    ([ok_registered]) or it is unassigned ([unassigned]).  The store has
    no more entries than before. *)
Theorem assign_name_leaves_one_entry
    (event_key chip first_name last_name : string) (w : world)
    (ev : Event.t) :
  find (key_matches event_key) (Store.events (w_db w)) = Some ev ->
  card_entries (w_db w) (Event.id ev) (Some chip) <> [] ->
  exists res w' e e0,
    assign_name_to_light_entry event_key chip first_name last_name w
    = (Ok (ev, res), w')
    /\ card_entries (w_db w') (Event.id ev) (Some chip) = [e]
    /\ In e0 (card_entries (w_db w) (Event.id ev) (Some chip))
    /\ (exists controls params year gender,
          Entry.result e
          = compute_result controls params None year gender (Entry.result e0))
    /\ ((Entry.class_id e <> None
         /\ Entry.first_name e = Some first_name
         /\ Entry.last_name e = Some last_name
         /\ dict_get "light_status" res = Some (VStr "ok_registered"))
        \/ (Entry.class_id e = None
            /\ Entry.competitor_id e = None
            /\ dict_get "light_status" res = Some (VStr "unassigned")))
    /\ (List.length (Store.entries (w_db w'))
        <= List.length (Store.entries (w_db w)))%nat.
Proof.
  intros F N.
  destruct (card_entries (w_db w) (Event.id ev) (Some chip))
    as [|e0 rest] eqn:C; [contradiction|]. clear N.
  destruct (assign_name_run event_key chip first_name last_name w ev e0 rest
              F C)
    as (res & competitor & row & cs & log & Run & Ev & Ch & Res & Fn & Fi & Cc
        & K).
  set (db1 := without_entries (w_db w) (map Entry.id (e0 :: rest))) in *.
  set (db' := Store.set_entries (Store.entries db1 ++ [row])
                (Store.set_competitors cs db1)) in *.
  exists res, (mk_world db' log), (join_entry db' row), e0.
  split; [exact Run|]. cbn [w_db].
  split.
  { rewrite card_entries_rows. unfold db'. cbn [Store.entries Store.set_entries].
    rewrite filter_app. unfold db1. rewrite <- C, no_card_row_left.
    simpl. unfold card_row. rewrite Ev, Ch, Z.eqb_refl. simpl.
    rewrite String.eqb_refl. reflexivity. }
  split; [left; reflexivity|].
  split; [exact Res|].
  split.
  { destruct K as [[Kc [Kl Ks]]|[Kc [Kl Ks]]].
    - left. split; [exact Kl|].
      apply find_some in Fn. destruct Fn as [_ Nm].
      unfold named in Nm. apply andb_true_iff in Nm.
      destruct Nm as [N1 N2]. apply String.eqb_eq in N1, N2.
      unfold join_entry. rewrite Kc. unfold find_competitor, db'.
      cbn [Store.competitors Store.set_competitors Store.set_entries].
      rewrite Fi. simpl. rewrite N1, N2.
      split; [reflexivity|]. split; [reflexivity|exact Ks].
    - right. split; [exact Kl|]. split; [exact Kc|exact Ks]. }
  unfold db'. cbn [Store.entries Store.set_entries].
  rewrite length_app. simpl. unfold db1, without_entries.
  cbn [Store.entries Store.set_entries].
  assert (X : exists r, In r (Store.entries (w_db w))
                        /\ Entry.id e0 = EntryRow.id r).
  { assert (I : In e0 (card_entries (w_db w) (Event.id ev) (Some chip)))
      by (rewrite C; left; reflexivity).
    rewrite card_entries_rows in I. apply in_map_iff in I.
    destruct I as [r [J I]]. apply filter_In in I.
    exists r. split; [exact (proj1 I)|]. rewrite <- J. reflexivity. }
  destruct X as [r [Hin Id]].
  pose proof (filter_drops
                (fun r => negb (existsb (Z.eqb (EntryRow.id r))
                                  (map Entry.id (e0 :: rest))))
                (Store.entries (w_db w)) r Hin) as D.
  assert (Gone : negb (existsb (Z.eqb (EntryRow.id r))
                         (map Entry.id (e0 :: rest))) = false).
  { simpl. rewrite Id, Z.eqb_refl. reflexivity. }
  specialize (D Gone). simpl in D |- *. lia.
Qed.

(** X11: after a name was assigned to a card, the competitor of that name
    holds the card: looking the name up again gives a competitor whose chip
    is the card. *)
Theorem assign_name_gives_chip (event_key chip first_name last_name : string)
    (w w' : world) (ev : Event.t) (res : dict) :
  assign_name_to_light_entry event_key chip first_name last_name w
  = (Ok (ev, res), w') ->
  exists c,
    get_competitor_by_name first_name last_name w' = (Ok (Some c), w')
    /\ Competitor.first_name c = first_name
    /\ Competitor.last_name c = last_name
    /\ Competitor.chip c = chip.
Proof.
  intros Run.
  pose proof (assign_name_event _ _ _ _ _ _ _ _ Run) as F.
  destruct (card_entries (w_db w) (Event.id ev) (Some chip))
    as [|e0 rest] eqn:C.
  - rewrite (assign_name_no_entry_run _ _ _ _ _ _ F C) in Run. discriminate.
  - destruct (assign_name_run event_key chip first_name last_name w ev e0
                rest F C)
      as (res' & competitor & row & cs & log & Run' & _ & _ & _ & Fn & _ & Cc
          & _).
    rewrite Run' in Run. inversion Run; subst. clear Run.
    exists competitor.
    unfold get_competitor_by_name. unfold bind, get_db, ret. cbn [w_db].
    cbn [Store.competitors Store.set_entries Store.set_competitors].
    change (fun c : Competitor.t =>
              String.eqb (Competitor.first_name c) first_name
              && String.eqb (Competitor.last_name c) last_name)
      with (named first_name last_name).
    rewrite Fn. split; [reflexivity|].
    apply find_some in Fn. destruct Fn as [_ Nm].
    unfold named in Nm. apply andb_true_iff in Nm.
    destruct Nm as [N1 N2]. apply String.eqb_eq in N1, N2.
    repeat split; [exact N1|exact N2].
Qed.

End AssignName.

Lemma assign_name_without_entry_witness :
  let run := assign_name_to_light_entry (E:=SampleEngine.engine) "4711"
               "9876" "Jane" "Doe" (Fixtures.start_of Fixtures.light_db) in
  fst run = Raise IndexError
  /\ w_db (snd run) = Fixtures.light_db
  /\ w_log (snd run) = [TxBegin IMMEDIATE; TxRollback].
Proof.
  exact (assign_name_without_entry (E:=SampleEngine.engine) "4711" "9876"
           "Jane" "Doe" (Fixtures.start_of Fixtures.light_db)
           Fixtures.light_event eq_refl eq_refl).
Defined.

Lemma assign_name_leaves_one_entry_witness :
  exists res w' e,
    assign_name_to_light_entry (E:=SampleEngine.engine) "4711" "5555" "Jane"
      "Doe" (Fixtures.start_of Scenarios.unknown_read_db)
    = (Ok (Fixtures.light_event, res), w')
    /\ card_entries (w_db w') 1 (Some "5555") = [e]
    /\ dict_get "light_status" res = Some (VStr "ok_registered")
    /\ Entry.class_name e = Some "Elite".
Proof.
  destruct (assign_name_leaves_one_entry (E:=SampleEngine.engine) "4711"
              "5555" "Jane" "Doe" (Fixtures.start_of Scenarios.unknown_read_db)
              Fixtures.light_event eq_refl ltac:(vm_compute; discriminate))
    as (res & w' & e & e0 & Run & One & _).
  exists res, w', e. split; [exact Run|]. split; [exact One|].
  vm_compute in Run. inversion Run; subst. clear Run.
  vm_compute in One. inversion One; subst. split; reflexivity.
Defined.

Lemma assign_name_gives_chip_witness :
  exists c,
    get_competitor_by_name "Jane" "Doe"
      (snd (assign_name_to_light_entry (E:=SampleEngine.engine) "4711" "5555"
              "Jane" "Doe" (Fixtures.start_of Scenarios.unknown_read_db)))
    = (Ok (Some c),
       snd (assign_name_to_light_entry (E:=SampleEngine.engine) "4711" "5555"
              "Jane" "Doe" (Fixtures.start_of Scenarios.unknown_read_db)))
    /\ Competitor.chip c = "5555".
Proof.
  edestruct (assign_name_gives_chip (E:=SampleEngine.engine) "4711" "5555"
               "Jane" "Doe" (Fixtures.start_of Scenarios.unknown_read_db))
    as (c & Run & _ & _ & Ch).
  - vm_compute. reflexivity.
  - exists c. split; [exact Run|exact Ch].
Defined.

(** ** The events of a series *)

Lemma string_leb_iff (a b : string) :
  String.leb a b = true <-> a = b \/ String_as_OT.lt a b.
Proof.
  unfold String.leb.
  pose proof (String_as_OT.cmp_eq a b) as Q.
  pose proof (String_as_OT.cmp_lt a b) as L.
  unfold String_as_OT.cmp in Q, L.
  destruct (String.compare a b) eqn:C; split; intros H; try reflexivity.
  - left. apply Q. reflexivity.
  - right. apply L. reflexivity.
  - discriminate.
  - destruct H as [H|H]; [apply Q in H|apply L in H]; discriminate.
Qed.

Lemma string_leb_trans (a b c : string) :
  String.leb a b = true -> String.leb b c = true -> String.leb a c = true.
Proof.
  rewrite !string_leb_iff. intros [H|H] [K|K]; subst; auto.
  right. exact (String_as_OT.lt_trans _ _ _ H K).
Qed.

Section StableSort.
Context {A : Type}.
Variable leb : A -> A -> bool.

Lemma insert_by_perm (x : A) (l : list A) :
  Permutation (insert_by leb x l) (x :: l).
Proof.
  induction l as [|y l IH]; simpl; [reflexivity|].
  destruct (leb x y); [reflexivity|].
  rewrite IH. apply perm_swap.
Qed.

Lemma sort_by_perm (l : list A) : Permutation (sort_by leb l) l.
Proof.
  induction l as [|x l IH]; simpl; [reflexivity|].
  rewrite insert_by_perm. constructor. exact IH.
Qed.

(** Inserting [x] keeps a list sorted for [R] when [x] may stand before
    every element it is not greater than and after every other element,
    and before everything that follows an element it may stand before. *)
Lemma insert_by_sorted (R : A -> A -> Prop) (x : A) (l : list A) :
  (forall y, In y l -> leb x y = true -> R x y) ->
  (forall y, In y l -> leb x y = false -> R y x) ->
  (forall y z, In y l -> In z l -> leb x y = true -> R y z -> R x z) ->
  StronglySorted R l -> StronglySorted R (insert_by leb x l).
Proof.
  intros Hb Ha Ht S. induction S as [|y l S IH Hy]; simpl.
  - repeat constructor.
  - destruct (leb x y) eqn:Q.
    + constructor; [constructor; assumption|].
      constructor; [apply Hb; [left; reflexivity|exact Q]|].
      rewrite Forall_forall in *. intros z Hz.
      apply (Ht y z); [left; reflexivity|right; exact Hz|exact Q|].
      apply Hy. exact Hz.
    + constructor.
      * apply IH.
        -- intros z Hz. apply Hb. right. exact Hz.
        -- intros z Hz. apply Ha. right. exact Hz.
        -- intros u v Hu Hv. apply Ht; right; assumption.
      * rewrite Forall_forall in *. intros z Hz.
        apply (Permutation_in _ (insert_by_perm x l)) in Hz.
        destruct Hz as [Hz|Hz].
        -- subst z. apply Ha; [left; reflexivity|exact Q].
        -- apply Hy. exact Hz.
Qed.

End StableSort.

Lemma sorted_by_series (l : list Event.t) :
  StronglySorted (fun a b => by_series a b = true) (sort_by by_series l).
Proof.
  induction l as [|x l IH]; simpl; [constructor|].
  apply insert_by_sorted; [| | |exact IH].
  - intros y _ H. exact H.
  - intros y _ H. unfold by_series in *.
    destruct (String.leb_total (series_key x) (series_key y)) as [T|T];
      [congruence|exact T].
  - intros y z _ _ H K. unfold by_series in *.
    exact (string_leb_trans _ _ _ H K).
Qed.

(** A list sorted by series, sorted again by date: the second sort keeps
    the order of the first among the events of a day. *)
Lemma sorted_by_date_then_series (l : list Event.t) :
  StronglySorted (fun a b => by_series a b = true) l ->
  StronglySorted in_series_order (sort_by by_date l).
Proof.
  intros S. induction S as [|x l S IH Hx]; simpl; [constructor|].
  rewrite Forall_forall in Hx.
  assert (Hx' : forall y, In y (sort_by by_date l) -> by_series x y = true).
  { intros y Hy. apply Hx.
    exact (Permutation_in _ (sort_by_perm by_date l) Hy). }
  apply insert_by_sorted; [| | |exact IH].
  - intros y Hy Q. unfold by_date in Q. apply Z.leb_le in Q.
    unfold in_series_order.
    destruct (Z.eq_dec (Event.date x) (Event.date y)) as [D|D].
    + right. split; [exact D|]. exact (Hx' y Hy).
    + left. lia.
  - intros y _ Q. unfold by_date in Q. apply Z.leb_gt in Q.
    left. exact Q.
  - intros y z Hy Hz Q R. unfold by_date in Q. apply Z.leb_le in Q.
    unfold in_series_order in *.
    assert (Dz : Event.date y <= Event.date z) by (destruct R as [R|[R _]]; lia).
    destruct (Z.eq_dec (Event.date x) (Event.date z)) as [D|D].
    + right. split; [exact D|]. exact (Hx' z Hz).
    + left. lia.
Qed.

(** X12: the event list of a series holds the events that have a series,
    each as often as it was given, and no other; it is in order of date,
    and the events of one day are in order of their series. *)
Theorem create_event_list_sorted (events : list Event.t) :
  Permutation (create_event_list events)
    (filter (fun e => opt_is_some (Event.series e)) events)
  /\ StronglySorted in_series_order (create_event_list events).
Proof.
  unfold create_event_list. split.
  - rewrite sort_by_perm. apply sort_by_perm.
  - apply sorted_by_date_then_series. apply sorted_by_series.
Qed.

(** ** Changing entries *)

Lemma silent_ret {A} (a : A) : silent (ret a).
Proof. intros w. reflexivity. Qed.

Lemma silent_raise {A} (e : exn) : silent (@raise A e).
Proof. intros w. reflexivity. Qed.

Lemma silent_get_db : silent get_db.
Proof. intros w. reflexivity. Qed.

Lemma silent_put_db (db : Store.t) : silent (put_db db).
Proof. intros w. reflexivity. Qed.

Lemma silent_of_option {A} (e : exn) (o : option A) : silent (of_option e o).
Proof. intros w. destruct o; reflexivity. Qed.

Lemma silent_bind {A B} (m : M A) (k : A -> M B) :
  silent m -> (forall a, silent (k a)) -> silent (bind m k).
Proof.
  intros Hm Hk w. specialize (Hm w). unfold bind.
  destruct (m w) as [[a|e] w1]; simpl in *.
  - rewrite Hk. exact Hm.
  - exact Hm.
Qed.

Lemma silent_try {A} (m : M A) (h : exn -> M A) :
  silent m -> (forall e, silent (h e)) -> silent (try_except m h).
Proof.
  intros Hm Hh w. specialize (Hm w). unfold try_except.
  destruct (m w) as [[a|e] w1]; simpl in *.
  - exact Hm.
  - rewrite Hh. exact Hm.
Qed.

Ltac silent_step :=
  match goal with
  | |- silent (bind _ _) => apply silent_bind; [|intros]
  | |- silent (try_except _ _) => apply silent_try; [|intros]
  | |- silent (ret _) => apply silent_ret
  | |- silent (raise _) => apply silent_raise
  | |- silent get_db => apply silent_get_db
  | |- silent (put_db _) => apply silent_put_db
  | |- silent (of_option _ _) => apply silent_of_option
  | |- silent (match ?x with _ => _ end) => destruct x
  | |- silent (if ?x then _ else _) => destruct x
  | |- silent (let _ := _ in _) => cbv zeta
  end.

Section EntriesFrame.
Context {E : ResultEngine}.

Lemma silent_reprobe {A} event_id id competitor_id class_id club_id e :
  silent (@reprobe A event_id id competitor_id class_id club_id e).
Proof. unfold reprobe. quiet_ops. repeat silent_step. Qed.

Lemma silent_add_branch event_id competitor_id first_name last_name gender
    year class_id club_id not_competing chip fields status start_time :
  silent (add_branch event_id competitor_id first_name last_name gender year
            class_id club_id not_competing chip fields status start_time).
Proof.
  unfold add_branch. quiet_ops.
  repeat first [apply silent_reprobe | silent_step].
Qed.

Lemma silent_update_branch id event_id competitor_id first_name last_name
    gender year class_id club_id not_competing chip fields status start_time
    result_id :
  silent (update_branch id event_id competitor_id first_name last_name gender
            year class_id club_id not_competing chip fields status start_time
            result_id).
Proof.
  unfold update_branch. quiet_ops.
  repeat first [apply silent_reprobe | silent_step].
Qed.

Lemma silent_settle_result event_id l class_id status start_time result_id :
  silent (settle_result event_id l class_id status start_time result_id).
Proof.
  unfold settle_result. quiet_ops.
  repeat first [apply silent_reprobe | silent_step].
Qed.

Lemma keeps_reprobe {A} event_id id competitor_id class_id club_id e :
  keeps same_setup (@reprobe A event_id id competitor_id class_id club_id e).
Proof. unfold reprobe. keeps_setup. Qed.

Lemma keeps_add_branch event_id competitor_id first_name last_name gender
    year class_id club_id not_competing chip fields status start_time :
  keeps same_setup
    (add_branch event_id competitor_id first_name last_name gender year
       class_id club_id not_competing chip fields status start_time).
Proof.
  unfold add_branch. keeps_reads.
  repeat first [apply keeps_reprobe
               | keeps_step same_setup_refl same_setup_trans].
Qed.

Lemma keeps_update_branch id event_id competitor_id first_name last_name
    gender year class_id club_id not_competing chip fields status start_time
    result_id :
  keeps same_setup
    (update_branch id event_id competitor_id first_name last_name gender year
       class_id club_id not_competing chip fields status start_time
       result_id).
Proof.
  unfold update_branch. keeps_reads.
  repeat first [apply keeps_reprobe
               | keeps_step same_setup_refl same_setup_trans].
Qed.

Lemma keeps_settle_result event_id l class_id status start_time result_id :
  keeps same_setup
    (settle_result event_id l class_id status start_time result_id).
Proof.
  unfold settle_result. keeps_reads.
  repeat first [apply keeps_reprobe
               | keeps_step same_setup_refl same_setup_trans].
Qed.

(** The body of the transaction of [add_or_update_entry]. *)
Lemma add_or_update_entry_run (id : option Z) (event_id : Z)
    (competitor_id : option Z) (first_name last_name gender : string)
    (year : option Z) (class_id : Z) (club_id : option Z)
    (not_competing : bool) (chip : string) (fields : list (Z * string))
    (status : ResultStatus.t) (start_time : option datetime)
    (result_id : option Z) (w : world) :
  add_or_update_entry id event_id competitor_id first_name last_name gender
    year class_id club_id not_competing chip fields status start_time
    result_id w =
  match
    (l <- match id with
          | None =>
              add_branch event_id competitor_id first_name last_name
                gender year class_id club_id not_competing chip fields
                status start_time
          | Some id =>
              update_branch id event_id competitor_id first_name
                last_name gender year class_id club_id not_competing
                chip fields status start_time result_id
          end ;;
     settle_result event_id l class_id status start_time result_id ;;;
     ret (l_id l)) (opened IMMEDIATE w)
  with
  | (Ok id', w1) =>
      (Ok id',
       mk_world (w_db w1)
         (w_log w1 ++ [TxCommit; CacheClear (Some event_id) (Some id')]))
  | (Raise e, w1) => (Raise e, rolled_back w w1)
  end.
Proof.
  unfold add_or_update_entry. unfold bind at 1. rewrite transaction_run.
  match goal with |- context [?m (opened IMMEDIATE w)] =>
    destruct (m (opened IMMEDIATE w)) as [[a|e] w1] end; [|reflexivity].
  unfold bind, clear_cache, emit, ret, committed. simpl.
  rewrite <- app_assoc. reflexivity.
Qed.

Lemma silent_entry_body (id : option Z) (event_id : Z)
    (competitor_id : option Z) (first_name last_name gender : string)
    (year : option Z) (class_id : Z) (club_id : option Z)
    (not_competing : bool) (chip : string) (fields : list (Z * string))
    (status : ResultStatus.t) (start_time : option datetime)
    (result_id : option Z) :
  silent
    (l <- match id with
          | None =>
              add_branch event_id competitor_id first_name last_name
                gender year class_id club_id not_competing chip fields
                status start_time
          | Some id =>
              update_branch id event_id competitor_id first_name
                last_name gender year class_id club_id not_competing
                chip fields status start_time result_id
          end ;;
     settle_result event_id l class_id status start_time result_id ;;;
     ret (l_id l)).
Proof.
  apply silent_bind.
  - destruct id; [apply silent_update_branch|apply silent_add_branch].
  - intros l. apply silent_bind; [apply silent_settle_result|].
    intros _. apply silent_ret.
Qed.

(** X13: a call of [add_or_update_entry] that raises leaves no trace: the
    store is the one before the call, the transaction was rolled back and
    the cache was not invalidated.  A call that returns has committed and
    has invalidated the cache once, for the event and the entry it
    returns, after the commit. *)
Theorem add_or_update_entry_trace (id : option Z) (event_id : Z)
    (competitor_id : option Z) (first_name last_name gender : string)
    (year : option Z) (class_id : Z) (club_id : option Z)
    (not_competing : bool) (chip : string) (fields : list (Z * string))
    (status : ResultStatus.t) (start_time : option datetime)
    (result_id : option Z) (w : world) :
  let run := add_or_update_entry id event_id competitor_id first_name
               last_name gender year class_id club_id not_competing chip
               fields status start_time result_id w in
  match fst run with
  | Raise _ =>
      w_db (snd run) = w_db w
      /\ w_log (snd run) = (w_log w ++ [TxBegin IMMEDIATE; TxRollback])%list
  | Ok id' =>
      w_log (snd run)
      = (w_log w ++ [TxBegin IMMEDIATE; TxCommit;
                     CacheClear (Some event_id) (Some id')])%list
  end.
Proof.
  intros run. subst run. rewrite add_or_update_entry_run.
  pose proof (silent_entry_body id event_id competitor_id first_name
                last_name gender year class_id club_id not_competing chip
                fields status start_time result_id (opened IMMEDIATE w)) as S.
  match goal with |- context [?m (opened IMMEDIATE w)] =>
    destruct (m (opened IMMEDIATE w)) as [[a|e] w1] end; simpl in *.
  - rewrite S, <- app_assoc. reflexivity.
  - rewrite S, <- app_assoc. split; reflexivity.
Qed.

(** X14: changing entries never writes the set-up of an event.
    [add_or_update_entry] leaves events, courses, classes and clubs as
    they are (it may add or update a competitor), and [delete_entry]
    leaves everything but the entries as it is, whether they return or
    raise. *)
Theorem entries_keep_setup (w : world) :
  (forall id event_id competitor_id first_name last_name gender year class_id
          club_id not_competing chip fields status start_time result_id,
     same_setup (w_db w)
       (w_db (snd (add_or_update_entry id event_id competitor_id first_name
                     last_name gender year class_id club_id not_competing
                     chip fields status start_time result_id w))))
  /\ (forall id,
        same_but_entries (w_db w) (w_db (snd (entries_delete_entry id w)))).
Proof.
  split.
  - intros. revert w.
    match goal with |- forall w, same_setup (w_db w) (w_db (snd (?m w))) =>
      change (keeps same_setup m) end.
    unfold add_or_update_entry.
    repeat first [apply keeps_add_branch | apply keeps_update_branch
                 | apply keeps_settle_result
                 | keeps_step same_setup_refl same_setup_trans].
  - intros id. revert w.
    change (keeps same_but_entries (entries_delete_entry id)).
    unfold entries_delete_entry. keeps_entries.
Qed.

End EntriesFrame.

Lemma raises_ret S {A} (a : A) : raises_only S (ret a).
Proof. intros w e H. discriminate. Qed.

Lemma raises_raise (S : exn -> Prop) {A} (e : exn) :
  S e -> raises_only S (@raise A e).
Proof. intros H w e' Q. inversion Q; subst. exact H. Qed.

Lemma raises_get_db S : raises_only S get_db.
Proof. intros w e H. discriminate. Qed.

Lemma raises_put_db S db : raises_only S (put_db db).
Proof. intros w e H. discriminate. Qed.

Lemma raises_of_option (S : exn -> Prop) {A} (e : exn) (o : option A) :
  S e -> raises_only S (of_option e o).
Proof. intros H w e' Q. destruct o; inversion Q; subst. exact H. Qed.

Lemma raises_bind S {A B} (m : M A) (k : A -> M B) :
  raises_only S m -> (forall a, raises_only S (k a)) ->
  raises_only S (bind m k).
Proof.
  intros Hm Hk w e. specialize (Hm w). unfold bind.
  destruct (m w) as [[a|e0] w1]; simpl in *.
  - apply Hk.
  - intros Q. inversion Q; subst. apply Hm. reflexivity.
Qed.

Lemma raises_try S {A} (m : M A) (h : exn -> M A) :
  raises_only S m -> (forall e, S e -> raises_only S (h e)) ->
  raises_only S (try_except m h).
Proof.
  intros Hm Hh w e. specialize (Hm w). unfold try_except.
  destruct (m w) as [[a|e0] w1]; simpl in *.
  - discriminate.
  - apply Hh. apply Hm. reflexivity.
Qed.

Ltac raises_step :=
  match goal with
  | |- raises_only _ (bind _ _) => apply raises_bind; [|intros]
  | |- raises_only _ (ret _) => apply raises_ret
  | |- raises_only _ (raise _) => apply raises_raise
  | |- raises_only _ get_db => apply raises_get_db
  | |- raises_only _ (put_db _) => apply raises_put_db
  | |- raises_only _ (of_option _ _) => apply raises_of_option
  | |- raises_only _ (match ?x with _ => _ end) => destruct x
  | |- raises_only _ (if ?x then _ else _) => destruct x
  | |- raises_only _ (let _ := _ in _) => cbv zeta
  end.

Lemma inner_key : inner_error KeyError.
Proof. left. reflexivity. Qed.

Lemma inner_result : inner_error (ConstraintError "Result deleted").
Proof. right. reflexivity. Qed.

Section Errors.
Context {E : ResultEngine}.
Variables event_id class_id : Z.

Lemma entry_error_setup (a b : Store.t) (e : exn) :
  same_setup a b -> entry_error event_id class_id b e ->
  entry_error event_id class_id a e.
Proof.
  intros [Ev [_ [Cl _]]] H. unfold entry_error, find_class in *.
  cbv zeta in *. rewrite Ev, Cl. exact H.
Qed.

Lemma raises_class_course cid : raises_only inner_error (class_course cid).
Proof.
  unfold class_course. quiet_ops.
  apply raises_try.
  - repeat first [exact inner_key | raises_step].
  - intros e [->| ->]; repeat first [exact inner_result | raises_step].
Qed.

(** The handler only reads, and ends with [probe]. *)
Lemma reprobe_run {A} (id competitor_id club_id : option Z) (e0 : exn)
    (w : world) :
  inner_error e0 ->
  @reprobe A event_id id competitor_id class_id club_id e0 w
  = (Raise (probe (w_db w) event_id id competitor_id class_id club_id e0), w).
Proof.
  intros I. unfold reprobe, probe.
  assert (R : forall (m : M A), (match e0 with
                 | KeyError | ConstraintError _ => m
                 | _ => raise e0
                 end) = m) by (intros m; destruct I as [->| ->]; reflexivity).
  rewrite R. clear R.
  unfold get_event, get_entry, get_competitor, get_class, get_club.
  cbv [bind try_except get_db of_option ret raise].
  destruct (find (fun ev => Event.id ev =? event_id) (Store.events (w_db w)));
    [|reflexivity].
  cbv beta iota zeta.
  destruct id as [i|];
    [destruct (find_row (w_db w) i);
     cbv beta iota zeta delta [option_map opt_is_none]; [|reflexivity]|];
    (destruct competitor_id as [c|];
     [destruct (find_competitor (w_db w) c);
      cbv beta iota zeta delta [opt_is_none]; [|reflexivity]|]);
    (destruct (find_class (w_db w) class_id);
     cbv beta iota zeta delta [opt_is_none]; [|reflexivity]);
    (destruct club_id as [b|];
     [destruct (find_club (w_db w) b);
      cbv beta iota zeta delta [opt_is_none]; [|reflexivity]|]);
    reflexivity.
Qed.

Lemma probe_answers (db : Store.t) (id competitor_id club_id : option Z)
    (e0 : exn) :
  inner_error e0 ->
  entry_error event_id class_id db
    (probe db event_id id competitor_id class_id club_id e0).
Proof.
  intros I. unfold probe, entry_error. cbv zeta.
  destruct (find (fun ev => Event.id ev =? event_id) (Store.events db))
    as [ev|]; [|reflexivity].
  assert (Ne : Some ev <> None) by discriminate.
  assert (L : forall msg,
            msg <> "Class deleted" ->
            Some ev <> None
            /\ (msg = "Class deleted" -> find_class db class_id = None)).
  { intros msg H. split; [exact Ne|]. intros X. contradiction. }
  destruct (match id with
            | Some i => opt_is_none (find_row db i)
            | None => false
            end); [apply L; discriminate|].
  destruct (match competitor_id with
            | Some c => opt_is_none (find_competitor db c)
            | None => false
            end); [apply L; discriminate|].
  destruct (find_class db class_id) as [c|] eqn:Fc; simpl.
  2: { split; [exact Ne|]. intros _. reflexivity. }
  destruct (match club_id with
            | Some c => opt_is_none (find_club db c)
            | None => false
            end); [apply L; discriminate|].
  destruct I as [->| ->]; [exact Ne|apply L; discriminate].
Qed.

Lemma try_reprobe_answers {A} (m : M A) (id competitor_id club_id : option Z) :
  keeps same_setup m -> raises_only inner_error m ->
  answers (entry_error event_id class_id)
    (try_except m (reprobe event_id id competitor_id class_id club_id)).
Proof.
  intros K R w e. specialize (K w). specialize (R w). unfold try_except.
  destruct (m w) as [[a|e0] w1]; simpl in *; [discriminate|].
  rewrite reprobe_run by (apply R; reflexivity). simpl.
  intros Q. inversion Q; subst.
  apply (entry_error_setup _ _ _ K). apply probe_answers.
  apply R. reflexivity.
Qed.

Lemma answers_bind {A B} (m : M A) (k : A -> M B) :
  answers (entry_error event_id class_id) m -> keeps same_setup m ->
  (forall a, answers (entry_error event_id class_id) (k a)) ->
  answers (entry_error event_id class_id) (bind m k).
Proof.
  intros Hm Km Hk w e. specialize (Hm w). specialize (Km w). unfold bind.
  destruct (m w) as [[a|e0] w1]; simpl in *.
  - intros Q. apply (entry_error_setup _ _ _ Km). apply (Hk a w1). exact Q.
  - intros Q. inversion Q; subst. apply Hm. reflexivity.
Qed.

Lemma answers_never {A} (m : M A) :
  raises_only (fun _ => False) m -> answers (entry_error event_id class_id) m.
Proof. intros R w e Q. destruct (R w e Q). Qed.

Ltac raises_inner :=
  quiet_ops;
  repeat first
    [ exact inner_key
    | exact inner_result
    | apply raises_try; [|intros ? [->| ->]; cbv beta iota]
    | raises_step ].

Lemma answers_add_branch competitor_id first_name last_name gender year
    club_id not_competing chip fields status start_time :
  answers (entry_error event_id class_id)
    (add_branch event_id competitor_id first_name last_name gender year
       class_id club_id not_competing chip fields status start_time).
Proof.
  unfold add_branch. apply answers_bind.
  - apply answers_never. quiet_ops. repeat raises_step.
  - keeps_setup.
  - intros [[[[c g] y] ch] cl]. apply try_reprobe_answers.
    + keeps_setup.
    + raises_inner.
Qed.

Lemma answers_update_branch id competitor_id first_name last_name gender year
    club_id not_competing chip fields status start_time result_id :
  answers (entry_error event_id class_id)
    (update_branch id event_id competitor_id first_name last_name gender year
       class_id club_id not_competing chip fields status start_time
       result_id).
Proof.
  unfold update_branch. apply try_reprobe_answers.
  - keeps_setup.
  - raises_inner.
Qed.

Lemma answers_settle_result l status start_time result_id :
  answers (entry_error event_id class_id)
    (settle_result event_id l class_id status start_time result_id).
Proof.
  unfold settle_result. apply try_reprobe_answers.
  - keeps_setup.
  - raises_inner.
Qed.

(** X15: an error of [add_or_update_entry] can be read against the store
    of the call.  When the call fails, it raises [EventNotFoundError] if
    the event is not in the store and another error if it is, and it
    reports "Class deleted" only for a class that is not in the store. *)
Theorem add_or_update_entry_errors (id competitor_id : option Z)
    (first_name last_name gender : string) (year : option Z)
    (club_id : option Z) (not_competing : bool) (chip : string)
    (fields : list (Z * string)) (status : ResultStatus.t)
    (start_time : option datetime) (result_id : option Z) (w : world)
    (e : exn) :
  fst (add_or_update_entry id event_id competitor_id first_name last_name
         gender year class_id club_id not_competing chip fields status
         start_time result_id w) = Raise e ->
  entry_error event_id class_id (w_db w) e.
Proof.
  rewrite add_or_update_entry_run.
  assert (B : answers (entry_error event_id class_id)
    (l <- match id with
          | None =>
              add_branch event_id competitor_id first_name last_name
                gender year class_id club_id not_competing chip fields
                status start_time
          | Some id =>
              update_branch id event_id competitor_id first_name
                last_name gender year class_id club_id not_competing
                chip fields status start_time result_id
          end ;;
     settle_result event_id l class_id status start_time result_id ;;;
     ret (l_id l))).
  { apply answers_bind.
    - destruct id; [apply answers_update_branch|apply answers_add_branch].
    - destruct id; [apply keeps_update_branch|apply keeps_add_branch].
    - intros l. apply answers_bind.
      + apply answers_settle_result.
      + apply keeps_settle_result.
      + intros _. apply answers_never. apply raises_ret. }
  specialize (B (opened IMMEDIATE w) e).
  match goal with |- context [?m (opened IMMEDIATE w)] =>
    destruct (m (opened IMMEDIATE w)) as [[a|e0] w1] end; simpl in *.
  - discriminate.
  - intros Q. inversion Q; subst. apply B. reflexivity.
Qed.

End Errors.

Section AddEntry.
Context {E : ResultEngine}.

(** The [try] block of the add branch for a competitor that is in the
    store. *)
Lemma add_branch_run (event_id cid : Z) (first_name last_name gender : string)
    (year : option Z) (class_id : Z) (club_id : option Z)
    (not_competing : bool) (chip : string) (fields : list (Z * string))
    (status : ResultStatus.t) (start_time : option datetime) (w : world)
    (c : Competitor.t) :
  let db := w_db w in
  let db1 := with_competitor db (Competitor.id c) first_name last_name
               (if opt_is_none (Competitor.club_id c) then club_id
                else Competitor.club_id c)
               gender year
               (if String.eqb (Competitor.chip c) "" then chip
                else Competitor.chip c) in
  let id := fresh_id (map EntryRow.id (Store.entries db)) in
  find_competitor db cid = Some c ->
  add_branch event_id (Some cid) first_name last_name gender year class_id
    club_id not_competing chip fields status start_time w
  = (Ok (mk_locals id (Some cid) gender year club_id (Some chip)
           PersonRaceResult.default),
     mk_world
       (Store.set_entries
          (Store.entries db ++
             [EntryRow.mk id event_id (Some cid) (Some class_id) club_id
                not_competing (Some chip) fields
                (PersonRaceResult.of_status status)
                (PersonRaceStart.mk start_time)])
          db1)
       (w_log w)).
Proof.
  intros db db1 id F.
  unfold add_branch. unfold bind at 1. unfold ret at 1.
  unfold try_except. unfold bind at 1. unfold get_competitor.
  unfold bind at 1. unfold get_db at 1. fold db. rewrite F.
  unfold of_option, ret at 1.
  unfold bind at 1. unfold update_competitor. unfold bind at 1.
  unfold get_db at 1, put_db at 1. cbn [w_db w_log]. fold db. fold db1.
  unfold bind at 1. rewrite add_entry_run. cbn [w_db w_log].
  reflexivity.
Qed.

(** The second half of the [try] block when no result is named. *)
Lemma settle_plain_run (event_id : Z) (l : locals) (class_id : Z)
    (status : ResultStatus.t) (start_time : option datetime) (w : world) :
  let cp := course_params_of (w_db w) (Some class_id) in
  settle_result event_id l class_id status start_time None w
  = (Ok tt,
     mk_world
       (with_result (w_db w) (l_id l) (l_chip l)
          (compute_result (snd cp) (fst cp) start_time (l_year l)
             (if String.eqb (l_gender l) "" then None else Some (l_gender l))
             (PersonRaceResult.set_status status (l_result l)))
          (PersonRaceStart.mk start_time))
       (w_log w)).
Proof.
  intros cp. unfold settle_result. unfold try_except.
  unfold bind at 1. unfold ret at 1. cbn [fst snd opt_eqb negb orb].
  unfold bind at 1. rewrite class_course_run. fold cp.
  unfold update_entry_result. unfold bind, get_db, put_db.
  reflexivity.
Qed.

Lemma map_set_result_fresh (rows : list EntryRow.t) chip result start :
  map (set_result (fresh_id (map EntryRow.id rows)) chip result start) rows
  = rows.
Proof.
  rewrite <- (map_id rows) at 3. apply map_ext_in. intros r Hin.
  apply set_result_other.
  pose proof (fresh_id_above (map EntryRow.id rows) (EntryRow.id r)
                (in_map _ _ _ Hin)).
  lia.
Qed.

Lemma find_updated (cs : list Competitor.t) (cid : Z) (c c' : Competitor.t) :
  find (fun x => Competitor.id x =? cid) cs = Some c ->
  Competitor.id c' = cid ->
  find (fun x => Competitor.id x =? cid)
    (map (fun x => if Competitor.id x =? cid then c' else x) cs) = Some c'.
Proof.
  intros F I. induction cs as [|y cs IH]; simpl in *; [discriminate|].
  destruct (Competitor.id y =? cid) eqn:Q.
  - rewrite I, Z.eqb_refl. reflexivity.
  - rewrite Q. apply IH. exact F.
Qed.

Lemma find_competitor_id (db : Store.t) (cid : Z) (c : Competitor.t) :
  find_competitor db cid = Some c -> Competitor.id c = cid.
Proof.
  intros F. apply find_some in F. apply Z.eqb_eq. exact (proj2 F).
Qed.

(** The whole call for a competitor that is in the store, with no result
    named. *)
Lemma add_known_run (event_id cid : Z) (first_name last_name gender : string)
    (year : option Z) (class_id : Z) (club_id : option Z)
    (not_competing : bool) (chip : string) (fields : list (Z * string))
    (status : ResultStatus.t) (start_time : option datetime) (w : world)
    (c : Competitor.t) :
  let db := w_db w in
  let db1 := with_competitor db cid first_name last_name
               (if opt_is_none (Competitor.club_id c) then club_id
                else Competitor.club_id c)
               gender year
               (if String.eqb (Competitor.chip c) "" then chip
                else Competitor.chip c) in
  let id := fresh_id (map EntryRow.id (Store.entries db)) in
  let cp := course_params_of db (Some class_id) in
  let result := compute_result (snd cp) (fst cp) start_time year
                  (if String.eqb gender "" then None else Some gender)
                  (PersonRaceResult.of_status status) in
  find_competitor db cid = Some c ->
  add_or_update_entry None event_id (Some cid) first_name last_name gender
    year class_id club_id not_competing chip fields status start_time None w
  = (Ok id,
     mk_world
       (Store.set_entries
          (Store.entries db ++
             [EntryRow.mk id event_id (Some cid) (Some class_id) club_id
                not_competing (Some chip) fields result
                (PersonRaceStart.mk start_time)])
          db1)
       (w_log w ++ [TxBegin IMMEDIATE; TxCommit;
                    CacheClear (Some event_id) (Some id)])).
Proof.
  intros db db1 id cp result F.
  rewrite add_or_update_entry_run. unfold bind at 1.
  rewrite (add_branch_run event_id cid first_name last_name gender year
             class_id club_id not_competing chip fields status start_time
             (opened IMMEDIATE w) c F).
  rewrite (find_competitor_id _ _ _ F).
  change (w_db (opened IMMEDIATE w)) with db. fold db1. fold id.
  unfold bind at 1. rewrite settle_plain_run. cbn [w_db w_log l_id l_chip
    l_year l_gender l_result].
  unfold ret. cbn [w_db w_log]. unfold opened. cbn [w_db w_log].
  rewrite <- app_assoc. simpl app. f_equal. f_equal.
  unfold with_result. cbn [Store.entries Store.set_entries].
  rewrite map_app. unfold id at 1. rewrite map_set_result_fresh.
  cbn [map]. unfold set_result. cbn [EntryRow.id]. rewrite Z.eqb_refl.
  reflexivity.
Qed.

(** X16: an entry added for a competitor of the store can be read back.
    The rows the call refers to (event, class, club) are in the store and
    the name of the call is not the name of another competitor, so that
    no constraint of the store is at stake.  The call returns an id above
    every id in use; the entries that were there are untouched and the
    new one follows them; [get_entry] of the returned id gives the event,
    class, chip, start time, flag and fields of the call, the name, gender
    and year of the call as those of the competitor, and as result the
    status of the call computed against the course and parameters of the
    class. *)
Theorem added_entry_is_read_back (event_id cid : Z)
    (first_name last_name gender : string) (year : option Z) (class_id : Z)
    (club_id : option Z) (not_competing : bool) (chip : string)
    (fields : list (Z * string)) (status : ResultStatus.t)
    (start_time : option datetime) (w : world) (c : Competitor.t) :
  let db := w_db w in
  let id := fresh_id (map EntryRow.id (Store.entries db)) in
  let cp := course_params_of db (Some class_id) in
  let result := compute_result (snd cp) (fst cp) start_time year
                  (if String.eqb gender "" then None else Some gender)
                  (PersonRaceResult.of_status status) in
  find_competitor db cid = Some c ->
  find (fun ev => Event.id ev =? event_id) (Store.events db) <> None ->
  find_class db class_id <> None ->
  (forall b, club_id = Some b -> find_club db b <> None) ->
  (forall x, In x (Store.competitors db) ->
             named first_name last_name x = true -> Competitor.id x = cid) ->
  exists w' e,
    add_or_update_entry None event_id (Some cid) first_name last_name gender
      year class_id club_id not_competing chip fields status start_time None
      w = (Ok id, w')
    /\ (forall old, In old (Store.entries db) -> EntryRow.id old < id)
    /\ Store.entries (w_db w')
       = (Store.entries db ++
            [EntryRow.mk id event_id (Some cid) (Some class_id) club_id
               not_competing (Some chip) fields result
               (PersonRaceStart.mk start_time)])%list
    /\ get_entry id w' = (Ok e, w')
    /\ Entry.id e = id
    /\ Entry.event_id e = event_id
    /\ Entry.competitor_id e = Some cid
    /\ Entry.first_name e = Some first_name
    /\ Entry.last_name e = Some last_name
    /\ Entry.gender e = Some gender
    /\ Entry.year e = year
    /\ Entry.class_id e = Some class_id
    /\ Entry.class_name e = option_map Class.name (find_class db class_id)
    /\ Entry.not_competing e = not_competing
    /\ Entry.chip e = Some chip
    /\ Entry.fields e = fields
    /\ Entry.result e = result
    /\ Entry.start e = PersonRaceStart.mk start_time.
Proof.
  intros db id cp result F _ _ _ _.
  rewrite (add_known_run event_id cid first_name last_name gender year
             class_id club_id not_competing chip fields status start_time w c
             F).
  fold db. fold id. fold cp. fold result.
  set (c' := Competitor.mk cid first_name last_name
               (if opt_is_none (Competitor.club_id c) then club_id
                else Competitor.club_id c)
               gender year
               (if String.eqb (Competitor.chip c) "" then chip
                else Competitor.chip c)).
  set (db1 := with_competitor db cid first_name last_name
                (Competitor.club_id c') gender year (Competitor.chip c')).
  set (row := EntryRow.mk id event_id (Some cid) (Some class_id) club_id
                not_competing (Some chip) fields result
                (PersonRaceStart.mk start_time)).
  set (db' := Store.set_entries (Store.entries db ++ [row]) db1).
  eexists. exists (join_entry db' row).
  split; [reflexivity|].
  split.
  { intros old Hin. apply fresh_id_above. apply in_map. exact Hin. }
  split; [reflexivity|].
  split.
  { exact (get_entry_added db1 row _ eq_refl). }
  assert (Fc : find_competitor db' cid = Some c').
  { unfold find_competitor, db', db1, with_competitor.
    cbn [Store.competitors Store.set_entries Store.set_competitors].
    apply (find_updated _ _ c c' F). reflexivity. }
  unfold join_entry. cbn [EntryRow.competitor_id EntryRow.class_id row].
  rewrite Fc. simpl. repeat split; reflexivity.
Qed.

(** X17: adding an entry for a competitor of the store rewrites the
    competitor (event, class and club of the call being in the store and
    the name not being that of another competitor): name, gender and year
    become those of the call, while a club and a chip the competitor
    already has are kept; the club and the chip of the call are taken only
    where the competitor has none.  No competitor is added. *)
Theorem added_entry_updates_competitor (event_id cid : Z)
    (first_name last_name gender : string) (year : option Z) (class_id : Z)
    (club_id : option Z) (not_competing : bool) (chip : string)
    (fields : list (Z * string)) (status : ResultStatus.t)
    (start_time : option datetime) (w : world) (c : Competitor.t) :
  let w' := snd (add_or_update_entry None event_id (Some cid) first_name
                   last_name gender year class_id club_id not_competing chip
                   fields status start_time None w) in
  find_competitor (w_db w) cid = Some c ->
  find (fun ev => Event.id ev =? event_id) (Store.events (w_db w)) <> None ->
  find_class (w_db w) class_id <> None ->
  (forall b, club_id = Some b -> find_club (w_db w) b <> None) ->
  (forall x, In x (Store.competitors (w_db w)) ->
             named first_name last_name x = true -> Competitor.id x = cid) ->
  exists c',
    find_competitor (w_db w') cid = Some c'
    /\ Competitor.first_name c' = first_name
    /\ Competitor.last_name c' = last_name
    /\ Competitor.gender c' = gender
    /\ Competitor.year c' = year
    /\ Competitor.club_id c'
       = match Competitor.club_id c with
         | Some club => Some club
         | None => club_id
         end
    /\ Competitor.chip c'
       = (if String.eqb (Competitor.chip c) "" then chip
          else Competitor.chip c)
    /\ List.length (Store.competitors (w_db w'))
       = List.length (Store.competitors (w_db w)).
Proof.
  intros w' F _ _ _ _. subst w'.
  rewrite (add_known_run event_id cid first_name last_name gender year
             class_id club_id not_competing chip fields status start_time w c
             F).
  cbn [snd w_db].
  eexists. split.
  { unfold find_competitor, with_competitor.
    cbn [Store.competitors Store.set_entries Store.set_competitors].
    apply (find_updated _ _ c _ F). reflexivity. }
  cbn [Competitor.first_name Competitor.last_name Competitor.gender
       Competitor.year Competitor.club_id Competitor.chip].
  repeat split; try reflexivity.
  - destruct (Competitor.club_id c); reflexivity.
  - unfold with_competitor.
    cbn [Store.competitors Store.set_entries Store.set_competitors].
    apply length_map.
Qed.

Lemma add_branch_by_name (event_id : Z) (first_name last_name gender : string)
    (year : option Z) (class_id : Z) (club_id : option Z)
    (not_competing : bool) (chip : string) (fields : list (Z * string))
    (status : ResultStatus.t) (start_time : option datetime) (w : world)
    (com : Competitor.t) :
  find (named first_name last_name) (Store.competitors (w_db w)) = Some com ->
  add_branch event_id None first_name last_name gender year class_id club_id
    not_competing chip fields status start_time w
  = add_branch event_id (Some (Competitor.id com)) first_name last_name
      (if String.eqb gender "" then Competitor.gender com else gender)
      (if opt_is_none year then Competitor.year com else year)
      class_id
      (if opt_is_none club_id then Competitor.club_id com else club_id)
      not_competing
      (if String.eqb chip "" then Competitor.chip com else chip)
      fields status start_time w.
Proof.
  intros F. unfold add_branch.
  unfold bind at 1. unfold bind at 1. unfold get_competitor_by_name.
  unfold bind at 1. unfold get_db at 1, ret at 1.
  change (fun c : Competitor.t =>
            String.eqb (Competitor.first_name c) first_name
            && String.eqb (Competitor.last_name c) last_name)
    with (named first_name last_name).
  rewrite F. unfold ret at 1.
  unfold bind at 2. unfold ret at 2. reflexivity.
Qed.

(** X18: registering by name is registering the competitor of that name.
    When the store has a competitor of the name, a call without
    competitor id does what the call with the id of that competitor does
    in which an empty gender, year, chip and club are replaced by those of
    the competitor. *)
Theorem entry_by_name_uses_competitor (event_id : Z)
    (first_name last_name gender : string) (year : option Z) (class_id : Z)
    (club_id : option Z) (not_competing : bool) (chip : string)
    (fields : list (Z * string)) (status : ResultStatus.t)
    (start_time : option datetime) (result_id : option Z) (w : world)
    (com : Competitor.t) :
  find (named first_name last_name) (Store.competitors (w_db w)) = Some com ->
  add_or_update_entry None event_id None first_name last_name gender year
    class_id club_id not_competing chip fields status start_time result_id w
  = add_or_update_entry None event_id (Some (Competitor.id com)) first_name
      last_name
      (if String.eqb gender "" then Competitor.gender com else gender)
      (if opt_is_none year then Competitor.year com else year)
      class_id
      (if opt_is_none club_id then Competitor.club_id com else club_id)
      not_competing
      (if String.eqb chip "" then Competitor.chip com else chip)
      fields status start_time result_id w.
Proof.
  intros F. rewrite !add_or_update_entry_run.
  unfold bind at 1. unfold bind at 3.
  rewrite (add_branch_by_name event_id first_name last_name gender year
             class_id club_id not_competing chip fields status start_time
             (opened IMMEDIATE w) com F).
  reflexivity.
Qed.

Lemma add_branch_new_name (event_id : Z) (first_name last_name gender : string)
    (year : option Z) (class_id : Z) (club_id : option Z)
    (not_competing : bool) (chip : string) (fields : list (Z * string))
    (status : ResultStatus.t) (start_time : option datetime) (w : world) :
  let db := w_db w in
  let cid := fresh_id (map Competitor.id (Store.competitors db)) in
  find (named first_name last_name) (Store.competitors db) = None ->
  add_branch event_id None first_name last_name gender year class_id club_id
    not_competing chip fields status start_time w
  = add_branch event_id (Some cid) first_name last_name gender year class_id
      club_id not_competing chip fields status start_time
      (mk_world
         (Store.set_competitors
            (Store.competitors db ++
               [Competitor.mk cid first_name last_name club_id gender year
                  chip])
            db)
         (w_log w)).
Proof.
  intros db cid F. unfold add_branch.
  unfold bind at 1. unfold bind at 1. unfold get_competitor_by_name.
  unfold bind at 1. unfold get_db at 1, ret at 1.
  change (fun c : Competitor.t =>
            String.eqb (Competitor.first_name c) first_name
            && String.eqb (Competitor.last_name c) last_name)
    with (named first_name last_name).
  fold db. rewrite F.
  unfold bind at 1. unfold add_competitor. unfold bind at 1.
  unfold get_db at 1. unfold bind at 1. unfold put_db at 1, ret at 1.
  cbn [w_db w_log]. fold db. fold cid. unfold ret at 1.
  unfold bind at 2. unfold ret at 2. reflexivity.
Qed.

Lemma map_update_fresh (cs : list Competitor.t) (c' : Competitor.t) :
  map (fun x => if Competitor.id x =? fresh_id (map Competitor.id cs)
                then c' else x) cs = cs.
Proof.
  transitivity (map (fun x => x) cs); [|apply map_id].
  apply map_ext_in. intros x Hin.
  pose proof (fresh_id_above (map Competitor.id cs) (Competitor.id x)
                (in_map _ _ _ Hin)) as L.
  destruct (Competitor.id x =? _) eqn:Q; [|reflexivity].
  apply Z.eqb_eq in Q. lia.
Qed.

(** X19: registering under a name the store does not know creates the
    competitor (event, class and club of the call being in the store).
    The call succeeds; the competitors that were there are
    untouched and one follows them, under an id above every id in use,
    with the name, club, gender, year and chip of the call; the new entry
    belongs to that competitor, and the name now finds it. *)
Theorem entry_by_new_name_creates_competitor (event_id : Z)
    (first_name last_name gender : string) (year : option Z) (class_id : Z)
    (club_id : option Z) (not_competing : bool) (chip : string)
    (fields : list (Z * string)) (status : ResultStatus.t)
    (start_time : option datetime) (w : world) :
  let db := w_db w in
  let cid := fresh_id (map Competitor.id (Store.competitors db)) in
  let id := fresh_id (map EntryRow.id (Store.entries db)) in
  let new := Competitor.mk cid first_name last_name club_id gender year chip in
  find (named first_name last_name) (Store.competitors db) = None ->
  find (fun ev => Event.id ev =? event_id) (Store.events db) <> None ->
  find_class db class_id <> None ->
  (forall b, club_id = Some b -> find_club db b <> None) ->
  exists w',
    add_or_update_entry None event_id None first_name last_name gender year
      class_id club_id not_competing chip fields status start_time None w
    = (Ok id, w')
    /\ Store.competitors (w_db w') = (Store.competitors db ++ [new])%list
    /\ (forall old, In old (Store.competitors db) -> Competitor.id old < cid)
    /\ option_map EntryRow.competitor_id (find_row (w_db w') id)
       = Some (Some cid)
    /\ get_competitor_by_name first_name last_name w' = (Ok (Some new), w').
Proof.
  intros db cid id new F _ _ _.
  rewrite add_or_update_entry_run. unfold bind at 1.
  rewrite (add_branch_new_name event_id first_name last_name gender year
             class_id club_id not_competing chip fields status start_time
             (opened IMMEDIATE w) F).
  change (w_db (opened IMMEDIATE w)) with db. fold cid. fold new.
  set (dbn := Store.set_competitors (Store.competitors db ++ [new]) db).
  assert (Fn : find_competitor dbn cid = Some new)
    by (exact (find_competitor_fresh (Store.competitors db) new eq_refl)).
  rewrite (add_branch_run event_id cid first_name last_name gender year
             class_id club_id not_competing chip fields status start_time
             (mk_world dbn (w_log (opened IMMEDIATE w))) new Fn).
  cbn [w_db w_log]. unfold bind at 1. rewrite settle_plain_run.
  cbn [w_db w_log l_id l_chip l_year l_gender l_result]. unfold ret.
  assert (Upd : (if opt_is_none (Competitor.club_id new) then club_id
                 else Competitor.club_id new) = club_id
                /\ (if String.eqb (Competitor.chip new) "" then chip
                    else Competitor.chip new) = chip).
  { unfold new. simpl. destruct club_id; destruct (String.eqb chip "");
      split; reflexivity. }
  destruct Upd as [U1 U2]. rewrite U1, U2.
  assert (Cs : Store.competitors
                 (with_competitor dbn (Competitor.id new) first_name
                    last_name club_id gender year chip)
               = (Store.competitors db ++ [new])%list).
  { unfold with_competitor, dbn.
    cbn [Store.competitors Store.set_competitors Competitor.id new].
    rewrite map_app. fold cid. unfold cid at 1. rewrite map_update_fresh.
    cbn [map Competitor.id]. rewrite Z.eqb_refl. reflexivity. }
  eexists. split; [reflexivity|]. cbn [w_db].
  unfold with_result at 1.
  cbn [Store.competitors Store.set_entries].
  split; [exact Cs|].
  split.
  { intros old Hin. apply fresh_id_above. apply in_map. exact Hin. }
  split.
  { unfold find_row, with_result. cbn [Store.entries Store.set_entries].
    rewrite map_app. change (Store.entries dbn) with (Store.entries db).
    rewrite map_set_result_fresh.
    cbn [map]. unfold set_result at 1. cbn [EntryRow.id].
    rewrite Z.eqb_refl. unfold id.
    erewrite find_row_fresh by reflexivity. reflexivity. }
  unfold get_competitor_by_name, bind, get_db, ret. cbn [w_db].
  unfold with_result at 1. cbn [Store.competitors Store.set_entries].
  rewrite Cs.
  change (fun c : Competitor.t =>
            String.eqb (Competitor.first_name c) first_name
            && String.eqb (Competitor.last_name c) last_name)
    with (named first_name last_name).
  rewrite (find_app_none _ _ new F); [reflexivity|].
  unfold named, new. simpl. rewrite !String.eqb_refl. reflexivity.
Qed.

(** X20: an update of an entry that is not in the store fails, whatever
    the other arguments: with [ConstraintError "Entry deleted"] when the
    event is in the store and with [EventNotFoundError] when it is not.
    The transaction is rolled back, the store is as before and the cache
    is not touched. *)
Theorem update_of_missing_entry (id event_id : Z) (competitor_id : option Z)
    (first_name last_name gender : string) (year : option Z) (class_id : Z)
    (club_id : option Z) (not_competing : bool) (chip : string)
    (fields : list (Z * string)) (status : ResultStatus.t)
    (start_time : option datetime) (result_id : option Z) (w : world) :
  find_row (w_db w) id = None ->
  add_or_update_entry (Some id) event_id competitor_id first_name last_name
    gender year class_id club_id not_competing chip fields status start_time
    result_id w
  = (Raise
       match find (fun ev => Event.id ev =? event_id)
               (Store.events (w_db w)) with
       | Some _ => ConstraintError "Entry deleted"
       | None => EventNotFoundError
       end,
     mk_world (w_db w) (w_log w ++ [TxBegin IMMEDIATE; TxRollback])).
Proof.
  intros F. rewrite add_or_update_entry_run. unfold bind at 1.
  unfold update_branch. unfold try_except. unfold bind at 1.
  unfold get_entry. unfold bind at 1. unfold get_db at 1.
  change (w_db (opened IMMEDIATE w)) with (w_db w). rewrite F.
  cbn [option_map of_option]. unfold raise at 1.
  rewrite reprobe_run by exact inner_key.
  unfold probe. change (w_db (opened IMMEDIATE w)) with (w_db w).
  rewrite F. cbn [opt_is_none].
  unfold rolled_back, opened. cbn [w_db w_log]. rewrite <- app_assoc.
  destruct (find _ _); reflexivity.
Qed.

End AddEntry.

Lemma add_or_update_entry_errors_witness :
  entry_error 1 1 Fixtures.entries_db (ConstraintError "Entry deleted").
Proof.
  apply (add_or_update_entry_errors (E:=SampleEngine.engine) 1 1 (Some 99)
           None "Angela" "Merkel" "F" (Some 1957) (Some 1) false "4711" []
           ResultStatus.INACTIVE None None
           (Fixtures.start_of Fixtures.entries_db)).
  reflexivity.
Defined.

Lemma added_entry_is_read_back_witness :
  exists w' e,
    add_or_update_entry (E:=SampleEngine.engine) None 1 (Some 1) "Angela"
      "Merkel" "F" (Some 1957) 1 (Some 1) false "4711" []
      ResultStatus.INACTIVE None None (Fixtures.start_of Fixtures.entries_db)
    = (Ok 1, w')
    /\ get_entry 1 w' = (Ok e, w')
    /\ Entry.last_name e = Some "Merkel"
    /\ Entry.class_name e = Some "Elite"
    /\ Entry.chip e = Some "4711".
Proof.
  destruct (added_entry_is_read_back (E:=SampleEngine.engine) 1 1 "Angela"
              "Merkel" "F" (Some 1957) 1 (Some 1) false "4711" []
              ResultStatus.INACTIVE None
              (Fixtures.start_of Fixtures.entries_db) Fixtures.merkel eq_refl)
    as (w' & e & Run & _ & _ & Get & _ & _ & _ & _ & Ln & _ & _ & _ & Cn & _
        & Ch & _).
  - simpl. discriminate.
  - simpl. discriminate.
  - intros b H. inversion H; subst. simpl. discriminate.
  - intros x [Hx|[]] _. subst x. reflexivity.
  - exists w', e. split; [exact Run|]. split; [exact Get|].
    split; [exact Ln|]. split; [exact Cn|exact Ch].
Defined.

Lemma added_entry_updates_competitor_witness :
  exists c',
    find_competitor
      (w_db (snd (add_or_update_entry (E:=SampleEngine.engine) None 1 (Some 1)
                    "Angela" "Kasner" "F" (Some 1954) 1 None false "4711" []
                    ResultStatus.INACTIVE None None
                    (Fixtures.start_of Fixtures.entries_db)))) 1 = Some c'
    /\ Competitor.last_name c' = "Kasner"
    /\ Competitor.club_id c' = Some 1
    /\ Competitor.chip c' = "1234567".
Proof.
  destruct (added_entry_updates_competitor (E:=SampleEngine.engine) 1 1
              "Angela" "Kasner" "F" (Some 1954) 1 None false "4711" []
              ResultStatus.INACTIVE None
              (Fixtures.start_of Fixtures.entries_db) Fixtures.merkel eq_refl)
    as (c' & F & _ & Ln & _ & _ & Cl & Ch & _).
  - simpl. discriminate.
  - simpl. discriminate.
  - intros b H. discriminate H.
  - intros x [Hx|[]] _. subst x. reflexivity.
  - exists c'. split; [exact F|]. split; [exact Ln|].
    split; [exact Cl|exact Ch].
Defined.

Lemma entry_by_name_uses_competitor_witness :
  add_or_update_entry (E:=SampleEngine.engine) None 1 None "Angela" "Merkel"
    "" None 1 None false "" [] ResultStatus.INACTIVE None None
    (Fixtures.start_of Fixtures.entries_db)
  = add_or_update_entry (E:=SampleEngine.engine) None 1 (Some 1) "Angela"
      "Merkel" "F" (Some 1957) 1 (Some 1) false "1234567" []
      ResultStatus.INACTIVE None None (Fixtures.start_of Fixtures.entries_db).
Proof.
  exact (entry_by_name_uses_competitor (E:=SampleEngine.engine) 1 "Angela"
           "Merkel" "" None 1 None false "" [] ResultStatus.INACTIVE None None
           (Fixtures.start_of Fixtures.entries_db) Fixtures.merkel eq_refl).
Defined.

Lemma entry_by_new_name_creates_competitor_witness :
  exists w',
    add_or_update_entry (E:=SampleEngine.engine) None 1 None "Jane" "Doe" "F"
      (Some 1990) 1 None false "9876" [] ResultStatus.INACTIVE None None
      (Fixtures.start_of Fixtures.entries_db) = (Ok 1, w')
    /\ Store.competitors (w_db w')
       = [Fixtures.merkel;
          Competitor.mk 2 "Jane" "Doe" None "F" (Some 1990) "9876"].
Proof.
  destruct (entry_by_new_name_creates_competitor (E:=SampleEngine.engine) 1
              "Jane" "Doe" "F" (Some 1990) 1 None false "9876" []
              ResultStatus.INACTIVE None
              (Fixtures.start_of Fixtures.entries_db) eq_refl)
    as (w' & Run & Cs & _).
  - simpl. discriminate.
  - simpl. discriminate.
  - intros b H. discriminate H.
  - exists w'. split; [exact Run|exact Cs].
Defined.

Lemma update_of_missing_entry_witness :
  add_or_update_entry (E:=SampleEngine.engine) (Some 99) 1 None "Angela"
    "Merkel" "F" (Some 1957) 1 (Some 1) false "4711" [] ResultStatus.INACTIVE
    None None (Fixtures.start_of Fixtures.entries_db)
  = (Raise (ConstraintError "Entry deleted"),
     mk_world Fixtures.entries_db [TxBegin IMMEDIATE; TxRollback]).
Proof.
  exact (update_of_missing_entry (E:=SampleEngine.engine) 99 1 None "Angela"
           "Merkel" "F" (Some 1957) 1 (Some 1) false "4711" []
           ResultStatus.INACTIVE None None
           (Fixtures.start_of Fixtures.entries_db) eq_refl).
Defined.

(** ** Editing the punches of an entry *)

Lemma si_rows_cons (x : SplitTime.t) (l : list SplitTime.t) :
  si_rows (x :: l)
  = (match SplitTime.si_punch_time x with
     | Some t => [(SplitTime.control_code x, t)]
     | None => []
     end ++ si_rows l)%list.
Proof. reflexivity. Qed.

Lemma si_rows_set_nth (n : nat) (f : SplitTime.t -> SplitTime.t)
    (l : list SplitTime.t) :
  (forall s, SplitTime.control_code (f s) = SplitTime.control_code s
             /\ SplitTime.si_punch_time (f s) = SplitTime.si_punch_time s) ->
  si_rows (set_nth n f l) = si_rows l.
Proof.
  intros H. revert n. induction l as [|x l IH]; intros n; [reflexivity|].
  destruct n as [|n]; cbn [set_nth]; rewrite !si_rows_cons.
  - destruct (H x) as [C S]. rewrite C, S. reflexivity.
  - rewrite IH. reflexivity.
Qed.

Lemma si_rows_remove_nth (n : nat) (l : list SplitTime.t) (sp : SplitTime.t) :
  nth_error l n = Some sp -> SplitTime.si_punch_time sp = None ->
  si_rows (remove_nth n l) = si_rows l.
Proof.
  revert n. induction l as [|x l IH]; intros n H S.
  - destruct n; discriminate.
  - destruct n as [|n]; cbn [remove_nth nth_error] in *.
    + inversion H; subst. rewrite si_rows_cons, S. reflexivity.
    + rewrite !si_rows_cons, (IH n H S). reflexivity.
Qed.

Lemma si_rows_insert (i : Z) (x : SplitTime.t) (l : list SplitTime.t) :
  SplitTime.si_punch_time x = None -> si_rows (py_insert i x l) = si_rows l.
Proof.
  intros S. unfold py_insert, si_rows.
  rewrite flat_map_app. simpl. rewrite S. simpl.
  rewrite <- flat_map_app, firstn_skipn. reflexivity.
Qed.

Section EditProofs.
Context {E : ResultEngine}.
Variable time_of_day : Type.
Variable time_eqb : time_of_day -> time_of_day -> bool.
Variable combine : Z -> time_of_day -> datetime.
Variable time_of : datetime -> time_of_day.
Variable NO_TIME : datetime.

(** The edit proper neither reads nor writes the store. *)
Lemma edit_result_pure (date : Z) (command control : string)
    (selected : selected_row) (punch_time : option time_of_day)
    (result : PersonRaceResult.t) (w w0 : world) :
  edit_result time_of_day time_eqb combine time_of NO_TIME date command
    control selected punch_time result w
  = (fst (edit_result time_of_day time_eqb combine time_of NO_TIME date
            command control selected punch_time result w0), w).
Proof.
  unfold edit_result. destruct selected as [| |i]; try reflexivity.
  unfold edit_rows, bind, of_option, ret, raise.
  destruct (String.eqb command "entr_ep_del").
  - destruct (py_index _ i) as [n|]; [|reflexivity].
    destruct (nth_error _ n) as [sp|]; [|reflexivity].
    destruct (opt_is_none _); reflexivity.
  - destruct (String.eqb command "entr_ep_edit"); [|reflexivity].
    destruct (py_index _ i); reflexivity.
Qed.

(** The edit leaves what the card holds as it is. *)
Lemma edit_result_si (date : Z) (command control : string)
    (selected : selected_row) (punch_time : option time_of_day)
    (result edited : PersonRaceResult.t) (w w' : world) :
  edit_result time_of_day time_eqb combine time_of NO_TIME date command
    control selected punch_time result w = (Ok edited, w') ->
  si_data edited = si_data result.
Proof.
  unfold edit_result. destruct selected as [| |i].
  - intros H. inversion H; subst. reflexivity.
  - intros H. inversion H; subst. reflexivity.
  - unfold edit_rows, bind, of_option, ret, raise.
    destruct (String.eqb command "entr_ep_del").
    + destruct (py_index _ i) as [n|]; [|discriminate].
      destruct (nth_error _ n) as [sp|] eqn:N; [|discriminate].
      destruct (opt_is_none (SplitTime.si_punch_time sp)) eqn:S;
        intros H; inversion H; subst; unfold si_data; simpl; f_equal.
      * destruct (SplitTime.si_punch_time sp) eqn:Sp; [discriminate|].
        exact (si_rows_remove_nth n _ sp N Sp).
      * apply si_rows_set_nth. intros s. split; reflexivity.
    + destruct (String.eqb command "entr_ep_edit").
      * destruct (py_index _ i) as [n|]; [|discriminate].
        intros H; inversion H; subst; unfold si_data; simpl; f_equal.
        apply si_rows_set_nth. intros s. split; reflexivity.
      * intros H; inversion H; subst; unfold si_data; simpl; f_equal.
        apply si_rows_insert. reflexivity.
Qed.

(** The edit fails on a row that is not there, and on nothing else. *)
Lemma edit_result_raises (date : Z) (command control : string)
    (selected : selected_row) (punch_time : option time_of_day)
    (result : PersonRaceResult.t) (w : world) (e : exn) :
  fst (edit_result time_of_day time_eqb combine time_of NO_TIME date command
         control selected punch_time result w) = Raise e ->
  e = IndexError
  /\ exists i,
       selected = Row i
       /\ (command = "entr_ep_del" \/ command = "entr_ep_edit")
       /\ py_index (PersonRaceResult.split_times result) i = None.
Proof.
  unfold edit_result. destruct selected as [| |i]; try discriminate.
  unfold edit_rows, bind, of_option, ret, raise.
  destruct (String.eqb command "entr_ep_del") eqn:D.
  - apply String.eqb_eq in D.
    destruct (py_index _ i) as [n|] eqn:P.
    + assert (L : (n < List.length (PersonRaceResult.split_times result))%nat).
      { unfold py_index in P.
        destruct ((0 <=? i) && (i <? _)) eqn:A.
        - inversion P; subst. apply andb_true_iff in A.
          destruct A as [A1 A2]. apply Z.leb_le in A1. apply Z.ltb_lt in A2.
          lia.
        - destruct ((- _ <=? i) && (i <? 0)) eqn:B; [|discriminate].
          inversion P; subst. apply andb_true_iff in B.
          destruct B as [B1 B2]. apply Z.leb_le in B1. apply Z.ltb_lt in B2.
          lia. }
      apply nth_error_Some in L.
      destruct (nth_error _ n) as [sp|]; [|contradiction].
      destruct (opt_is_none _); discriminate.
    + simpl. intros H. inversion H; subst.
      split; [reflexivity|]. exists i. repeat split; auto.
  - destruct (String.eqb command "entr_ep_edit") eqn:Ed; [|discriminate].
    apply String.eqb_eq in Ed.
    destruct (py_index _ i) as [n|] eqn:P; [discriminate|].
    simpl. intros H. inversion H; subst.
    split; [reflexivity|]. exists i. repeat split; auto.
Qed.

Lemma edit_entry_result_run (entry_id event_id : Z) (command control : string)
    (selected : selected_row) (punch_time : option time_of_day) (w : world) :
  let db := w_db w in
  let rolled := mk_world db (w_log w ++ [TxBegin IMMEDIATE; TxRollback]) in
  edit_entry_result time_of_day time_eqb combine time_of NO_TIME entry_id
    event_id command control selected punch_time w =
  match find (fun e => Event.id e =? event_id) (Store.events db) with
  | None => (Raise EventNotFoundError, rolled)
  | Some ev =>
      match find_row db entry_id with
      | None => (Raise KeyError, rolled)
      | Some row =>
          let entry := join_entry db row in
          match fst (edit_result time_of_day time_eqb combine time_of NO_TIME
                       (Event.date ev) command control selected punch_time
                       (EntryRow.result row) w) with
          | Raise e => (Raise e, rolled)
          | Ok edited =>
              let cp := course_params_of db (EntryRow.class_id row) in
              let result :=
                compute_result (snd cp) (fst cp)
                  (PersonRaceStart.start_time (EntryRow.start row))
                  (Entry.year entry) (Entry.gender entry) edited in
              (Ok (set_entry_result result entry),
               mk_world
                 (with_result db (EntryRow.id row) (EntryRow.chip row) result
                    (EntryRow.start row))
                 (w_log w ++ [TxBegin IMMEDIATE; TxCommit;
                              CacheClear (Some event_id) (Some entry_id)]))
          end
      end
  end.
Proof.
  intros db rolled. unfold edit_entry_result. unfold bind at 1.
  rewrite transaction_run.
  unfold bind at 1. unfold get_event. unfold bind at 1. unfold get_db at 1.
  change (w_db (opened IMMEDIATE w)) with db.
  destruct (find (fun e => Event.id e =? event_id) (Store.events db))
    as [ev|]; cbn [of_option].
  2: { unfold raise, rolled, rolled_back, opened. cbn [w_db w_log].
       rewrite <- app_assoc. reflexivity. }
  unfold ret at 1.
  unfold bind at 1. unfold get_entry. unfold bind at 1. unfold get_db at 1.
  change (w_db (opened IMMEDIATE w)) with db.
  destruct (find_row db entry_id) as [row|]; cbn [option_map of_option].
  2: { unfold raise, rolled, rolled_back, opened. cbn [w_db w_log].
       rewrite <- app_assoc. reflexivity. }
  unfold ret at 1. unfold bind at 1.
  rewrite (edit_result_pure (Event.date ev) command control selected
             punch_time (Entry.result (join_entry db row))
             (opened IMMEDIATE w) w).
  change (Entry.result (join_entry db row)) with (EntryRow.result row).
  destruct (fst (edit_result time_of_day time_eqb combine time_of NO_TIME
                   (Event.date ev) command control selected punch_time
                   (EntryRow.result row) w)) as [edited|e].
  2: { unfold rolled, rolled_back, opened. cbn [w_db w_log].
       rewrite <- app_assoc. reflexivity. }
  unfold bind at 1. rewrite class_course_run.
  change (w_db (opened IMMEDIATE w)) with db.
  unfold bind at 1. unfold update_entry_result. unfold bind at 1.
  unfold get_db at 1, put_db at 1. cbn [w_db w_log].
  unfold ret at 1. unfold committed. cbn [w_db w_log].
  unfold bind, clear_cache, emit, ret. cbn [w_db w_log].
  unfold opened. cbn [w_db w_log]. rewrite <- !app_assoc. reflexivity.
Qed.

Lemma find_set_result_other (id other : Z) chip result start
    (rows : list EntryRow.t) :
  other <> id ->
  find (fun r => EntryRow.id r =? other) (map (set_result id chip result start) rows)
  = find (fun r => EntryRow.id r =? other) rows.
Proof.
  intros N. induction rows as [|r rows IH]; [reflexivity|].
  cbn [map find]. rewrite set_result_id.
  destruct (EntryRow.id r =? other) eqn:Q.
  - apply Z.eqb_eq in Q. rewrite set_result_other by congruence. reflexivity.
  - exact IH.
Qed.

(** X21: editing the punches of an entry by hand never changes what the
    card holds.  After a successful [edit_entry_result] the entry carries
    the result the engine computed, against the course and parameters of
    the class of the entry and with its start time, year and gender, from
    an edited result that has the SI start and finish times and the SI
    punches of the stored one, in their order.  Chip, start, class and
    competitor of the entry are as before, the other entries and the
    other tables are untouched, and the cache is invalidated once, after
    the commit. *)
Theorem edit_keeps_card_data (entry_id event_id : Z) (command control : string)
    (selected : selected_row) (punch_time : option time_of_day)
    (w w' : world) (e : Entry.t) :
  edit_entry_result time_of_day time_eqb combine time_of NO_TIME entry_id
    event_id command control selected punch_time w = (Ok e, w') ->
  exists row edited,
    let cp := course_params_of (w_db w) (EntryRow.class_id row) in
    find_row (w_db w) entry_id = Some row
    /\ si_data edited = si_data (EntryRow.result row)
    /\ Entry.result e
       = compute_result (snd cp) (fst cp)
           (PersonRaceStart.start_time (EntryRow.start row))
           (Entry.year e) (Entry.gender e) edited
    /\ find_row (w_db w') entry_id
       = Some (EntryRow.mk entry_id (EntryRow.event_id row)
                 (EntryRow.competitor_id row) (EntryRow.class_id row)
                 (EntryRow.club_id row) (EntryRow.not_competing row)
                 (EntryRow.chip row) (EntryRow.fields row) (Entry.result e)
                 (EntryRow.start row))
    /\ (forall other, other <> entry_id ->
                      find_row (w_db w') other = find_row (w_db w) other)
    /\ same_but_entries (w_db w) (w_db w')
    /\ w_log w'
       = (w_log w ++ [TxBegin IMMEDIATE; TxCommit;
                      CacheClear (Some event_id) (Some entry_id)])%list.
Proof.
  rewrite edit_entry_result_run.
  destruct (find (fun e => Event.id e =? event_id) (Store.events (w_db w)))
    as [ev|]; [|discriminate].
  destruct (find_row (w_db w) entry_id) as [row|] eqn:Fr; [|discriminate].
  destruct (fst (edit_result time_of_day time_eqb combine time_of NO_TIME
                   (Event.date ev) command control selected punch_time
                   (EntryRow.result row) w)) as [edited|x] eqn:Ed;
    [|discriminate].
  destruct (find_row_id _ _ _ Fr) as [_ Id]. subst entry_id.
  cbv zeta. intros H. inversion H; subst. clear H.
  exists row, edited. cbv zeta. cbn [w_db w_log].
  split; [reflexivity|].
  split.
  { apply (edit_result_si (Event.date ev) command control selected punch_time
             (EntryRow.result row) edited w w).
    rewrite (edit_result_pure _ _ _ _ _ _ w w), Ed. reflexivity. }
  split; [reflexivity|].
  split.
  { unfold find_row, with_result. cbn [Store.entries Store.set_entries].
    unfold find_row in Fr.
    rewrite (find_set_result _ _ _ _ _ _ Fr).
    unfold set_result. rewrite Z.eqb_refl. reflexivity. }
  split.
  { intros other N. unfold find_row, with_result.
    cbn [Store.entries Store.set_entries].
    apply find_set_result_other. exact N. }
  split; [apply set_entries_same|reflexivity].
Qed.

(** X22: the errors of [edit_entry_result] can be read against the store
    of the call.  It raises [EventNotFoundError] for an event that is not
    in the store, [KeyError] for an entry that is not in the store, and
    [IndexError] for a delete or an edit of a split time row that does
    not exist; it raises nothing else, and inserting a row never fails on
    the row number.  After an error the transaction is rolled back, the
    store is as before and the cache is not touched.  Conversely, a
    delete or an edit of a row that does not exist raises [IndexError]. *)
Theorem edit_entry_result_errors (entry_id event_id : Z)
    (command control : string) (selected : selected_row)
    (punch_time : option time_of_day) (w : world) :
  let db := w_db w in
  let run := edit_entry_result time_of_day time_eqb combine time_of NO_TIME
               entry_id event_id command control selected punch_time w in
  let event := find (fun e => Event.id e =? event_id) (Store.events db) in
  let missing_row :=
    exists row i,
      find_row db entry_id = Some row
      /\ selected = Row i
      /\ (command = "entr_ep_del" \/ command = "entr_ep_edit")
      /\ py_index (PersonRaceResult.split_times (EntryRow.result row)) i
         = None in
  (forall e, fst run = Raise e ->
     snd run = mk_world db (w_log w ++ [TxBegin IMMEDIATE; TxRollback])
     /\ match e with
        | EventNotFoundError => event = None
        | KeyError => event <> None /\ find_row db entry_id = None
        | IndexError => event <> None /\ missing_row
        | _ => False
        end)
  /\ (event <> None -> missing_row -> fst run = Raise IndexError).
Proof.
  intros db run event missing_row. subst run.
  rewrite edit_entry_result_run. fold db. fold event.
  destruct event as [ev|] eqn:Fe.
  2: { split.
       - intros e H. inversion H; subst. split; reflexivity.
       - intros N. exfalso. apply N. reflexivity. }
  assert (Ne : Some ev <> None) by discriminate.
  destruct (find_row db entry_id) as [row|] eqn:Fr.
  2: { split.
       - intros e H. inversion H; subst.
         split; [reflexivity|]. split; [exact Ne|reflexivity].
       - intros _ (row & i & Q & _). discriminate. }
  destruct (fst (edit_result time_of_day time_eqb combine time_of NO_TIME
                   (Event.date ev) command control selected punch_time
                   (EntryRow.result row) w)) as [edited|x] eqn:Ed.
  - split; [intros e H; discriminate|].
    intros _ (row' & i & Q & S & C & P). exfalso.
    inversion Q; subst row'. subst selected.
    unfold edit_result, edit_rows, bind, of_option, ret, raise in Ed.
    rewrite P in Ed.
    destruct C as [C|C]; subst command; simpl in Ed; discriminate.
  - destruct (edit_result_raises _ _ _ _ _ _ _ _ Ed)
      as (X & i & S & C & P).
    subst x. split.
    + intros e H. inversion H; subst. split; [reflexivity|].
      split; [exact Ne|]. exists row, i. repeat split; assumption.
    + intros _ _. reflexivity.
Qed.

End EditProofs.

Lemma edit_keeps_card_data_witness :
  exists e w' row edited,
    edit_entry_result (E:=SampleEngine.engine) Z Z.eqb Scenarios.day_combine
      Scenarios.day_time 0 1 1 "entr_ep_edit" "" (Row 0) (Some 45542)
      (Fixtures.start_of Fixtures.entry_1_db) = (Ok e, w')
    /\ find_row Fixtures.entry_1_db 1 = Some row
    /\ si_data edited = si_data (EntryRow.result row)
    /\ option_map EntryRow.chip (find_row (w_db w') 1) = Some (Some "4711").
Proof.
  eexists. eexists.
  edestruct (edit_keeps_card_data (E:=SampleEngine.engine) Z Z.eqb
               Scenarios.day_combine Scenarios.day_time 0 1 1 "entr_ep_edit"
               "" (Row 0) (Some 45542)
               (Fixtures.start_of Fixtures.entry_1_db))
    as (row & edited & Fr & Si & _ & Fr' & _).
  - vm_compute. reflexivity.
  - exists row, edited. split; [reflexivity|]. split; [exact Fr|].
    split; [exact Si|].
    cbn in Fr. inversion Fr; subst row.
    exact (f_equal (option_map EntryRow.chip) Fr').
Defined.

Lemma edit_entry_result_errors_witness :
  fst (edit_entry_result (E:=SampleEngine.engine) Z Z.eqb
         Scenarios.day_combine Scenarios.day_time 0 1 1 "entr_ep_del" ""
         (Row 99) None (Fixtures.start_of Fixtures.entry_1_db))
  = Raise IndexError.
Proof.
  apply (proj2 (edit_entry_result_errors (E:=SampleEngine.engine) Z Z.eqb
                  Scenarios.day_combine Scenarios.day_time 0 1 1
                  "entr_ep_del" "" (Row 99) None
                  (Fixtures.start_of Fixtures.entry_1_db))).
  - discriminate.
  - eexists. exists 99. split; [reflexivity|]. split; [reflexivity|].
    split; [left; reflexivity|]. vm_compute. reflexivity.
Defined.

(** ** From the log to the store *)

Section LogToStore.
Context {E : ResultEngine}.
Variable schema_valid : LogItem.t -> bool.
Variable parse_date : string -> option datetime.

Lemma card_read_total (ev : Event.t) (item : CardReaderMessage.t)
    (r : PersonRaceResult.t) (w : world) :
  CardReaderMessage.result item = Some r ->
  exists res w',
    (if Event.light ev then light_card_read ev item
     else standard_card_read ev item) w = (Ok res, w').
Proof.
  intros R. destruct (Event.light ev).
  - destruct (light_card_read_cases ev item r w R)
      as [[_ [res [Run _]]]|[_ [res [row [log [Run _]]]]]];
      rewrite Run; eexists; eexists; reflexivity.
  - set (assigned := assigned_of (w_db w) (Event.id ev)
                       (CardReaderMessage.control_card item)).
    set (unassigned := unassigned_of (w_db w) (Event.id ev)
                         (CardReaderMessage.control_card item)).
    destruct (find (same_as r) assigned) as [a|] eqn:D.
    + unfold standard_card_read. unfold bind at 1. rewrite R. simpl.
      unfold bind at 1. unfold get_entries. unfold bind at 1.
      unfold get_db at 1, ret at 1.
      change (filter (fun e => opt_is_some (Entry.class_name e))
                (filter (chip_is (CardReaderMessage.control_card item))
                   (entries_of (w_db w) (Event.id ev)))) with assigned.
      rewrite D. eexists. eexists. reflexivity.
    + destruct (can_assign assigned unassigned r) eqn:C.
      * pose proof (proj1 (can_assign_iff _ _ _) C) as [a [A _]].
        destruct (merge_path_run ev item r a [] w R A D C) as [res Run].
        rewrite Run. eexists. eexists. reflexivity.
      * destruct (unassigned_path_run ev item r w R D C) as [res [Run _]].
        rewrite Run. eexists. eexists. reflexivity.
Qed.

(** X23: what [parse_cardreader_log] makes of a log entry is accepted by
    [store_cardreader_result].  For a message that came out of the
    parser, ingestion returns with the entry type of the message and the
    event whenever the key resolves to an event, and raises
    [EventNotFoundError] when it does not; it raises nothing else. *)
Theorem parsed_message_is_stored (item : LogItem.t) (m : CardReaderMessage.t)
    (event_key : string) (w : world) :
  parse_cardreader_log schema_valid parse_date item = inr m ->
  match find (key_matches event_key) (Store.events (w_db w)) with
  | Some ev =>
      exists res w',
        store_cardreader_result event_key m w
        = (Ok (CardReaderMessage.entry_type m, ev, res), w')
  | None =>
      fst (store_cardreader_result event_key m w) = Raise EventNotFoundError
  end.
Proof.
  intros P.
  destruct (find (key_matches event_key) (Store.events (w_db w)))
    as [ev|] eqn:F.
  - destruct (String.eqb (CardReaderMessage.entry_type m) "cardRead") eqn:T.
    + apply String.eqb_eq in T.
      destruct (CardReaderMessage.result m) as [r|] eqn:R.
      * rewrite (card_read_run _ _ _ _ F T).
        destruct (card_read_total ev m r (opened IMMEDIATE w) R)
          as [res [w1 Run]].
        rewrite Run, T. eexists. eexists. reflexivity.
      * exfalso.
        unfold parse_cardreader_log in P.
        destruct (schema_valid item); simpl in P; [|discriminate].
        apply and_then_inr in P. destruct P as [entry_type [Ty P]].
        apply and_then_inr in P. destruct P as [s [S P]].
        apply and_then_inr in P. destruct P as [entry_time [D P]].
        destruct (String.eqb entry_type "cardRead") eqn:Q.
        -- apply and_then_inr in P. destruct P as [clear [_ P]].
           apply and_then_inr in P. destruct P as [check [_ P]].
           apply and_then_inr in P. destruct P as [start [_ P]].
           apply and_then_inr in P. destruct P as [finish [_ P]].
           apply and_then_inr in P. destruct P as [ps [_ P]].
           apply and_then_inr in P. destruct P as [rows [_ P]].
           inversion P; subst. discriminate.
        -- inversion P; subst. simpl in T. subst entry_type. discriminate.
    + apply String.eqb_neq in T.
      rewrite (other_message_run event_key m w ev F T).
      eexists. eexists. reflexivity.
  - unfold store_cardreader_result. unfold bind at 1.
    rewrite in_event_run, F. reflexivity.
Qed.

End LogToStore.

Lemma parsed_message_is_stored_witness :
  exists m res w',
    parse_cardreader_log Scenarios.any_item Scenarios.clock
      Scenarios.card_read_item = inr m
    /\ store_cardreader_result (E:=SampleEngine.engine) "4711" m
         (Fixtures.start_of Fixtures.light_db)
       = (Ok ("cardRead", Fixtures.light_event, res), w').
Proof.
  eexists.
  edestruct (parsed_message_is_stored (E:=SampleEngine.engine)
               Scenarios.any_item Scenarios.clock Scenarios.card_read_item _
               "4711" (Fixtures.start_of Fixtures.light_db) eq_refl)
    as (res & w' & Run).
  exists res, w'. split; [reflexivity|exact Run].
Defined.

(** ** Entry ids *)

Lemma ids_stay_distinct_refl (db : Store.t) : ids_stay_distinct db db.
Proof. intros H. exact H. Qed.

Lemma ids_stay_distinct_trans (a b c : Store.t) :
  ids_stay_distinct a b -> ids_stay_distinct b c -> ids_stay_distinct a c.
Proof. intros H K N. apply K. apply H. exact N. Qed.

Lemma NoDup_fresh (rows : list EntryRow.t) (row : EntryRow.t) :
  EntryRow.id row = fresh_id (map EntryRow.id rows) ->
  NoDup (map EntryRow.id rows) ->
  NoDup (map EntryRow.id (rows ++ [row])).
Proof.
  intros I N. rewrite map_app. simpl.
  apply (Permutation_NoDup (l := EntryRow.id row :: map EntryRow.id rows)).
  - apply Permutation_cons_append.
  - constructor; [|exact N]. intros Hin.
    pose proof (fresh_id_above _ _ Hin). lia.
Qed.

Lemma ids_set_entry id class_id club_id nc chip fields result start rows :
  map EntryRow.id
    (map (set_entry id class_id club_id nc chip fields result start) rows)
  = map EntryRow.id rows.
Proof.
  rewrite map_map. apply map_ext. intros r. unfold set_entry.
  destruct (EntryRow.id r =? id) eqn:Q; [|reflexivity].
  apply Z.eqb_eq in Q. simpl. congruence.
Qed.

Lemma distinct_add_entry event_id competitor_id class_id club_id not_competing
    chip fields result start :
  keeps ids_stay_distinct
    (add_entry event_id competitor_id class_id club_id not_competing chip
       fields result start).
Proof. intros w N. simpl. apply NoDup_fresh; [reflexivity|exact N]. Qed.

Lemma distinct_update_entry id class_id club_id not_competing chip fields
    result start :
  keeps ids_stay_distinct
    (update_entry id class_id club_id not_competing chip fields result start).
Proof. intros w N. simpl. rewrite ids_set_entry. exact N. Qed.

Lemma distinct_update_entry_result id chip result start :
  keeps ids_stay_distinct (update_entry_result id chip result start).
Proof. intros w N. simpl. rewrite ids_set_result. exact N. Qed.

Lemma distinct_delete_entry id : keeps ids_stay_distinct (delete_entry id).
Proof. intros w N. simpl. apply NoDup_ids_filter. exact N. Qed.

Lemma distinct_add_competitor first_name last_name club_id gender year chip :
  keeps ids_stay_distinct
    (add_competitor first_name last_name club_id gender year chip).
Proof. intros w N. exact N. Qed.

Lemma distinct_update_competitor id first_name last_name club_id gender year
    chip :
  keeps ids_stay_distinct
    (update_competitor id first_name last_name club_id gender year chip).
Proof. intros w N. exact N. Qed.

Ltac distinct_step :=
  match goal with
  | |- keeps _ (bind _ _) =>
      apply (keeps_bind _ ids_stay_distinct_trans); [|intros]
  | |- keeps _ (try_except _ _) =>
      apply (keeps_try _ ids_stay_distinct_trans); [|intros]
  | |- keeps _ (transaction _ _) =>
      apply (keeps_transaction _ ids_stay_distinct_refl)
  | |- keeps _ (for_each _ _) =>
      apply (keeps_for_each _ ids_stay_distinct_refl ids_stay_distinct_trans);
      intros
  | |- keeps _ (ret _) => apply (keeps_ret _ ids_stay_distinct_refl)
  | |- keeps _ (raise _) => apply (keeps_raise _ ids_stay_distinct_refl)
  | |- keeps _ get_db => apply (keeps_get_db _ ids_stay_distinct_refl)
  | |- keeps _ (clear_cache _ _) =>
      apply (keeps_clear_cache _ ids_stay_distinct_refl)
  | |- keeps _ (of_option _ _) =>
      apply (keeps_of_option _ ids_stay_distinct_refl)
  | |- keeps _ (add_entry _ _ _ _ _ _ _ _ _) => apply distinct_add_entry
  | |- keeps _ (update_entry _ _ _ _ _ _ _ _) => apply distinct_update_entry
  | |- keeps _ (update_entry_result _ _ _ _) =>
      apply distinct_update_entry_result
  | |- keeps _ (delete_entry _) => apply distinct_delete_entry
  | |- keeps _ (add_competitor _ _ _ _ _ _) => apply distinct_add_competitor
  | |- keeps _ (update_competitor _ _ _ _ _ _ _) =>
      apply distinct_update_competitor
  | |- keeps _ (match_classes _ _ _) =>
      apply keeps_match_classes; exact ids_stay_distinct_refl
  | |- keeps _ (match ?x with _ => _ end) => destruct x
  | |- keeps _ (if ?x then _ else _) => destruct x
  | |- keeps _ (let _ := _ in _) => cbv zeta
  end.

Ltac distinct := keeps_reads; repeat distinct_step.

Section Distinct.
Context {E : ResultEngine}.

Lemma distinct_reprobe {A} event_id id competitor_id class_id club_id e :
  keeps ids_stay_distinct
    (@reprobe A event_id id competitor_id class_id club_id e).
Proof. unfold reprobe. distinct. Qed.

(** X24: the entry points keep the ids of the entries distinct.  When no
    two entries of the store share an id, none do after
    [store_cardreader_result], [assign_name_to_light_entry],
    [add_or_update_entry] or [delete_entry], whether these return or
    raise. *)
Theorem entry_ids_stay_distinct (w : world) :
  NoDup (map EntryRow.id (Store.entries (w_db w))) ->
  (forall event_key item,
     NoDup (map EntryRow.id
              (Store.entries
                 (w_db (snd (store_cardreader_result event_key item w))))))
  /\ (forall event_key chip first_name last_name,
        NoDup (map EntryRow.id
                 (Store.entries
                    (w_db (snd (assign_name_to_light_entry event_key chip
                                  first_name last_name w))))))
  /\ (forall id event_id competitor_id first_name last_name gender year
             class_id club_id not_competing chip fields status start_time
             result_id,
        NoDup (map EntryRow.id
                 (Store.entries
                    (w_db (snd (add_or_update_entry id event_id competitor_id
                                  first_name last_name gender year class_id
                                  club_id not_competing chip fields status
                                  start_time result_id w))))))
  /\ (forall id,
        NoDup (map EntryRow.id
                 (Store.entries (w_db (snd (entries_delete_entry id w)))))).
Proof.
  intros N. repeat split; intros;
    match goal with
    | |- NoDup (map EntryRow.id (Store.entries (w_db (snd (?m w))))) =>
        assert (K : keeps ids_stay_distinct m); [|exact (K w N)]
    end.
  - unfold store_cardreader_result, light_card_read, standard_card_read.
    distinct.
  - unfold assign_name_to_light_entry. distinct.
  - unfold add_or_update_entry, add_branch, update_branch, settle_result.
    keeps_reads. repeat first [apply distinct_reprobe | distinct_step].
  - unfold entries_delete_entry. distinct.
Qed.

End Distinct.

(** ** One event at a time *)

Section Isolation.
Context {E : ResultEngine}.

Lemma rows_of_other_append (db db' : Store.t) (row : EntryRow.t) (other : Z) :
  Store.entries db' = (Store.entries db ++ [row])%list ->
  EntryRow.event_id row <> other ->
  rows_of db' other = rows_of db other.
Proof.
  intros He Hn. unfold rows_of. rewrite He, filter_app. simpl.
  destruct (EntryRow.event_id row =? other) eqn:Q.
  - apply Z.eqb_eq in Q. contradiction.
  - apply app_nil_r.
Qed.

Lemma rows_of_other_set_result (db : Store.t) (row : EntryRow.t) (other : Z)
    chip result start :
  NoDup (map EntryRow.id (Store.entries db)) ->
  In row (Store.entries db) ->
  EntryRow.event_id row <> other ->
  rows_of (with_result db (EntryRow.id row) chip result start) other
  = rows_of db other.
Proof.
  intros N Hin Hn. unfold rows_of, with_result.
  cbn [Store.entries Store.set_entries].
  rewrite filter_event_set_result.
  transitivity (map (fun r => r)
                  (filter (fun r => EntryRow.event_id r =? other)
                     (Store.entries db))); [|apply map_id].
  apply map_ext_in. intros r Hr. apply filter_In in Hr.
  destruct Hr as [Hr Ev]. apply Z.eqb_eq in Ev.
  apply set_result_other. intros Q.
  assert (r = row) by (apply (same_id_same_row _ _ _ N Hr Hin Q)).
  subst r. contradiction.
Qed.

Lemma rows_of_other_without (db : Store.t) (row : EntryRow.t) (other : Z) :
  NoDup (map EntryRow.id (Store.entries db)) ->
  In row (Store.entries db) ->
  EntryRow.event_id row <> other ->
  rows_of (without_entry db (EntryRow.id row)) other = rows_of db other.
Proof.
  intros N Hin Hn. unfold rows_of, without_entry.
  cbn [Store.entries Store.set_entries].
  rewrite filter_comm. apply forallb_filter_id. apply forallb_forall.
  intros r Hr. apply filter_In in Hr. destruct Hr as [Hr Ev].
  apply Z.eqb_eq in Ev. apply negb_true_iff. apply Z.eqb_neq. intros Q.
  assert (r = row) by (apply (same_id_same_row _ _ _ N Hr Hin Q)).
  subst r. contradiction.
Qed.

Lemma card_entry_in_event (db : Store.t) (event_id : Z) (chip : option string)
    (e : Entry.t) :
  In e (card_entries db event_id chip) ->
  exists row,
    In row (Store.entries db)
    /\ EntryRow.event_id row = event_id
    /\ EntryRow.id row = Entry.id e.
Proof.
  intros Hin. destruct (card_entry_row _ _ _ _ Hin) as [row [Hr He]].
  unfold rows_of in Hr. apply filter_In in Hr. destruct Hr as [Hr Ev].
  apply Z.eqb_eq in Ev. exists row. subst e. repeat split; assumption.
Qed.

Lemma duplicate_path_run (ev : Event.t) (item : CardReaderMessage.t)
    (r : PersonRaceResult.t) (a : Entry.t) (w : world) :
  CardReaderMessage.result item = Some r ->
  find (same_as r)
    (assigned_of (w_db w) (Event.id ev) (CardReaderMessage.control_card item))
  = Some a ->
  exists res, standard_card_read ev item w = (Ok res, w).
Proof.
  intros R D.
  unfold standard_card_read. unfold bind at 1. rewrite R. simpl.
  unfold bind at 1. unfold get_entries. unfold bind at 1.
  unfold get_db at 1, ret at 1.
  change (filter (fun e => opt_is_some (Entry.class_name e))
            (filter (chip_is (CardReaderMessage.control_card item))
               (entries_of (w_db w) (Event.id ev))))
    with (assigned_of (w_db w) (Event.id ev)
            (CardReaderMessage.control_card item)).
  rewrite D. eexists. reflexivity.
Qed.

(** What a card read does to the entries of another event: nothing. *)
Lemma card_read_stays_in_event (ev : Event.t) (item : CardReaderMessage.t)
    (w : world) (other : Z) :
  NoDup (map EntryRow.id (Store.entries (w_db w))) ->
  other <> Event.id ev ->
  rows_of (w_db (snd ((if Event.light ev then light_card_read ev item
                       else standard_card_read ev item) w))) other
  = rows_of (w_db w) other.
Proof.
  intros N Hn.
  destruct (CardReaderMessage.result item) as [r|] eqn:R.
  2: { destruct (Event.light ev);
         [unfold light_card_read|unfold standard_card_read];
         unfold bind at 1; rewrite R; reflexivity. }
  destruct (Event.light ev).
  - destruct (light_card_read_cases ev item r w R)
      as [[_ [res [Run _]]]|[_ [res [row [log [Run [_ [Ev _]]]]]]]];
      rewrite Run; [reflexivity|].
    cbn [snd w_db].
    apply (rows_of_other_append (w_db w) _ row); [reflexivity|congruence].
  - set (chip := CardReaderMessage.control_card item).
    set (assigned := assigned_of (w_db w) (Event.id ev) chip).
    set (unassigned := unassigned_of (w_db w) (Event.id ev) chip).
    destruct (find (same_as r) assigned) as [a|] eqn:D.
    { destruct (duplicate_path_run ev item r a w R D) as [res Run].
      rewrite Run. reflexivity. }
    destruct (can_assign assigned unassigned r) eqn:C.
    + pose proof (proj1 (can_assign_iff _ _ _) C) as [a [A _]].
      destruct (merge_path_run ev item r a [] w R A D C) as [res Run].
      rewrite Run. cbn [snd w_db]. clear Run.
      assert (Ia : In a (card_entries (w_db w) (Event.id ev) chip)).
      { assert (I : In a assigned) by (rewrite A; left; reflexivity).
        unfold assigned, assigned_of in I. apply filter_In in I.
        exact (proj1 I). }
      destruct (card_entry_in_event _ _ _ _ Ia) as [ra [Hra [Eva Ida]]].
      rewrite <- Ida.
      set (db1 := with_result (w_db w) (EntryRow.id ra) _ _ _).
      assert (S1 : rows_of db1 other = rows_of (w_db w) other).
      { apply rows_of_other_set_result; [exact N|exact Hra|congruence]. }
      fold chip. fold unassigned.
      destruct (find (same_as r) unassigned) as [u|] eqn:U; [|exact S1].
      destruct (list_eq_dec Entry.eq_dec unassigned [u]); [|exact S1].
      assert (Iu : In u (card_entries (w_db w) (Event.id ev) chip)).
      { apply find_some in U. destruct U as [I _].
        unfold unassigned, unassigned_of in I. apply filter_In in I.
        exact (proj1 I). }
      destruct (card_entry_in_event _ _ _ _ Iu) as [ru [Hru [Evu Idu]]].
      rewrite <- Idu, <- S1.
      match goal with
      | db1 := with_result _ ?i ?c ?res ?st |- _ =>
          rewrite <- (set_result_id i c res st ru);
          apply rows_of_other_without;
            [ unfold db1, with_result;
              cbn [Store.entries Store.set_entries];
              rewrite ids_set_result; exact N
            | unfold db1, with_result;
              cbn [Store.entries Store.set_entries];
              apply in_map; exact Hru
            | rewrite set_result_event; congruence ]
      end.
    + destruct (unassigned_path_run ev item r w R D C) as [res [Run _]].
      rewrite Run. cbn [snd]. fold chip. fold unassigned.
      destruct (find (same_as r) unassigned); [reflexivity|].
      cbn [w_db].
      apply (rows_of_other_append (w_db w) _
               (unassigned_row (w_db w) (Event.id ev) chip
                  (compute_result [] ClassParams_default None None None r)));
        [reflexivity|]. simpl. congruence.
Qed.

(** X25: ingestion stays within its event.  In a store with distinct
    entry ids, whatever the message and whether the call returns or
    raises, [store_cardreader_result] leaves the entries of every event
    other than the one the key resolves to exactly as they are. *)
Theorem ingestion_stays_in_event (event_key : string)
    (item : CardReaderMessage.t) (w : world) (ev : Event.t) (other : Z) :
  NoDup (map EntryRow.id (Store.entries (w_db w))) ->
  find (key_matches event_key) (Store.events (w_db w)) = Some ev ->
  other <> Event.id ev ->
  rows_of (w_db (snd (store_cardreader_result event_key item w))) other
  = rows_of (w_db w) other.
Proof.
  intros N F Hn.
  destruct (String.eqb (CardReaderMessage.entry_type item) "cardRead") eqn:T.
  - apply String.eqb_eq in T. rewrite (card_read_run _ _ _ _ F T).
    pose proof (card_read_stays_in_event ev item (opened IMMEDIATE w) other
                  N Hn) as S.
    destruct ((if Event.light ev then light_card_read ev item
               else standard_card_read ev item) (opened IMMEDIATE w))
      as [[res|e] w1]; [exact S|reflexivity].
  - apply String.eqb_neq in T.
    rewrite (other_message_run event_key item w ev F T). reflexivity.
Qed.

End Isolation.

Lemma entry_ids_stay_distinct_witness :
  NoDup (map EntryRow.id
           (Store.entries
              (w_db (snd (store_cardreader_result (E:=SampleEngine.engine)
                            "4711"
                            (Fixtures.card_read "000000" Fixtures.ok_result)
                            (Fixtures.start_of Fixtures.merge_db)))))).
Proof.
  apply (entry_ids_stay_distinct (E:=SampleEngine.engine)
           (Fixtures.start_of Fixtures.merge_db)).
  simpl. repeat constructor; simpl; intuition; discriminate.
Defined.

Lemma ingestion_stays_in_event_witness :
  rows_of
    (w_db (snd (store_cardreader_result (E:=SampleEngine.engine) "4711"
                  (Fixtures.card_read "4711" Fixtures.ok_result)
                  (Fixtures.start_of Scenarios.two_event_db)))) 2
  = [Scenarios.relay_row].
Proof.
  apply (ingestion_stays_in_event (E:=SampleEngine.engine) "4711"
           (Fixtures.card_read "4711" Fixtures.ok_result)
           (Fixtures.start_of Scenarios.two_event_db) Fixtures.standard_event
           2).
  - simpl. repeat constructor; simpl; intuition; discriminate.
  - reflexivity.
  - discriminate.
Defined.

(** ** Updating an entry, and giving it a result that was read before *)

Section UpdateEntry.
Context {E : ResultEngine}.

Lemma find_map_other (f : EntryRow.t -> EntryRow.t) (id other : Z)
    (rows : list EntryRow.t) :
  (forall r, EntryRow.id (f r) = EntryRow.id r) ->
  (forall r, EntryRow.id r <> id -> f r = r) ->
  other <> id ->
  find (fun r => EntryRow.id r =? other) (map f rows)
  = find (fun r => EntryRow.id r =? other) rows.
Proof.
  intros Hid Hfix N. induction rows as [|r rows IH]; [reflexivity|].
  cbn [map find]. rewrite Hid.
  destruct (EntryRow.id r =? other) eqn:Q.
  - apply Z.eqb_eq in Q. rewrite Hfix by congruence. reflexivity.
  - exact IH.
Qed.

Lemma find_app_other (other : Z) (rows : list EntryRow.t) (row : EntryRow.t) :
  EntryRow.id row <> other ->
  find (fun r => EntryRow.id r =? other) (rows ++ [row])
  = find (fun r => EntryRow.id r =? other) rows.
Proof.
  intros N. induction rows as [|y l IH]; simpl.
  - destruct (Z.eqb_spec (EntryRow.id row) other); [contradiction|reflexivity].
  - destruct (EntryRow.id y =? other); [reflexivity|exact IH].
Qed.

(** The first half of the [try] block of an update that names no result. *)
Lemma update_plain_run (id event_id : Z) (competitor_id : option Z)
    (first_name last_name gender : string) (year : option Z) (class_id : Z)
    (club_id : option Z) (not_competing : bool) (chip : string)
    (fields : list (Z * string)) (status : ResultStatus.t)
    (start_time : option datetime) (w : world) (row : EntryRow.t) (cid : Z)
    (c : Competitor.t) :
  find_row (w_db w) id = Some row ->
  EntryRow.competitor_id row = Some cid ->
  find_competitor (w_db w) cid = Some c ->
  update_branch id event_id competitor_id first_name last_name gender year
    class_id club_id not_competing chip fields status start_time None w
  = (Ok (mk_locals id competitor_id gender year club_id (Some chip)
           (EntryRow.result row)),
     mk_world
       (with_entry
          (with_competitor (w_db w) cid first_name last_name
             (Competitor.club_id c) gender year (Competitor.chip c))
          id (Some class_id) club_id not_competing (Some chip) fields
          (PersonRaceResult.set_status status (EntryRow.result row))
          (PersonRaceStart.set_start_time start_time (EntryRow.start row)))
       (w_log w)).
Proof.
  intros F C K.
  unfold update_branch.
  cbv [bind try_except ret of_option get_db put_db get_entry get_competitor
       update_competitor update_entry option_map].
  rewrite F.
  cbn [Entry.result Entry.event_id Entry.chip Entry.competitor_id Entry.start
       join_entry w_db w_log].
  rewrite C, K. rewrite (find_competitor_id _ _ _ K). reflexivity.
Qed.

(** The second half of the [try] block when the result of another entry
    is named. *)
Lemma settle_replace_run (event_id : Z) (l : locals) (class_id : Z)
    (status : ResultStatus.t) (start_time : option datetime) (rid : Z)
    (w : world) (rrow : EntryRow.t) :
  let db := without_entry (w_db w) rid in
  let cp := course_params_of db (Some class_id) in
  find_row (w_db w) rid = Some rrow ->
  rid <> -1 ->
  settle_result event_id l class_id status start_time (Some rid) w
  = (Ok tt,
     mk_world
       (with_result db (l_id l) (EntryRow.chip rrow)
          (compute_result (snd cp) (fst cp) start_time (l_year l)
             (if String.eqb (l_gender l) "" then None else Some (l_gender l))
             (PersonRaceResult.set_status status (EntryRow.result rrow)))
          (PersonRaceStart.mk start_time))
       (w_log w)).
Proof.
  intros db cp F N. unfold settle_result.
  cbv [bind try_except ret of_option get_db put_db get_entry delete_entry
       update_entry_result option_map].
  apply Z.eqb_neq in N. rewrite N, F.
  cbn [w_db w_log fst snd Entry.chip Entry.result join_entry opt_eqb negb orb].
  rewrite N. cbn [negb orb].
  rewrite class_course_run. reflexivity.
Qed.

(** X26: an update that names no result can be read back, and it stays
    with its entry.  The entry and its competitor are in the store, as are
    the event, class and club of the call, and the name of the call is not
    that of another competitor.  The call returns the id of the entry;
    the entry has the class, club, flag, chip, fields and start time of
    the call, and as result its former result with the status of the
    call, computed against the course and parameters of the new class; it
    keeps its event and its competitor, whatever [event_id] and
    [competitor_id] the call gives.  The competitor takes name, gender and
    year of the call and keeps its club and chip.  Every other entry is
    as before. *)
Theorem updated_entry_is_read_back (id event_id : Z)
    (competitor_id : option Z) (first_name last_name gender : string)
    (year : option Z) (class_id : Z) (club_id : option Z)
    (not_competing : bool) (chip : string) (fields : list (Z * string))
    (status : ResultStatus.t) (start_time : option datetime) (w : world)
    (row : EntryRow.t) (cid : Z) (c : Competitor.t) :
  let db := w_db w in
  let cp := course_params_of db (Some class_id) in
  let result := compute_result (snd cp) (fst cp) start_time year
                  (if String.eqb gender "" then None else Some gender)
                  (PersonRaceResult.set_status status (EntryRow.result row)) in
  find_row db id = Some row ->
  EntryRow.competitor_id row = Some cid ->
  find_competitor db cid = Some c ->
  find (fun ev => Event.id ev =? event_id) (Store.events db) <> None ->
  find_class db class_id <> None ->
  (forall b, club_id = Some b -> find_club db b <> None) ->
  (forall x, In x (Store.competitors db) ->
             named first_name last_name x = true -> Competitor.id x = cid) ->
  exists w',
    add_or_update_entry (Some id) event_id competitor_id first_name last_name
      gender year class_id club_id not_competing chip fields status
      start_time None w = (Ok id, w')
    /\ find_row (w_db w') id
       = Some (EntryRow.mk id (EntryRow.event_id row) (Some cid)
                 (Some class_id) club_id not_competing (Some chip) fields
                 result (PersonRaceStart.mk start_time))
    /\ (forall other, other <> id ->
                      find_row (w_db w') other = find_row db other)
    /\ find_competitor (w_db w') cid
       = Some (Competitor.mk cid first_name last_name (Competitor.club_id c)
                 gender year (Competitor.chip c))
    /\ List.length (Store.entries (w_db w')) = List.length (Store.entries db).
Proof.
  intros db cp result F C K _ _ _ _.
  rewrite add_or_update_entry_run. unfold bind at 1.
  rewrite (update_plain_run id event_id competitor_id first_name last_name
             gender year class_id club_id not_competing chip fields status
             start_time (opened IMMEDIATE w) row cid c F C K).
  change (w_db (opened IMMEDIATE w)) with db.
  unfold bind at 1. rewrite settle_plain_run.
  cbn [w_db w_log l_id l_chip l_year l_gender l_result]. unfold ret.
  eexists. split; [reflexivity|]. cbn [w_db].
  destruct (find_row_id _ _ _ F) as [_ Id].
  unfold find_row, with_result, with_entry, with_competitor.
  cbn [Store.entries Store.set_entries Store.set_competitors
       Store.competitors].
  split.
  { unfold find_row in F.
    rewrite (find_id_map id _ _ _ (set_result_id id _ _ _)
               (find_id_map id _ _ _
                  (set_entry_id id _ _ _ _ _ _ _) F)).
    unfold set_result, set_entry. rewrite Id, Z.eqb_refl.
    cbn [EntryRow.id]. rewrite Z.eqb_refl. cbn. rewrite C. reflexivity. }
  split.
  { intros other N.
    rewrite (find_map_other _ id other _ (set_result_id id _ _ _)
               (fun r H => set_result_other id _ _ _ r H) N).
    apply (find_map_other _ id other _ (set_entry_id id _ _ _ _ _ _ _)
             (fun r H => set_entry_other id _ _ _ _ _ _ _ r H) N). }
  split.
  { unfold find_competitor. apply (find_updated _ _ c _ K). reflexivity. }
  rewrite !length_map. reflexivity.
Qed.

(** X27: registering with the result of another entry moves that result.
    The competitor of the call and the entry [result_id] are in the store
    (as are event, class and club, the name not being that of another
    competitor).  The call returns a new id; the entry [result_id] is
    gone; the new entry carries the chip of that entry, not the chip of
    the call, and its result with the status of the call, computed against
    the course and parameters of the class; every other entry is as
    before. *)
Theorem result_is_moved_to_new_entry (event_id cid : Z)
    (first_name last_name gender : string) (year : option Z) (class_id : Z)
    (club_id : option Z) (not_competing : bool) (chip : string)
    (fields : list (Z * string)) (status : ResultStatus.t)
    (start_time : option datetime) (rid : Z) (w : world) (c : Competitor.t)
    (rrow : EntryRow.t) :
  let db := w_db w in
  let id := fresh_id (map EntryRow.id (Store.entries db)) in
  let cp := course_params_of db (Some class_id) in
  let result := compute_result (snd cp) (fst cp) start_time year
                  (if String.eqb gender "" then None else Some gender)
                  (PersonRaceResult.set_status status (EntryRow.result rrow)) in
  find_competitor db cid = Some c ->
  find_row db rid = Some rrow ->
  rid <> -1 ->
  find (fun ev => Event.id ev =? event_id) (Store.events db) <> None ->
  find_class db class_id <> None ->
  (forall b, club_id = Some b -> find_club db b <> None) ->
  (forall x, In x (Store.competitors db) ->
             named first_name last_name x = true -> Competitor.id x = cid) ->
  exists w',
    add_or_update_entry None event_id (Some cid) first_name last_name gender
      year class_id club_id not_competing chip fields status start_time
      (Some rid) w = (Ok id, w')
    /\ find_row (w_db w') rid = None
    /\ find_row (w_db w') id
       = Some (EntryRow.mk id event_id (Some cid) (Some class_id) club_id
                 not_competing (EntryRow.chip rrow) fields result
                 (PersonRaceStart.mk start_time))
    /\ (forall other, other <> id -> other <> rid ->
                      find_row (w_db w') other = find_row db other).
Proof.
  intros db id cp result K F N _ _ _ _.
  pose proof (fresh_row_differs _ _ _ F) as Nf. fold db in Nf. fold id in Nf.
  rewrite add_or_update_entry_run. unfold bind at 1.
  rewrite (add_branch_run event_id cid first_name last_name gender year
             class_id club_id not_competing chip fields status start_time
             (opened IMMEDIATE w) c K).
  change (w_db (opened IMMEDIATE w)) with db. fold id.
  set (row0 := EntryRow.mk id event_id (Some cid) (Some class_id) club_id
                 not_competing (Some chip) fields
                 (PersonRaceResult.of_status status)
                 (PersonRaceStart.mk start_time)).
  set (db1 := with_competitor db _ _ _ _ _ _ _).
  unfold bind at 1.
  assert (F2 : find_row (Store.set_entries (Store.entries db ++ [row0]) db1)
                 rid = Some rrow).
  { unfold find_row. cbn [Store.entries Store.set_entries].
    apply find_id_app. exact F. }
  rewrite (settle_replace_run event_id _ class_id status start_time rid
             (mk_world _ _) rrow F2 N).
  cbn [w_db w_log l_id l_chip l_year l_gender l_result]. unfold ret.
  eexists. split; [reflexivity|]. cbn [w_db].
  unfold find_row, with_result, without_entry.
  cbn [Store.entries Store.set_entries].
  split.
  { rewrite (find_map_other _ id rid _ (set_result_id id _ _ _)
               (fun r H => set_result_other id _ _ _ r H))
      by congruence.
    apply find_filter_same. }
  split.
  { assert (F0 : find (fun r => EntryRow.id r =? id)
                   (filter (fun r => negb (EntryRow.id r =? rid))
                      (Store.entries db ++ [row0])) = Some row0).
    { rewrite find_filter_other by exact Nf.
      exact (find_row_fresh _ row0 eq_refl). }
    rewrite (find_id_map id _ _ _ (set_result_id id _ _ _) F0).
    unfold set_result, row0. cbn [EntryRow.id]. rewrite Z.eqb_refl.
    reflexivity. }
  intros other No Nr.
  rewrite (find_map_other _ id other _ (set_result_id id _ _ _)
             (fun r H => set_result_other id _ _ _ r H) No).
  rewrite find_filter_other by exact Nr.
  apply find_app_other. exact (not_eq_sym No).
Qed.

End UpdateEntry.

Lemma updated_entry_is_read_back_witness :
  exists w',
    add_or_update_entry (E:=SampleEngine.engine) (Some 1) 1 None "Angela"
      "Merkel" "F" (Some 1957) 1 (Some 1) true "555" []
      ResultStatus.DISQUALIFIED (Some 40000) None
      (Fixtures.start_of Fixtures.entry_1_db) = (Ok 1, w')
    /\ option_map
         (fun r => (EntryRow.not_competing r, EntryRow.chip r,
                    EntryRow.start r))
         (find_row (w_db w') 1)
       = Some (true, Some "555", PersonRaceStart.mk (Some 40000))
    /\ option_map Competitor.chip (find_competitor (w_db w') 1)
       = Some "1234567".
Proof.
  destruct (updated_entry_is_read_back (E:=SampleEngine.engine) 1 1 None
              "Angela" "Merkel" "F" (Some 1957) 1 (Some 1) true "555" []
              ResultStatus.DISQUALIFIED (Some 40000)
              (Fixtures.start_of Fixtures.entry_1_db)
              (Fixtures.registered_row Fixtures.entry_1_result) 1
              Fixtures.merkel eq_refl eq_refl eq_refl)
    as (w' & Run & Fr & _ & Fc & _).
  - simpl. discriminate.
  - simpl. discriminate.
  - intros b H. inversion H; subst. simpl. discriminate.
  - intros x [Hx|[]] _. subst x. reflexivity.
  - exists w'. split; [exact Run|]. rewrite Fr, Fc. split; reflexivity.
Defined.

Lemma result_is_moved_to_new_entry_witness :
  exists w',
    add_or_update_entry (E:=SampleEngine.engine) None 1 (Some 1) "Angela"
      "Merkel" "F" (Some 1957) 1 None false "" [] ResultStatus.FINISHED None
      (Some 2) (Fixtures.start_of Fixtures.merge_db) = (Ok 3, w')
    /\ find_row (w_db w') 2 = None
    /\ option_map EntryRow.chip (find_row (w_db w') 3) = Some (Some "4711")
    /\ option_map (fun r => PersonRaceResult.status (EntryRow.result r))
         (find_row (w_db w') 3) = Some ResultStatus.OK.
Proof.
  destruct (result_is_moved_to_new_entry (E:=SampleEngine.engine) 1 1
              "Angela" "Merkel" "F" (Some 1957) 1 None false "" []
              ResultStatus.FINISHED None 2
              (Fixtures.start_of Fixtures.merge_db) Fixtures.angela
              (Fixtures.unassigned_read 2 Fixtures.ok_result)
              eq_refl eq_refl)
    as (w' & Run & Gone & Fr & _).
  - discriminate.
  - simpl. discriminate.
  - simpl. discriminate.
  - intros b H. discriminate H.
  - intros x [Hx|[]] _. subst x. reflexivity.
  - exists w'. split; [exact Run|]. split; [exact Gone|].
    split.
    + exact (f_equal (option_map EntryRow.chip) Fr).
    + exact (f_equal
               (option_map
                  (fun r => PersonRaceResult.status (EntryRow.result r)))
               Fr).
Defined.
